(** * Portfolio allocation optimizer

    A shallow embedding of [services/portfolio_optimizer.py] (class
    [PortfolioOptimizer]), of the data classes of
    [models/portfolio_models.py] it works on, and of the HTTP handler
    [optimize_portfolio] of [main.py], followed by the properties of the
    specification that were checked against them.

    Numbers.  [np.float64] is modelled by [float64]: an exact rational or
    one of the IEEE special values (two infinities and NaN).  In the main
    embedding arithmetic on finite values is exact and zero carries no
    sign; the special values follow IEEE 754 as NumPy applies it, so a
    division by zero yields an infinity or NaN and never raises.  The
    properties that depend on the last digit are stated over [Rounded], the
    same arithmetic with every operation followed by a rounding, of which
    [binary64] is the one the interpreter applies.

    Effects.  Python exceptions and the [logging] calls are threaded by the
    monad [M]: a computation takes the log written so far and returns a
    value or a raised exception together with the extended log.

    Collaborators.  yfinance, pandas, scikit-learn, SciPy's [minimize] and
    the transcendental NumPy routines are not part of the repository; they
    are the fields of the record [External], and every theorem is stated
    for an arbitrary value of it.  What a statement needs of a collaborator
    is a hypothesis: so [rejects_forward_fill], which says of pandas that
    it has no fill method called [forward]. *)

From Stdlib Require Import List Ascii String ZArith QArith Qabs Qround Qpower Lia Lqa
  Bool.
Import ListNotations.
Local Open Scope string_scope.
Local Open Scope list_scope.
Local Open Scope Q_scope.

(* ------------------------------------------------------------------ *)
(** ** np.float64 *)

Inductive float64 : Type :=
| Fin (q : Q)
| PInf
| NInf
| NaN.

Definition inf_of_sign (c : comparison) : float64 :=
  match c with Gt => PInf | Lt => NInf | Eq => NaN end.

Definition fopp (x : float64) : float64 :=
  match x with
  | Fin q => Fin (- q)
  | PInf => NInf
  | NInf => PInf
  | NaN => NaN
  end.

Definition fadd (x y : float64) : float64 :=
  match x, y with
  | NaN, _ | _, NaN => NaN
  | Fin a, Fin b => Fin (a + b)
  | PInf, NInf | NInf, PInf => NaN
  | PInf, _ | _, PInf => PInf
  | NInf, _ | _, NInf => NInf
  end.

Definition fsub (x y : float64) : float64 := fadd x (fopp y).

Definition fmul (x y : float64) : float64 :=
  match x, y with
  | NaN, _ | _, NaN => NaN
  | Fin a, Fin b => Fin (a * b)
  | Fin a, PInf | PInf, Fin a => inf_of_sign (a ?= 0)
  | Fin a, NInf | NInf, Fin a => inf_of_sign (0 ?= a)
  | PInf, PInf | NInf, NInf => PInf
  | PInf, NInf | NInf, PInf => NInf
  end.

(** NumPy's true division: [x / 0.0] is [inf], [-inf] or [nan]. *)
Definition fdiv (x y : float64) : float64 :=
  match x, y with
  | NaN, _ | _, NaN => NaN
  | Fin a, Fin b =>
      if Qeq_bool b 0 then inf_of_sign (a ?= 0) else Fin (a / b)
  | Fin _, (PInf | NInf) => Fin 0
  | PInf, Fin b => match b ?= 0 with Lt => NInf | _ => PInf end
  | NInf, Fin b => match b ?= 0 with Lt => PInf | _ => NInf end
  | (PInf | NInf), (PInf | NInf) => NaN
  end.

Definition fabs (x : float64) : float64 :=
  match x with
  | Fin q => Fin (Qabs q)
  | PInf | NInf => PInf
  | NaN => NaN
  end.

(** [x < y]; every comparison with NaN is false. *)
Definition flt (x y : float64) : bool :=
  match x, y with
  | NaN, _ | _, NaN => false
  | Fin a, Fin b => match a ?= b with Lt => true | _ => false end
  | Fin _, PInf => true
  | Fin _, NInf => false
  | PInf, _ => false
  | NInf, NInf => false
  | NInf, _ => true
  end.

Definition fgt (x y : float64) : bool := flt y x.

Definition is_finite (x : float64) : bool :=
  match x with Fin _ => true | _ => false end.

(** Equality of values: rationals are compared by [Qeq]. *)
Definition feq (x y : float64) : Prop :=
  match x, y with
  | Fin a, Fin b => a == b
  | PInf, PInf | NInf, NInf | NaN, NaN => True
  | _, _ => False
  end.

Definition feqb (x y : float64) : bool :=
  match x, y with
  | Fin a, Fin b => Qeq_bool a b
  | PInf, PInf | NInf, NInf | NaN, NaN => true
  | _, _ => false
  end.

Definition ndarray := list float64.
Definition matrix := list (list float64).

(* ------------------------------------------------------------------ *)
(** ** Python run time: exceptions, logging, builtins *)

Inductive exn : Type :=
| Exception (cls : string) (msg : string)
| HTTPException (status_code : Z) (detail : string).

Definition exn_class (e : exn) : string :=
  match e with
  | Exception cls _ => cls
  | HTTPException _ _ => "HTTPException"
  end.

Inductive result (A : Type) : Type :=
| Ok (a : A)
| Raise (e : exn).
Arguments Ok {A} a.
Arguments Raise {A} e.

Definition ZeroDivisionError : exn :=
  Exception "ZeroDivisionError" "division by zero".
Definition IndexError : exn := Exception "IndexError" "index out of range".
Definition KeyError (k : string) : exn := Exception "KeyError" k.
Definition ValueError (msg : string) : exn := Exception "ValueError" msg.
Definition OverflowError : exn :=
  Exception "OverflowError" "cannot convert float infinity to integer".

Inductive level : Type := INFO | WARNING | ERROR.
Definition log_record : Type := (level * string)%type.
Definition log := list log_record.

Definition M (A : Type) : Type := log -> result A * log.

Definition ret {A} (a : A) : M A := fun l => (Ok a, l).
Definition raise {A} (e : exn) : M A := fun l => (Raise e, l).
Definition bind {A B} (m : M A) (k : A -> M B) : M B :=
  fun l => match m l with
           | (Ok a, l') => k a l'
           | (Raise e, l') => (Raise e, l')
           end.
Definition lift {A} (r : result A) : M A := fun l => (r, l).
Definition logger (lv : level) (msg : string) : M unit :=
  fun l => (Ok tt, l ++ [(lv, msg)]).
(** [try: m  except Exception as e: h e] *)
Definition try_except {A} (m : M A) (h : exn -> M A) : M A :=
  fun l => match m l with
           | (Ok a, l') => (Ok a, l')
           | (Raise e, l') => h e l'
           end.

Notation "x <- m ;; k" := (bind m (fun x => k))
  (at level 61, m at next level, right associativity).
Notation "m ;;; k" := (bind m (fun _ => k))
  (at level 61, right associativity).

(** Sequencing of fallible pure code (no logging). *)
Definition rbind {A B} (r : result A) (k : A -> result B) : result B :=
  match r with
  | Ok a => k a
  | Raise e => Raise e
  end.
Notation "x <~ r ;; k" := (rbind r (fun x => k))
  (at level 61, r at next level, right associativity).

(** [str(e)] *)
Definition str (e : exn) : string :=
  match e with
  | Exception _ msg => msg
  | HTTPException _ detail => detail
  end.

(** [min(a, b)] and [max(a, b)] of Python keep their first argument unless
    the second compares strictly below (above) it, so a NaN in second
    position is never selected. *)
Definition py_min (a b : float64) : float64 := if flt b a then b else a.
Definition py_max (a b : float64) : float64 := if fgt b a then b else a.

(** [a / n] on Python numbers ([int] or [float], not NumPy scalars). *)
Definition py_truediv (a : Q) (n : nat) : result float64 :=
  match n with
  | O => Raise ZeroDivisionError
  | S _ => Ok (Fin (a / inject_Z (Z.of_nat n)))
  end.

(** [int(x)]: truncation towards zero. *)
Definition py_int (x : float64) : result Z :=
  match x with
  | Fin q => Ok (Z.quot (Qnum q) (Zpos (Qden q)))
  | PInf | NInf => Raise OverflowError
  | NaN => Raise (ValueError "cannot convert float NaN to integer")
  end.

(** Truthiness of an [Optional[str]]. *)
Definition truthy (s : option string) : bool :=
  match s with
  | None => false
  | Some s => negb (String.eqb s "")
  end.

(** [xs[i]] *)
Definition getitem {A} (xs : list A) (i : nat) : result A :=
  match nth_error xs i with
  | Some a => Ok a
  | None => Raise IndexError
  end.

(* ------------------------------------------------------------------ *)
(** ** NumPy on one- and two-dimensional arrays *)

Definition np_sum (a : ndarray) : float64 := fold_right fadd (Fin 0) a.

Fixpoint zip_with (f : float64 -> float64 -> float64) (a b : ndarray) : ndarray :=
  match a, b with
  | x :: a', y :: b' => f x y :: zip_with f a' b'
  | _, _ => []
  end.

Definition shape_error : exn :=
  ValueError "operands could not be broadcast together".

(** Elementwise [a * b], [a - b], [a / b] of two vectors of one shape. *)
Definition elementwise (f : float64 -> float64 -> float64) (a b : ndarray)
  : result ndarray :=
  if Nat.eqb (List.length a) (List.length b) then Ok (zip_with f a b)
  else Raise shape_error.

(** [np.dot(a, b)] of two vectors. *)
Definition np_dot (a b : ndarray) : result float64 :=
  p <~ elementwise fmul a b ;; Ok (np_sum p).

(** [np.dot(m, v)] of a matrix and a vector. *)
Fixpoint np_dot_mv (m : matrix) (v : ndarray) : result ndarray :=
  match m with
  | [] => Ok []
  | row :: m' =>
      d <~ np_dot row v ;;
      ds <~ np_dot_mv m' v ;;
      Ok (d :: ds)
  end.

(** [m * c] for a scalar [c]. *)
Definition scale (m : matrix) (c : float64) : matrix :=
  map (map (fun a => fmul a c)) m.

(** [a ** 2] *)
Definition square (a : ndarray) : ndarray := map (fun x => fmul x x) a.

Definition isnan (x : float64) : bool :=
  match x with NaN => true | _ => false end.

(** [Series.sum()] with its default [skipna=True]: NaN entries are left
    out, and the sum of nothing is 0. *)
Definition series_sum (a : ndarray) : float64 :=
  np_sum (filter (fun v => negb (isnan v)) a).

(** [np.max(a)] and [np.min(a)]: a NaN anywhere gives NaN, an empty array
    raises. *)
Definition np_maximum (a b : float64) : float64 :=
  match a, b with
  | NaN, _ | _, NaN => NaN
  | _, _ => if flt a b then b else a
  end.

Definition np_minimum (a b : float64) : float64 :=
  match a, b with
  | NaN, _ | _, NaN => NaN
  | _, _ => if flt b a then b else a
  end.

Definition zero_size_error : exn :=
  ValueError "zero-size array to reduction operation which has no identity".

Definition np_max (a : ndarray) : result float64 :=
  match a with
  | [] => Raise zero_size_error
  | x :: a' => Ok (fold_left np_maximum a' x)
  end.

Definition np_min (a : ndarray) : result float64 :=
  match a with
  | [] => Raise zero_size_error
  | x :: a' => Ok (fold_left np_minimum a' x)
  end.

(* ------------------------------------------------------------------ *)
(** ** models/portfolio_models.py *)

Inductive RiskTolerance : Type := CONSERVATIVE | MODERATE | AGGRESSIVE.

Inductive OptimizationObjective : Type :=
| MAX_RETURN
| MIN_RISK
| MAX_SHARPE
| EQUAL_WEIGHT.

Module PortfolioConstraint.
Record t : Type := Build {
  type : string;            (* "max_weight", "min_weight", "sector_limit" *)
  symbol : option string;
  sector : option string;
  value : float64
}.
End PortfolioConstraint.

Module PortfolioOptimizationRequest.
Record t : Type := Build {
  symbols : list string;
  risk_tolerance : RiskTolerance;
  investment_amount : float64;
  objective : OptimizationObjective;
  constraints : list PortfolioConstraint.t;
  rebalance_frequency : string
}.
End PortfolioOptimizationRequest.

Module AllocationRecommendation.
Record t : Type := Build {
  symbol : string;
  company_name : string;
  recommended_weight : float64;
  recommended_shares : Z;
  recommended_amount : float64;
  expected_return : float64;
  risk_contribution : float64;
  sector : string
}.
End AllocationRecommendation.

Module RiskMetrics.
Record t : Type := Build {
  portfolio_volatility : float64;
  value_at_risk_95 : float64;
  expected_return : float64;
  sharpe_ratio : float64;
  max_drawdown : float64;
  beta : float64
}.
End RiskMetrics.

(** The field [metadata] keeps its default [{}] and is left out. *)
Module PortfolioOptimizationResponse.
Record t : Type := Build {
  allocations : list AllocationRecommendation.t;
  risk_metrics : RiskMetrics.t;
  total_investment : float64;
  expected_annual_return : float64;
  optimization_score : float64;
  rebalancing_suggestions : list string;
  diversification_score : float64;
  generated_at : Z
}.
End PortfolioOptimizationResponse.

(* ------------------------------------------------------------------ *)
(** ** pandas containers *)

(** A one-dimensional labelled array. *)
Record Series (I : Type) : Type := mkSeries {
  s_index : list I;
  s_values : ndarray
}.
Arguments mkSeries {I} _ _.
Arguments s_index {I} _.
Arguments s_values {I} _.

(** A table of prices or returns: one column per symbol, one row per
    trading date. *)
Record DataFrame : Type := mkFrame {
  columns : list string;
  index : list Z;
  values : list ndarray
}.

(** [yf.download(...)['Adj Close']] is a Series for one symbol and a
    DataFrame for several. *)
Inductive downloaded : Type :=
| AsSeries (s : Series Z)
| AsFrame (d : DataFrame).

Definition to_frame (s : Series Z) (name : string) : DataFrame :=
  mkFrame [name] (s_index s) (map (fun v => [v]) (s_values s)).

(** [idx.get_loc(k)] on an index of unique labels. *)
Fixpoint get_loc (idx : list string) (k : string) : result nat :=
  match idx with
  | [] => Raise (KeyError k)
  | s :: rest =>
      if String.eqb s k then Ok O
      else i <~ get_loc rest k ;; Ok (S i)
  end.

(** A Python [dict] with string keys: the binding added last wins. *)
Definition dict (V : Type) : Type := list (string * V).

Definition dict_set {V} (d : dict V) (k : string) (v : V) : dict V := (k, v) :: d.

Fixpoint dict_get {V} (d : dict V) (k : string) (default : V) : V :=
  match d with
  | [] => default
  | (k', v) :: d' => if String.eqb k' k then v else dict_get d' k default
  end.

(* ------------------------------------------------------------------ *)
(** ** The collaborators outside the repository *)

(** One entry of SciPy's [constraints] list: [{'type': ..., 'fun': ...}]. *)
Record constraint_dict : Type := mkConstraint {
  c_type : string;
  c_fun : ndarray -> result float64
}.

(** SciPy's [OptimizeResult], restricted to the two attributes read. *)
Record OptimizeResult : Type := mkOptimizeResult {
  success : bool;
  x : ndarray
}.

Record External : Type := mkExternal {
  (** [yf.download(symbols, period=period, progress=False)['Adj Close']] *)
  yf_download : list string -> string -> result downloaded;
  (** [yf.download('SPY', period='2y', progress=False)['Adj Close']] *)
  yf_download_one : string -> string -> result (Series Z);
  (** [hist = yf.Ticker(symbol).history(period=...)]: [None] when
      [hist.empty], otherwise [hist['Close'].iloc[-1]] *)
  ticker_last_close : string -> string -> result (option float64);
  (** [yf.Ticker(symbol).info] *)
  ticker_info : string -> result (dict string);
  (** [df.fillna(method=...)] *)
  pd_fillna : string -> DataFrame -> result DataFrame;
  (** [df.pct_change()], [df.dropna()], [df.mean()], [df.cov().values] *)
  pd_pct_change : DataFrame -> result DataFrame;
  pd_dropna : DataFrame -> result DataFrame;
  pd_mean : DataFrame -> result (Series string);
  pd_cov_values : DataFrame -> result matrix;
  (** [s.pct_change().dropna()] on a Series *)
  pd_series_returns : Series Z -> result (Series Z);
  (** [(df * weights).sum(axis=1)] *)
  pd_weighted_sum : DataFrame -> ndarray -> result (Series Z);
  (** [s.cumprod()], [s.expanding().max()], [s.min()] *)
  pd_cumprod : Series Z -> result (Series Z);
  pd_expanding_max : Series Z -> result (Series Z);
  pd_min : Series Z -> result float64;
  (** [a.index.intersection(b.index)], [df.loc[dates]], [s.loc[dates]] *)
  pd_intersection : list Z -> list Z -> result (list Z);
  pd_loc : DataFrame -> list Z -> result DataFrame;
  pd_series_loc : Series Z -> list Z -> result (Series Z);
  (** [LedoitWolf().fit(returns).covariance_] *)
  ledoit_wolf_covariance : DataFrame -> result matrix;
  (** [minimize(fun, x0, method=, bounds=, constraints=, options={'maxiter': n})] *)
  minimize :
    (ndarray -> result float64) -> ndarray -> string ->
    list (float64 * float64) -> list constraint_dict -> nat ->
    result OptimizeResult;
  (** [np.sqrt], [np.percentile(a, q)], [np.cov(a, b)[0, 1]], [np.var] *)
  np_sqrt : float64 -> float64;
  np_percentile : ndarray -> float64 -> result float64;
  np_cov01 : ndarray -> ndarray -> result float64;
  np_var : ndarray -> result float64;
  (** [datetime.utcnow()] *)
  utcnow : Z
}.

(* ------------------------------------------------------------------ *)
(** ** services/portfolio_optimizer.py: class PortfolioOptimizer *)

Definition risk_free_rate : float64 := Fin (2 # 100).
Definition trading_days : float64 := Fin 252.

Definition cat (a b : string) : string := String.append a b.
Local Infix "+++" := cat (at level 60, right associativity).

Section PortfolioOptimizer.

Variable E : External.

Definition _fetch_portfolio_data (symbols : list string) (period : string)
  : M DataFrame :=
  try_except
    (data <- lift (yf_download E symbols period) ;;
     data <- match data with
             | AsSeries s =>
                 name <- lift (getitem symbols 0) ;; ret (to_frame s name)
             | AsFrame d => ret d
             end ;;
     data <- lift (pd_fillna E "forward" data) ;;
     data <- lift (pd_fillna E "backward" data) ;;
     ret data)
    (fun e =>
       logger ERROR ("Failed to fetch portfolio data: " +++ str e) ;;;
       raise e).

Definition _calculate_covariance_matrix (returns : DataFrame) : result matrix :=
  match ledoit_wolf_covariance E returns with
  | Ok cov_matrix => Ok cov_matrix
  | Raise _ => pd_cov_values E returns
  end.

Definition _get_optimization_objective (risk_tolerance : RiskTolerance)
  : OptimizationObjective :=
  match risk_tolerance with
  | CONSERVATIVE => MIN_RISK
  | AGGRESSIVE => MAX_RETURN
  | MODERATE => MAX_SHARPE
  end.

(** The three lambdas appended to [constraints_list]. *)
Definition sum_to_one : constraint_dict :=
  mkConstraint "eq" (fun x => Ok (fsub (np_sum x) (Fin 1))).

Definition max_weight_ineq (i : nat) (val : float64) : constraint_dict :=
  mkConstraint "ineq" (fun x => xi <~ getitem x i ;; Ok (fsub val xi)).

Definition min_weight_ineq (i : nat) (val : float64) : constraint_dict :=
  mkConstraint "ineq" (fun x => xi <~ getitem x i ;; Ok (fsub xi val)).

Definition constraint_symbol (c : PortfolioConstraint.t) : string :=
  match PortfolioConstraint.symbol c with
  | Some s => s
  | None => ""
  end.

(** [idx = index.get_loc(symbol); constraints_list.append(mk idx value)]
    under [except KeyError: logger.warning(...)]. *)
Definition append_weight_constraint (index : list string)
    (mk : nat -> float64 -> constraint_dict)
    (constraints_list : list constraint_dict) (c : PortfolioConstraint.t)
  : M (list constraint_dict) :=
  try_except
    (idx <- lift (get_loc index (constraint_symbol c)) ;;
     ret (constraints_list ++ [mk idx (PortfolioConstraint.value c)]))
    (fun e =>
       if String.eqb (exn_class e) "KeyError" then
         logger WARNING
           ("Symbol " +++ constraint_symbol c +++ " not found in portfolio") ;;;
         ret constraints_list
       else raise e).

(** One iteration of [for constraint in constraints]. *)
Definition add_custom_constraint (index : list string)
    (constraints_list : list constraint_dict) (c : PortfolioConstraint.t)
  : M (list constraint_dict) :=
  if String.eqb (PortfolioConstraint.type c) "max_weight"
     && truthy (PortfolioConstraint.symbol c)
  then append_weight_constraint index max_weight_ineq constraints_list c
  else if String.eqb (PortfolioConstraint.type c) "min_weight"
          && truthy (PortfolioConstraint.symbol c)
  then append_weight_constraint index min_weight_ineq constraints_list c
  else ret constraints_list.

Fixpoint add_custom_constraints (index : list string)
    (constraints : list PortfolioConstraint.t)
    (constraints_list : list constraint_dict) : M (list constraint_dict) :=
  match constraints with
  | [] => ret constraints_list
  | c :: rest =>
      constraints_list <- add_custom_constraint index constraints_list c ;;
      add_custom_constraints index rest constraints_list
  end.

(** [sqrt(x.T . ((cov_matrix * trading_days) . x))] *)
Definition annual_volatility (cov_matrix : matrix) (x : ndarray)
  : result float64 :=
  v <~ np_dot_mv (scale cov_matrix trading_days) x ;;
  d <~ np_dot x v ;;
  Ok (np_sqrt E d).

(** [np.sum(x * mean_returns)]: the product with a Series is a Series, so
    the sum is [Series.sum()], which skips missing values. *)
Definition weighted_return (mean_returns : Series string) (x : ndarray)
  : result float64 :=
  p <~ elementwise fmul x (s_values mean_returns) ;; Ok (series_sum p).

Definition objective_max_return (mean_returns : Series string) (x : ndarray)
  : result float64 :=
  r <~ weighted_return mean_returns x ;; Ok (fopp r).

Definition objective_min_risk (cov_matrix : matrix) (x : ndarray)
  : result float64 :=
  annual_volatility cov_matrix x.

Definition objective_max_sharpe (mean_returns : Series string)
    (cov_matrix : matrix) (x : ndarray) : result float64 :=
  r <~ weighted_return mean_returns x ;;
  s <~ annual_volatility cov_matrix x ;;
  Ok (fdiv (fopp (fsub r risk_free_rate)) s).

Definition _optimize_weights (mean_returns : Series string)
    (cov_matrix : matrix) (objective : OptimizationObjective)
    (constraints : list PortfolioConstraint.t) : M ndarray :=
  let n_assets := List.length (s_values mean_returns) in
  w <- lift (py_truediv 1 n_assets) ;;
  let x0 := repeat w n_assets in
  constraints_list <-
    add_custom_constraints (s_index mean_returns) constraints [sum_to_one] ;;
  let bounds := repeat (Fin 0, Fin 1) n_assets in
  let solve (objective_func : ndarray -> result float64) : M ndarray :=
    try_except
      (result <- lift (minimize E objective_func x0 "SLSQP" bounds
                         constraints_list 1000) ;;
       if success result then ret (x result)
       else logger WARNING "Optimization failed, using equal weights" ;;;
            ret x0)
      (fun e => logger ERROR ("Optimization error: " +++ str e) ;;; ret x0)
  in
  match objective with
  | MAX_RETURN => solve (objective_max_return mean_returns)
  | MIN_RISK => solve (objective_min_risk cov_matrix)
  | MAX_SHARPE => solve (objective_max_sharpe mean_returns cov_matrix)
  | EQUAL_WEIGHT => ret x0
  end.

Fixpoint fetch_prices (symbols : list string) (prices : dict float64)
  : result (dict float64) :=
  match symbols with
  | [] => Ok prices
  | symbol :: rest =>
      hist <~ ticker_last_close E symbol "1d" ;;
      fetch_prices rest
        (dict_set prices symbol
           (match hist with Some close => close | None => Fin 0 end))
  end.

Definition _get_current_prices (symbols : list string) : M (dict float64) :=
  try_except
    (lift (fetch_prices symbols []))
    (fun e =>
       logger ERROR ("Failed to get current prices: " +++ str e) ;;;
       ret (map (fun symbol => (symbol, Fin 0)) symbols)).

Definition _get_company_info (symbol : string) : dict string :=
  match ticker_info E symbol with
  | Ok info =>
      [("name", dict_get info "longName" symbol);
       ("sector", dict_get info "sector" "Unknown")]
  | Raise _ => [("name", symbol); ("sector", "Unknown")]
  end.

Definition _calculate_risk_contribution (weights : ndarray)
    (cov_matrix : matrix) (asset_idx : nat) : result float64 :=
  cw <~ np_dot_mv cov_matrix weights ;;
  portfolio_variance <~ np_dot weights cw ;;
  marginal_contrib <~ getitem cw asset_idx ;;
  w <~ getitem weights asset_idx ;;
  Ok (fdiv (fmul w marginal_contrib) portfolio_variance).

Definition _calculate_var (returns : DataFrame) (weights : ndarray)
    (confidence_level : float64) : float64 :=
  match
    (portfolio_returns <~ pd_weighted_sum E returns weights ;;
     var <~ np_percentile E (s_values portfolio_returns)
              (fmul confidence_level (Fin 100)) ;;
     Ok (fabs var))
  with
  | Ok v => v
  | Raise _ => Fin (5 # 100)
  end.

Definition _calculate_max_drawdown (returns : DataFrame) (weights : ndarray)
  : float64 :=
  match
    (portfolio_returns <~ pd_weighted_sum E returns weights ;;
     cumulative <~ pd_cumprod E
       (mkSeries (s_index portfolio_returns)
          (map (fadd (Fin 1)) (s_values portfolio_returns))) ;;
     running_max <~ pd_expanding_max E cumulative ;;
     diff <~ elementwise fsub (s_values cumulative) (s_values running_max) ;;
     drawdown <~ elementwise fdiv diff (s_values running_max) ;;
     m <~ pd_min E (mkSeries (s_index cumulative) drawdown) ;;
     Ok (fabs m))
  with
  | Ok v => v
  | Raise _ => Fin (1 # 10)
  end.

Definition _calculate_portfolio_beta (returns : DataFrame) (weights : ndarray)
  : float64 :=
  match
    (spy <~ yf_download_one E "SPY" "2y" ;;
     spy_returns <~ pd_series_returns E spy ;;
     common_dates <~ pd_intersection E (index returns) (s_index spy_returns) ;;
     if Nat.ltb (List.length common_dates) 50 then Ok (Fin 1)
     else
       sub <~ pd_loc E returns common_dates ;;
       portfolio_returns <~ pd_weighted_sum E sub weights ;;
       market_returns <~ pd_series_loc E spy_returns common_dates ;;
       covariance <~ np_cov01 E (s_values portfolio_returns)
                       (s_values market_returns) ;;
       market_variance <~ np_var E (s_values market_returns) ;;
       Ok (if fgt market_variance (Fin 0)
           then fdiv covariance market_variance else Fin 1))
  with
  | Ok v => v
  | Raise _ => Fin 1
  end.

Definition _generate_rebalancing_suggestions (weights : ndarray)
    (risk_tolerance : RiskTolerance) : result (list string) :=
  let suggestions := [] in
  max_weight <~ np_max weights ;;
  let suggestions :=
    if fgt max_weight (Fin (4 # 10))
    then suggestions ++
         ["Consider reducing concentration in top holding to improve diversification"]
    else suggestions in
  min_weight <~ np_min (filter (fun w => fgt w (Fin 0)) weights) ;;
  let suggestions :=
    if flt min_weight (Fin (2 # 100))
    then suggestions ++
         ["Consider eliminating positions below 2% to reduce transaction costs"]
    else suggestions in
  Ok (suggestions ++
      [match risk_tolerance with
       | CONSERVATIVE =>
           "Consider monthly rebalancing to maintain risk targets"
       | AGGRESSIVE =>
           "Quarterly rebalancing may be sufficient for growth-focused portfolio"
       | MODERATE =>
           "Rebalance quarterly or when allocations drift more than 5% from targets"
       end]).

Definition _calculate_diversification_score (weights : ndarray)
  : result float64 :=
  let hhi := np_sum (square weights) in
  let max_hhi := Fin 1 in
  min_hhi <~ py_truediv 1 (List.length weights) ;;
  let diversification_score :=
    fdiv (fsub max_hhi hhi) (fsub max_hhi min_hhi) in
  Ok (py_max (Fin 0) (py_min (Fin 1) diversification_score)).

(** Line 47: [(portfolio_return - self.risk_free_rate) / portfolio_volatility]. *)
Definition sharpe_ratio_of (portfolio_return portfolio_volatility : float64)
  : float64 :=
  fdiv (fsub portfolio_return risk_free_rate) portfolio_volatility.

(** Lines 45 to 47: the annual return, the annual volatility and the Sharpe
    ratio of a weight vector. *)
Definition portfolio_metrics (mean_returns : Series string)
    (cov_matrix : matrix) (optimal_weights : ndarray)
  : result (float64 * float64 * float64) :=
  portfolio_return <~ weighted_return mean_returns optimal_weights ;;
  portfolio_volatility <~ annual_volatility cov_matrix optimal_weights ;;
  let sharpe_ratio := sharpe_ratio_of portfolio_return portfolio_volatility in
  Ok (portfolio_return, portfolio_volatility, sharpe_ratio).

(** The body of [for i, symbol in enumerate(symbols)], from index [i] on. *)
Fixpoint build_allocations (symbols : list string) (i : nat)
    (optimal_weights : ndarray) (mean_returns : Series string)
    (cov_matrix : matrix) (investment_amount : float64)
    (current_prices : dict float64)
  : result (list AllocationRecommendation.t) :=
  match symbols with
  | [] => Ok []
  | symbol :: rest =>
      weight <~ getitem optimal_weights i ;;
      let allocation_amount := fmul investment_amount weight in
      let current_price := dict_get current_prices symbol (Fin 0) in
      shares <~ (if fgt current_price (Fin 0)
                 then py_int (fdiv allocation_amount current_price)
                 else Ok 0%Z) ;;
      let company_info := _get_company_info symbol in
      expected <~ getitem (s_values mean_returns) i ;;
      contribution <~ _calculate_risk_contribution optimal_weights cov_matrix i ;;
      let allocation :=
        AllocationRecommendation.Build
          symbol (dict_get company_info "name" symbol) weight shares
          allocation_amount expected contribution
          (dict_get company_info "sector" "Unknown") in
      others <~ build_allocations rest (S i) optimal_weights mean_returns
                  cov_matrix investment_amount current_prices ;;
      Ok (allocation :: others)
  end.

Definition optimize (symbols : list string) (risk_tolerance : RiskTolerance)
    (investment_amount : float64)
    (constraints : option (list PortfolioConstraint.t))
  : M PortfolioOptimizationResponse.t :=
  try_except
    (data <- _fetch_portfolio_data symbols "2y" ;;
     changes <- lift (pd_pct_change E data) ;;
     returns <- lift (pd_dropna E changes) ;;
     daily_mean <- lift (pd_mean E returns) ;;
     let mean_returns :=
       mkSeries (s_index daily_mean)
         (map (fun m => fmul m trading_days) (s_values daily_mean)) in
     cov_matrix <- lift (_calculate_covariance_matrix returns) ;;
     let objective := _get_optimization_objective risk_tolerance in
     optimal_weights <-
       _optimize_weights mean_returns cov_matrix objective
         (match constraints with Some (c :: cs) => c :: cs | _ => [] end) ;;
     metrics <- lift (portfolio_metrics mean_returns cov_matrix optimal_weights) ;;
     let '(portfolio_return, portfolio_volatility, sharpe_ratio) := metrics in
     current_prices <- _get_current_prices symbols ;;
     allocations <-
       lift (build_allocations symbols 0 optimal_weights mean_returns
               cov_matrix investment_amount current_prices) ;;
     let risk_metrics :=
       RiskMetrics.Build
         portfolio_volatility
         (_calculate_var returns optimal_weights (Fin (5 # 100)))
         portfolio_return
         sharpe_ratio
         (_calculate_max_drawdown returns optimal_weights)
         (_calculate_portfolio_beta returns optimal_weights) in
     rebalancing_suggestions <-
       lift (_generate_rebalancing_suggestions optimal_weights risk_tolerance) ;;
     diversification_score <-
       lift (_calculate_diversification_score optimal_weights) ;;
     ret (PortfolioOptimizationResponse.Build
            allocations risk_metrics investment_amount portfolio_return
            sharpe_ratio rebalancing_suggestions diversification_score
            (utcnow E)))
    (fun e =>
       logger ERROR ("Portfolio optimization failed: " +++ str e) ;;;
       raise e).

(* ------------------------------------------------------------------ *)
(** ** main.py: POST /api/ai/portfolio/optimize *)

Definition optimize_portfolio (request : PortfolioOptimizationRequest.t)
    (user_id : option string) : M PortfolioOptimizationResponse.t :=
  try_except
    (logger INFO
       ("Portfolio optimization request by user "
        +++ match user_id with Some u => u | None => "None" end) ;;;
     optimization <-
       optimize (PortfolioOptimizationRequest.symbols request)
         (PortfolioOptimizationRequest.risk_tolerance request)
         (PortfolioOptimizationRequest.investment_amount request)
         (Some (PortfolioOptimizationRequest.constraints request)) ;;
     ret optimization)
    (fun e =>
       logger ERROR ("Portfolio optimization failed: " +++ str e) ;;;
       raise (HTTPException 500 ("Portfolio optimization failed: " +++ str e))).

End PortfolioOptimizer.

(* ------------------------------------------------------------------ *)
(** ** Checked invariants of a weight vector *)

(** [0 <= w <= 1] *)
Definition in_unit_interval (w : float64) : bool :=
  match w with
  | Fin q => Qle_bool 0 q && Qle_bool q 1
  | _ => false
  end.

(** [|sum(w) - 1| <= 1e-4] *)
Definition sums_to_one (w : ndarray) : bool :=
  match np_sum w with
  | Fin s => Qle_bool (Qabs (s - 1)) (1 # 10000)
  | _ => false
  end.

Definition valid_weights (w : ndarray) : bool :=
  sums_to_one w && forallb in_unit_interval w.

(** The equal-weight vector [np.array([1/n] * n)]. *)
Definition equal_weights (n : nat) : ndarray :=
  repeat (Fin (1 / inject_Z (Z.of_nat n))) n.

(** What one request constraint adds to [constraints_list] and to the log,
    read off [add_custom_constraint]. *)
Definition kept_constraint (index : list string) (c : PortfolioConstraint.t)
  : list constraint_dict :=
  let mk :=
    if String.eqb (PortfolioConstraint.type c) "max_weight"
       && truthy (PortfolioConstraint.symbol c)
    then Some max_weight_ineq
    else if String.eqb (PortfolioConstraint.type c) "min_weight"
            && truthy (PortfolioConstraint.symbol c)
    then Some min_weight_ineq
    else None in
  match mk, get_loc index (constraint_symbol c) with
  | Some mk, Ok idx => [mk idx (PortfolioConstraint.value c)]
  | _, _ => []
  end.

Definition not_found_warning (s : string) : log_record :=
  (WARNING, "Symbol " +++ s +++ " not found in portfolio").

Definition logged_warning (index : list string) (c : PortfolioConstraint.t)
  : log :=
  if (String.eqb (PortfolioConstraint.type c) "max_weight"
      || String.eqb (PortfolioConstraint.type c) "min_weight")
     && truthy (PortfolioConstraint.symbol c)
  then match get_loc index (constraint_symbol c) with
       | Ok _ => []
       | Raise _ => [not_found_warning (constraint_symbol c)]
       end
  else [].

(** A constraint on a weight: type [max_weight] or [min_weight] with a
    non-empty symbol. *)
Definition is_weight_constraint (c : PortfolioConstraint.t) : bool :=
  (String.eqb (PortfolioConstraint.type c) "max_weight"
   || String.eqb (PortfolioConstraint.type c) "min_weight")
  && truthy (PortfolioConstraint.symbol c).

(** The inequality the specification asks for such a constraint whose symbol
    stands at position [i] of the universe: [value - w[i] >= 0] for a
    maximum, [w[i] - value >= 0] for a minimum. *)
Definition spec_inequality (c : PortfolioConstraint.t) (i : nat)
  : constraint_dict :=
  if String.eqb (PortfolioConstraint.type c) "max_weight"
  then mkConstraint "ineq"
         (fun w => wi <~ getitem w i ;; Ok (fsub (PortfolioConstraint.value c) wi))
  else mkConstraint "ineq"
         (fun w => wi <~ getitem w i ;; Ok (fsub wi (PortfolioConstraint.value c))).

Fixpoint Qsum (l : list Q) : Q :=
  match l with
  | [] => 0
  | q :: l' => q + Qsum l'
  end.

(* ------------------------------------------------------------------ *)
(** ** Definitions used by the statements *)

(** The closure handed to [minimize], when there is one. *)
Definition objective_func (E : External) (mean_returns : Series string)
    (cov_matrix : matrix) (objective : OptimizationObjective)
  : option (ndarray -> result float64) :=
  match objective with
  | MAX_RETURN => Some (objective_max_return mean_returns)
  | MIN_RISK => Some (objective_min_risk E cov_matrix)
  | MAX_SHARPE => Some (objective_max_sharpe E mean_returns cov_matrix)
  | EQUAL_WEIGHT => None
  end.

Definition fallback_warning : log_record :=
  (WARNING, "Optimization failed, using equal weights").

Definition fallback_error (e : exn) : log_record :=
  (ERROR, "Optimization error: " +++ str e).

(* ------------------------------------------------------------------ *)
(** ** A closed world for the examples

    A small market with reference implementations of the pandas
    operations, used to run the optimizer on concrete requests.  The solver
    is left as a parameter so that convergence, non-convergence and failure
    can each be exercised. *)

Module Paper.

Definition dates : list Z := [1; 2; 3; 4]%Z.

(** Adjusted closes of the listed symbols; anything else has no history. *)
Definition history (symbol : string) : option ndarray :=
  if String.eqb symbol "AAPL"
  then Some [Fin 100; Fin 110; Fin 121; Fin 110]
  else if String.eqb symbol "MSFT"
  then Some [Fin 200; Fin 190; Fin 209; Fin 220]
  else if String.eqb symbol "CASH"
  then Some [Fin 1; Fin 1; Fin 1; Fin 1]
  else if String.eqb symbol "TBIL"
  then Some [Fin 50; Fin 50; Fin 50; Fin 50]
  else None.

Definition closes (symbol : string) : ndarray :=
  match history symbol with
  | Some prices => prices
  | None => map (fun _ => NaN) dates
  end.

Definition column (j : nat) (rows : list ndarray) : ndarray :=
  map (fun r => nth j r NaN) rows.

Definition columns_of (df : DataFrame) : list ndarray :=
  map (fun j => column j (values df)) (seq 0 (List.length (columns df))).

Definition rows_of (k : nat) (cols : list ndarray) : list ndarray :=
  map (fun i => map (fun c => nth i c NaN) cols) (seq 0 k).

Definition per_column (f : ndarray -> ndarray) (df : DataFrame) : DataFrame :=
  mkFrame (columns df) (index df)
    (rows_of (List.length (index df)) (map f (columns_of df))).

Definition download (symbols : list string) (period : string)
  : result downloaded :=
  match symbols with
  | [symbol] => Ok (AsSeries (mkSeries dates (closes symbol)))
  | _ => Ok (AsFrame (mkFrame symbols dates
                        (rows_of (List.length dates) (map closes symbols))))
  end.

Definition is_nan (v : float64) : bool :=
  match v with NaN => true | _ => false end.

Fixpoint ffill (last : float64) (col : ndarray) : ndarray :=
  match col with
  | [] => []
  | v :: rest =>
      let v' := if is_nan v then last else v in
      v' :: ffill v' rest
  end.

Definition bfill (col : ndarray) : ndarray := rev (ffill NaN (rev col)).

(** [DataFrame.fillna(method=...)] as pandas 1.x and 2.x do it: the method
    name is checked before anything is filled, and only [pad], [ffill],
    [backfill] and [bfill] pass.  (pandas 3 has no [method] argument and
    raises [TypeError] at the same call.) *)
Definition fillna (method : string) (df : DataFrame) : result DataFrame :=
  if String.eqb method "pad" || String.eqb method "ffill"
  then Ok (per_column (ffill NaN) df)
  else if String.eqb method "backfill" || String.eqb method "bfill"
  then Ok (per_column bfill df)
  else Raise (ValueError
                ("Invalid fill method. Expecting pad (ffill) or backfill (bfill). Got "
                 +++ method)).

Fixpoint changes (prev : float64) (col : ndarray) : ndarray :=
  match col with
  | [] => []
  | v :: rest => fsub (fdiv v prev) (Fin 1) :: changes v rest
  end.

Definition pct_change (df : DataFrame) : result DataFrame :=
  Ok (per_column (changes NaN) df).

Definition complete (row : ndarray) : bool :=
  forallb (fun v => negb (is_nan v)) row.

Definition dropna (df : DataFrame) : result DataFrame :=
  let kept := filter (fun p => complete (snd p))
                (combine (index df) (values df)) in
  Ok (mkFrame (columns df) (map fst kept) (map snd kept)).

Definition count (a : ndarray) : float64 :=
  Fin (inject_Z (Z.of_nat (List.length a))).

Definition average (a : ndarray) : float64 :=
  match a with
  | [] => NaN
  | _ => fdiv (np_sum a) (count a)
  end.

Definition mean (df : DataFrame) : result (Series string) :=
  Ok (mkSeries (columns df) (map average (columns_of df))).

Definition centered (a : ndarray) : ndarray :=
  map (fun v => fsub v (average a)) a.

(** Covariance of two columns with divisor [n - ddof]. *)
Definition covariance (ddof : Q) (a b : ndarray) : float64 :=
  match a with
  | [] => NaN
  | _ => fdiv (np_sum (zip_with fmul (centered a) (centered b)))
           (fsub (count a) (Fin ddof))
  end.

Definition covariances (ddof : Q) (df : DataFrame) : matrix :=
  map (fun a => map (covariance ddof a) (columns_of df)) (columns_of df).

Definition cov_values (df : DataFrame) : result matrix :=
  Ok (covariances 1 df).

(** The shrinkage estimate at intensity zero; refuses an empty sample. *)
Definition ledoit_wolf (df : DataFrame) : result matrix :=
  match values df with
  | [] => Raise (ValueError "Found array with 0 sample(s)")
  | _ => Ok (covariances 0 df)
  end.

Definition weighted_sum (df : DataFrame) (weights : ndarray)
  : result (Series Z) :=
  match np_dot_mv (values df) weights with
  | Ok s => Ok (mkSeries (index df) s)
  | Raise e => Raise e
  end.

Fixpoint cumprod_from (acc : float64) (a : ndarray) : ndarray :=
  match a with
  | [] => []
  | v :: rest => fmul acc v :: cumprod_from (fmul acc v) rest
  end.

Fixpoint cummax_from (acc : option float64) (a : ndarray) : ndarray :=
  match a with
  | [] => []
  | v :: rest =>
      let m := match acc with
               | Some m => if flt m v then v else m
               | None => v
               end in
      m :: cummax_from (Some m) rest
  end.

Definition series_min (s : Series Z) : result float64 :=
  match s_values s with
  | [] => Ok NaN
  | v :: rest => Ok (fold_left (fun m w => if flt w m then w else m) rest v)
  end.

(** Square root rounded down to six decimals. *)
Definition sqrt (v : float64) : float64 :=
  match v with
  | Fin q =>
      if Qle_bool 0 q
      then Fin (Z.sqrt (Qnum q * Zpos (Qden q) * 1000000000000)
                # (Qden q * 1000000))
      else NaN
  | PInf => PInf
  | NInf | NaN => NaN
  end.

Definition last_close (symbol period : string) : result (option float64) :=
  match history symbol with
  | Some prices => Ok (Some (last prices NaN))
  | None => Ok None
  end.

Definition info (symbol : string) : result (dict string) :=
  match history symbol with
  | Some _ => Ok [("longName", symbol +++ " Inc."); ("sector", "Technology")]
  | None => Raise (Exception "HTTPError" "404 Client Error")
  end.

Definition offline_error : exn :=
  Exception "ConnectionError" "benchmark feed unreachable".

Definition offline {A : Type} : result A := Raise offline_error.

Definition series_returns (s : Series Z) : result (Series Z) :=
  Ok (mkSeries (tl (s_index s)) (tl (changes NaN (s_values s)))).

Definition intersection (a b : list Z) : result (list Z) :=
  Ok (filter (fun d => existsb (Z.eqb d) b) a).

Definition loc (df : DataFrame) (wanted : list Z) : result DataFrame :=
  let kept := filter (fun p => existsb (Z.eqb (fst p)) wanted)
                (combine (index df) (values df)) in
  Ok (mkFrame (columns df) (map fst kept) (map snd kept)).

Definition series_loc (s : Series Z) (wanted : list Z) : result (Series Z) :=
  let kept := filter (fun p => existsb (Z.eqb (fst p)) wanted)
                (combine (s_index s) (s_values s)) in
  Ok (mkSeries (map fst kept) (map snd kept)).

Fixpoint insert (v : float64) (sorted : ndarray) : ndarray :=
  match sorted with
  | [] => [v]
  | w :: rest => if flt w v then w :: insert v rest else v :: sorted
  end.

(** Linear interpolation between the two closest ranks. *)
Definition percentile (a : ndarray) (q : float64) : result float64 :=
  match fold_right insert [] a, q with
  | [], _ => Ok NaN
  | v :: rest, Fin q =>
      let pos := q / 100 * inject_Z (Z.of_nat (List.length rest)) in
      let lo := Z.to_nat (Qfloor pos) in
      let below := nth lo (v :: rest) NaN in
      let above := nth (S lo) (v :: rest) below in
      Ok (fadd below
            (fmul (Fin (pos - inject_Z (Qfloor pos))) (fsub above below)))
  | _, _ => Raise (ValueError "Percentiles must be in the range [0, 100]")
  end.

Definition solver : Type :=
  (ndarray -> result float64) -> ndarray -> string ->
  list (float64 * float64) -> list constraint_dict -> nat ->
  result OptimizeResult.

(** The benchmark symbol is not quoted on this market: its download
    fails and beta takes its default. *)
Definition world (minimize : solver) : External :=
  mkExternal
    download
    (fun _ _ => offline)
    last_close
    info
    fillna
    pct_change
    dropna
    mean
    cov_values
    series_returns
    weighted_sum
    (fun s => Ok (mkSeries (s_index s) (cumprod_from (Fin 1) (s_values s))))
    (fun s => Ok (mkSeries (s_index s) (cummax_from None (s_values s))))
    series_min
    intersection
    loc
    series_loc
    ledoit_wolf
    minimize
    sqrt
    percentile
    (fun a b => Ok (covariance 1 a b))
    (fun a => Ok (covariance 0 a a))
    1762214400%Z.

(** Solvers: one that accepts the starting point, one that reports
    non-convergence, one that raises, one that reports success on a given
    vector. *)
Definition keeps_start : solver :=
  fun _ x0 _ _ _ _ => Ok (mkOptimizeResult true x0).
Definition diverges : solver :=
  fun _ x0 _ _ _ _ => Ok (mkOptimizeResult false x0).
Definition crashes : solver :=
  fun _ _ _ _ _ _ => Raise (Exception "LinAlgError" "Singular matrix").
Definition answers (v : ndarray) : solver :=
  fun _ _ _ _ _ _ => Ok (mkOptimizeResult true v).

End Paper.

(** Inputs of the examples: annualised mean returns and covariance of two
    assets, and the three kinds of request constraint. *)
Definition example_returns : Series string :=
  mkSeries ["AAPL"; "MSFT"] [Fin (12 # 100); Fin (8 # 100)].

Definition example_cov : matrix :=
  [[Fin (4 # 100); Fin (1 # 100)]; [Fin (1 # 100); Fin (9 # 100)]].

Definition max_weight (symbol : string) (value : Q) : PortfolioConstraint.t :=
  PortfolioConstraint.Build "max_weight" (Some symbol) None (Fin value).

Definition min_weight (symbol : string) (value : Q) : PortfolioConstraint.t :=
  PortfolioConstraint.Build "min_weight" (Some symbol) None (Fin value).

Definition sector_limit (sector : string) (value : Q) : PortfolioConstraint.t :=
  PortfolioConstraint.Build "sector_limit" None (Some sector) (Fin value).

(** The arguments [_optimize_weights] passes to [minimize] besides the
    objective closure. *)
Definition solver_call (E : External) (mean_returns : Series string)
    (constraints : list PortfolioConstraint.t)
    (f : ndarray -> result float64) : result OptimizeResult :=
  let n := List.length (s_values mean_returns) in
  minimize E f (equal_weights n) "SLSQP" (repeat (Fin 0, Fin 1) n)
    (sum_to_one :: flat_map (kept_constraint (s_index mean_returns)) constraints)
    1000.

(** The vector [_optimize_weights] settles on, and the record it logs when
    it falls back. *)
Definition chosen_weights (E : External) (mean_returns : Series string)
    (cov_matrix : matrix) (objective : OptimizationObjective)
    (constraints : list PortfolioConstraint.t) : ndarray :=
  let x0 := equal_weights (List.length (s_values mean_returns)) in
  match objective_func E mean_returns cov_matrix objective with
  | None => x0
  | Some f =>
      match solver_call E mean_returns constraints f with
      | Ok r => if success r then x r else x0
      | Raise _ => x0
      end
  end.

Definition fallback_log (E : External) (mean_returns : Series string)
    (cov_matrix : matrix) (objective : OptimizationObjective)
    (constraints : list PortfolioConstraint.t) : log :=
  match objective_func E mean_returns cov_matrix objective with
  | None => []
  | Some f =>
      match solver_call E mean_returns constraints f with
      | Ok r => if success r then [] else [fallback_warning]
      | Raise e => [fallback_error e]
      end
  end.

(** The clamp of the specification, and the vector that puts everything on
    one asset. *)
Definition clamp (q lo hi : Q) : Q :=
  if Qlt_le_dec q lo then lo else if Qlt_le_dec hi q then hi else q.

Definition concentrated (n : nat) : list Q := 1 :: repeat 0 (n - 1).





Definition fetch_error (e : exn) : log_record :=
  (ERROR, "Failed to fetch portfolio data: " +++ str e).

Definition example_request (objective : OptimizationObjective)
  : PortfolioOptimizationRequest.t :=
  PortfolioOptimizationRequest.Build
    ["AAPL"; "MSFT"] MODERATE (Fin 10000) objective
    [max_weight "AAPL" (8 # 10)] "monthly".

(* ------------------------------------------------------------------ *)
(** ** utils/auth.py and the authentication dependency of main.py *)

(** PyJWT is a collaborator: [jwt.decode] and the class hierarchy of the
    exceptions it raises ([issubclass]).  The payload is a [Dict[str, Any]]
    whose content the service never inspects; its type is left open. *)
Record JWT (payload : Type) : Type := mkJWT {
  jwt_decode : string -> string -> list string -> bool -> result payload;
  issubclass : string -> string -> bool
}.
Arguments mkJWT {payload} _ _.
Arguments jwt_decode {payload} _ _ _ _ _.
Arguments issubclass {payload} _ _ _.

Definition secret_key : string :=
  "your-super-secret-key-that-is-at-least-32-characters-long-for-security".

Definition verify_jwt_token {payload : Type} (J : JWT payload) (token : string)
  : M payload :=
  try_except
    (payload <- lift (jwt_decode J token secret_key ["HS256"] true) ;;
     ret payload)
    (fun e =>
       if issubclass J (exn_class e) "ExpiredSignatureError" then
         logger ERROR "Token has expired" ;;;
         raise (Exception "Exception" "Token has expired")
       else if issubclass J (exn_class e) "InvalidTokenError" then
         logger ERROR ("Invalid token: " +++ str e) ;;;
         raise (Exception "Exception" "Invalid token")
       else
         logger ERROR ("Token verification failed: " +++ str e) ;;;
         raise (Exception "Exception" "Token verification failed")).

Record HTTPAuthorizationCredentials : Type := mkCredentials {
  scheme : string;
  credentials : string
}.

Definition get_current_user {payload : Type} (J : JWT payload)
    (creds : HTTPAuthorizationCredentials) : M payload :=
  try_except
    (let token := credentials creds in
     payload <- verify_jwt_token J token ;;
     ret payload)
    (fun e =>
       logger ERROR ("Authentication failed: " +++ str e) ;;;
       raise (HTTPException 401 "Invalid authentication credentials")).

(* ------------------------------------------------------------------ *)
(** ** utils/logger.py: setup_logger *)

(** The part of the [logging] module the function touches: named loggers
    kept in a registry shared by all callers, each with a level and a list
    of handlers. *)
Record Formatter : Type := mkFormatter {
  fmt : string;
  datefmt : string
}.

Record StreamHandler : Type := mkHandler {
  stream : string;
  handler_level : Z;
  formatter : option Formatter
}.

Record Logger : Type := mkLogger {
  logger_level : Z;
  handlers : list StreamHandler
}.

Fixpoint dict_find {V} (d : dict V) (k : string) : option V :=
  match d with
  | [] => None
  | (k', v) :: d' => if String.eqb k' k then Some v else dict_find d' k
  end.

(** [logging.getLogger(name)]: the logger registered under [name], created
    with level NOTSET and no handler the first time. *)
Definition new_logger : Logger := mkLogger 0 [].

Definition getLogger (registry : dict Logger) (name : string)
  : dict Logger * Logger :=
  match dict_find registry name with
  | Some lg => (registry, lg)
  | None => (dict_set registry name new_logger, new_logger)
  end.

(** [str.upper()] on ASCII text. *)
Definition upper_ascii (c : Ascii.ascii) : Ascii.ascii :=
  let n := Ascii.nat_of_ascii c in
  if Nat.leb 97 n && Nat.leb n 122 then Ascii.ascii_of_nat (n - 32) else c.

Fixpoint upper (s : string) : string :=
  match s with
  | EmptyString => EmptyString
  | String c rest => String (upper_ascii c) (upper rest)
  end.

Definition logging_INFO : Z := 20.

Definition console_handler : StreamHandler :=
  mkHandler "sys.stdout" logging_INFO
    (Some (mkFormatter "%(asctime)s - %(name)s - %(levelname)s - %(message)s"
             "%Y-%m-%d %H:%M:%S")).

(** [setup_logger(name, level)].  [level_attr] stands for
    [getattr(logging, NAME)] as accepted by [Logger.setLevel]; the result
    is the registry afterwards and the name of the logger returned. *)
Definition setup_logger (level_attr : string -> result Z)
    (name : string) (level : string) (registry : dict Logger)
  : result string * dict Logger :=
  let (registry, lg) := getLogger registry name in
  match level_attr (upper level) with
  | Raise e => (Raise e, registry)
  | Ok lv =>
      let lg := mkLogger lv (handlers lg) in
      let registry := dict_set registry name lg in
      match handlers lg with
      | _ :: _ => (Ok name, registry)
      | [] =>
          (Ok name,
           dict_set registry name (mkLogger lv (handlers lg ++ [console_handler])))
      end
  end.

(** The level names of the [logging] module. *)
Definition level_names (name : string) : result Z :=
  if String.eqb name "CRITICAL" then Ok 50%Z
  else if String.eqb name "ERROR" then Ok 40%Z
  else if String.eqb name "WARNING" then Ok 30%Z
  else if String.eqb name "INFO" then Ok 20%Z
  else if String.eqb name "DEBUG" then Ok 10%Z
  else if String.eqb name "NOTSET" then Ok 0%Z
  else Raise (Exception "AttributeError"
                ("module 'logging' has no attribute '" +++ name +++ "'")).

(* ------------------------------------------------------------------ *)
(** ** Further definitions used by the statements *)

Definition optimization_failed (e : exn) : string :=
  "Portfolio optimization failed: " +++ str e.

(** The cadence suggestion of a risk tolerance. *)
Definition cadence (risk_tolerance : RiskTolerance) : string :=
  match risk_tolerance with
  | CONSERVATIVE => "Consider monthly rebalancing to maintain risk targets"
  | AGGRESSIVE =>
      "Quarterly rebalancing may be sufficient for growth-focused portfolio"
  | MODERATE =>
      "Rebalance quarterly or when allocations drift more than 5% from targets"
  end.

Definition concentration_advice : string :=
  "Consider reducing concentration in top holding to improve diversification".

Definition micro_position_advice : string :=
  "Consider eliminating positions below 2% to reduce transaction costs".

Definition positive (w : float64) : bool := fgt w (Fin 0).

(** A PyJWT double for the examples: one good token, one expired token,
    anything else malformed. *)
Definition example_jwt : JWT (dict string) :=
  mkJWT
    (fun token _ _ _ =>
       if String.eqb token "good" then Ok [("user_id", "u1")]
       else if String.eqb token "old"
       then Raise (Exception "ExpiredSignatureError" "Signature has expired")
       else Raise (Exception "DecodeError" "Not enough segments"))
    (fun cls base =>
       String.eqb cls base
       || (String.eqb base "InvalidTokenError"
           && (String.eqb cls "ExpiredSignatureError"
               || String.eqb cls "DecodeError"))).

(** How the allocation loop settles the share count of one allocation. *)
Definition share_rule (current_prices : dict float64)
    (a : AllocationRecommendation.t) : Prop :=
  let price :=
    dict_get current_prices (AllocationRecommendation.symbol a) (Fin 0) in
  (if fgt price (Fin 0)
   then py_int (fdiv (AllocationRecommendation.recommended_amount a) price)
   else Ok 0%Z)
  = Ok (AllocationRecommendation.recommended_shares a).

(** An allocation run on the example market. *)
Definition example_prices : dict float64 :=
  [("MSFT", Fin 220); ("AAPL", Fin 110)].

Definition example_allocations : list AllocationRecommendation.t :=
  Eval vm_compute in
    match build_allocations (Paper.world Paper.keeps_start) ["AAPL"; "MSFT"] 0
            [Fin (6 # 10); Fin (4 # 10)] example_returns example_cov
            (Fin 10000) example_prices with
    | Ok allocations => allocations
    | Raise _ => []
    end.

(** The price recorded for a symbol from the outcome of its lookup. *)
Definition price_of (hist : result (option float64)) : float64 :=
  match hist with
  | Ok (Some close) => close
  | _ => Fin 0
  end.

Definition prices_error (e : exn) : log_record :=
  (ERROR, "Failed to get current prices: " +++ str e).

(** The record the endpoint logs on entry. *)
Definition request_info (user_id : option string) : log_record :=
  (INFO,
   "Portfolio optimization request by user "
   +++ match user_id with Some u => u | None => "None" end).

(** The three messages [verify_jwt_token] raises with. *)
Definition is_verification_message (msg : string) : Prop :=
  msg = "Token has expired" \/ msg = "Invalid token"
  \/ msg = "Token verification failed".

Definition unauthorized : exn :=
  HTTPException 401 "Invalid authentication credentials".

(** The handlers a logger has in a registry; none when it is not there. *)
Definition handlers_of (registry : dict Logger) (name : string)
  : list StreamHandler :=
  match dict_find registry name with
  | Some lg => handlers lg
  | None => []
  end.

(** The level a logger has in a registry, if it is there. *)
Definition level_of (registry : dict Logger) (name : string) : option Z :=
  option_map logger_level (dict_find registry name).

(* ------------------------------------------------------------------ *)
(** ** Arithmetic with rounding

    Where a property depends on the last digit, the arithmetic of the
    source is redone with every operation followed by a rounding [rnd] of
    its exact result.  [binary64] is the rounding of IEEE 754 double
    precision (to nearest, ties to even, 53 significant bits); the exponent
    range is not limited, so overflow and subnormal numbers are left
    out. *)

(** The integer nearest to [n / d] for [n >= 0], the even one on a tie. *)
Definition nearest_even (n : Z) (d : BinNums.positive) : Z :=
  let q := (n / Zpos d)%Z in
  let r := (n mod Zpos d)%Z in
  match (2 * r ?= Zpos d)%Z with
  | Lt => q
  | Gt => (q + 1)%Z
  | Eq => if Z.even q then q else (q + 1)%Z
  end.

Definition pow2 (k : Z) : Q := 2 ^ k.

(** The exponent [k] with [2^k <= a < 2^(k+1)], for [a > 0]. *)
Definition binade (a : Q) : Z :=
  let k := (Z.log2 (Qnum a) - Z.log2 (Zpos (Qden a)))%Z in
  if Qle_bool (pow2 k) a then k else (k - 1)%Z.

(** The binary64 number nearest to [a > 0]: the significand
    [a / 2^(k-52)], which lies between [2^52] and [2^53], is rounded to an
    integer. *)
Definition nearest_binary64 (a : Q) : Q :=
  let e := (binade a - 52)%Z in
  let s := a / pow2 e in
  inject_Z (nearest_even (Qnum s) (Qden s)) * pow2 e.

Definition binary64 (q : Q) : Q :=
  match Qnum q with
  | Z0 => 0
  | Zpos _ => Qred (nearest_binary64 q)
  | Zneg _ => Qred (- nearest_binary64 (- q))
  end.

Definition round (rnd : Q -> Q) (x : float64) : float64 :=
  match x with
  | Fin q => Fin (rnd q)
  | _ => x
  end.

Module Rounded.

Section Arithmetic.

Variable rnd : Q -> Q.

Definition add (x y : float64) : float64 := round rnd (fadd x y).
Definition sub (x y : float64) : float64 := round rnd (fsub x y).
Definition mul (x y : float64) : float64 := round rnd (fmul x y).
Definition div (x y : float64) : float64 := round rnd (fdiv x y).

(** [np.sum], the sum inside [np.dot] and Python's [sum]: the entries are
    added one after the other.  (NumPy adds arrays of eight entries and more
    in blocks.  The statements on the diversification score hold for either
    order; the error bound of the risk contributions is proved for this
    one, and the examples have fewer than eight entries.) *)
Definition sum (a : ndarray) : float64 := fold_left add a (Fin 0).

Definition square (a : ndarray) : ndarray := map (fun x => mul x x) a.

Definition truediv (a : Q) (n : nat) : result float64 :=
  match n with
  | O => Raise ZeroDivisionError
  | S _ => Ok (Fin (rnd (a / inject_Z (Z.of_nat n))))
  end.

(** [np.array([1/n] * n)] *)
Definition equal_weights (n : nat) : ndarray :=
  repeat (Fin (rnd (1 / inject_Z (Z.of_nat n)))) n.

Definition dot (a b : ndarray) : result float64 :=
  p <~ elementwise mul a b ;; Ok (sum p).

Fixpoint dot_mv (m : matrix) (v : ndarray) : result ndarray :=
  match m with
  | [] => Ok []
  | row :: m' =>
      d <~ dot row v ;;
      ds <~ dot_mv m' v ;;
      Ok (d :: ds)
  end.

Definition _calculate_risk_contribution (weights : ndarray)
    (cov_matrix : matrix) (asset_idx : nat) : result float64 :=
  cw <~ dot_mv cov_matrix weights ;;
  portfolio_variance <~ dot weights cw ;;
  marginal_contrib <~ getitem cw asset_idx ;;
  w <~ getitem weights asset_idx ;;
  Ok (div (mul w marginal_contrib) portfolio_variance).

Definition _calculate_diversification_score (weights : ndarray)
  : result float64 :=
  let hhi := sum (square weights) in
  let max_hhi := Fin 1 in
  min_hhi <~ truediv 1 (List.length weights) ;;
  let diversification_score :=
    div (sub max_hhi hhi) (sub max_hhi min_hhi) in
  Ok (py_max (Fin 0) (py_min (Fin 1) diversification_score)).

End Arithmetic.

End Rounded.

(** What pandas 1.x and 2.x raise at [fillna(method='forward')]. *)
Definition invalid_fill_method : exn :=
  ValueError
    "Invalid fill method. Expecting pad (ffill) or backfill (bfill). Got forward".

(** pandas knows no fill method called [forward]: whatever the frame, the
    call [df.fillna(method='forward')] raises. *)
Definition rejects_forward_fill (E : External) : Prop :=
  forall df : DataFrame, exists e : exn, pd_fillna E "forward" df = Raise e.

(** A world in which the quote service is down: every [Ticker.history]
    call fails, everything else is as in [E]. *)
Definition quotes_down (E : External) : External :=
  mkExternal
    (yf_download E) (yf_download_one E)
    (fun _ _ => Paper.offline)
    (ticker_info E) (pd_fillna E) (pd_pct_change E) (pd_dropna E) (pd_mean E)
    (pd_cov_values E) (pd_series_returns E) (pd_weighted_sum E)
    (pd_cumprod E) (pd_expanding_max E) (pd_min E) (pd_intersection E)
    (pd_loc E) (pd_series_loc E) (ledoit_wolf_covariance E) (minimize E)
    (np_sqrt E) (np_percentile E) (np_cov01 E) (np_var E) (utcnow E).

(** What the statements about rounded arithmetic use of the rounding: it
    never reverses an order, and it leaves 0, 1/2 and 1, which are binary64
    numbers, as they are. *)
Definition rounding (rnd : Q -> Q) : Prop :=
  (forall a b : Q, a <= b -> rnd a <= rnd b)
  /\ rnd 0 == 0
  /\ rnd (1 # 2) == 1 # 2
  /\ rnd 1 == 1.













(* ------------------------------------------------------------------ *)
(** ** Lemmas on the run time and on sums *)

Lemma np_sum_Fin (l : list Q) : np_sum (map Fin l) = Fin (Qsum l).
Proof.
  unfold np_sum. induction l as [|q l IH]; simpl; [reflexivity|].
  rewrite IH. reflexivity.
Qed.

Lemma Qsum_repeat (q : Q) (n : nat) :
  Qsum (repeat q n) == inject_Z (Z.of_nat n) * q.
Proof.
  induction n as [|n IH].
  - simpl. ring.
  - cbn [repeat Qsum]. rewrite IH, Nat2Z.inj_succ. unfold Z.succ.
    rewrite inject_Z_plus. ring.
Qed.

Lemma repeat_Fin (q : Q) (n : nat) : repeat (Fin q) n = map Fin (repeat q n).
Proof. induction n; simpl; congruence. Qed.

Lemma inject_nat_pos (n : nat) : (0 < n)%nat -> 0 < inject_Z (Z.of_nat n).
Proof.
  intros H. change 0 with (inject_Z 0). rewrite <- Zlt_Qlt. lia.
Qed.

Lemma equal_weights_sum (n : nat) :
  (0 < n)%nat -> exists s, np_sum (equal_weights n) = Fin s /\ s == 1.
Proof.
  intros Hn. unfold equal_weights. rewrite repeat_Fin, np_sum_Fin.
  eexists; split; [reflexivity|].
  rewrite Qsum_repeat. field.
  pose proof (inject_nat_pos n Hn) as Hp. intros Hz. rewrite Hz in Hp.
  exact (Qlt_irrefl 0 Hp).
Qed.

Lemma equal_weight_in_unit (n : nat) :
  (0 < n)%nat -> in_unit_interval (Fin (1 / inject_Z (Z.of_nat n))) = true.
Proof.
  intros Hn. pose proof (inject_nat_pos n Hn) as Hp.
  assert (H1 : 1 <= inject_Z (Z.of_nat n)).
  { change 1 with (inject_Z 1). rewrite <- Zle_Qle. lia. }
  simpl. apply andb_true_intro; split; apply Qle_bool_iff.
  - apply Qle_shift_div_l; [exact Hp|]. rewrite Qmult_0_l. discriminate.
  - apply Qle_shift_div_r; [exact Hp|]. rewrite Qmult_1_l. exact H1.
Qed.

Lemma equal_weights_valid (n : nat) :
  (0 < n)%nat -> valid_weights (equal_weights n) = true.
Proof.
  intros Hn. unfold valid_weights, sums_to_one.
  destruct (equal_weights_sum n Hn) as [s [Hs Hs1]]. rewrite Hs.
  apply andb_true_intro; split.
  - apply Qle_bool_iff. rewrite Hs1.
    setoid_replace (1 - 1) with 0 by ring. discriminate.
  - unfold equal_weights. apply forallb_forall. intros w Hw.
    apply repeat_spec in Hw. subst w. apply equal_weight_in_unit, Hn.
Qed.

Lemma equal_weights_nth (n i : nat) :
  (i < n)%nat ->
  nth_error (equal_weights n) i = Some (Fin (1 / inject_Z (Z.of_nat n))).
Proof.
  intros Hi. unfold equal_weights.
  apply nth_error_repeat. exact Hi.
Qed.

Lemma get_loc_raises (idx : list string) (k : string) (e : exn) :
  get_loc idx k = Raise e -> e = KeyError k.
Proof.
  induction idx as [|s idx IH]; simpl.
  - intros H. inversion H. reflexivity.
  - destruct (String.eqb s k); [discriminate|].
    destruct (get_loc idx k) as [i|e']; simpl; [discriminate|].
    intros H. inversion H. subst. apply IH. reflexivity.
Qed.

Lemma get_loc_absent (idx : list string) (k : string) :
  ~ In k idx -> get_loc idx k = Raise (KeyError k).
Proof.
  induction idx as [|s idx IH]; simpl; intros H; [reflexivity|].
  destruct (String.eqb_spec s k) as [Heq|Hne].
  - exfalso. apply H. left. exact Heq.
  - rewrite IH; [reflexivity|]. intros Hin. apply H. right. exact Hin.
Qed.

Lemma get_loc_present (idx : list string) (k : string) (i : nat) :
  get_loc idx k = Ok i -> nth_error idx i = Some k /\ (i < List.length idx)%nat.
Proof.
  revert i. induction idx as [|s idx IH]; simpl; intros i; [discriminate|].
  destruct (String.eqb_spec s k) as [Heq|Hne].
  - intros H. inversion H. subst. simpl. split; [reflexivity|lia].
  - destruct (get_loc idx k) as [j|e]; simpl; [|discriminate].
    intros H. inversion H. subst. destruct (IH j eq_refl) as [H1 H2].
    simpl. split; [exact H1|lia].
Qed.

Lemma append_weight_constraint_run index mk cl c l :
  append_weight_constraint index mk cl c l =
  match get_loc index (constraint_symbol c) with
  | Ok idx => (Ok (cl ++ [mk idx (PortfolioConstraint.value c)]), l)
  | Raise _ => (Ok cl, l ++ [not_found_warning (constraint_symbol c)])
  end.
Proof.
  unfold append_weight_constraint, try_except, bind, lift, ret.
  destruct (get_loc index (constraint_symbol c)) as [i|e] eqn:Hloc.
  - reflexivity.
  - apply get_loc_raises in Hloc. subst e. reflexivity.
Qed.

Lemma add_custom_constraint_run index cl c l :
  add_custom_constraint index cl c l =
  (Ok (cl ++ kept_constraint index c), l ++ logged_warning index c).
Proof.
  unfold add_custom_constraint, kept_constraint, logged_warning.
  destruct (String.eqb (PortfolioConstraint.type c) "max_weight") eqn:Hmax;
    destruct (String.eqb (PortfolioConstraint.type c) "min_weight") eqn:Hmin;
    destruct (truthy (PortfolioConstraint.symbol c)) eqn:Hsym; simpl;
    rewrite ?append_weight_constraint_run;
    try destruct (get_loc index (constraint_symbol c));
    unfold ret; rewrite ?app_nil_r; reflexivity.
Qed.

Lemma add_custom_constraints_run index cs : forall cl l,
  add_custom_constraints index cs cl l =
  (Ok (cl ++ flat_map (kept_constraint index) cs),
   l ++ flat_map (logged_warning index) cs).
Proof.
  induction cs as [|c cs IH]; intros cl l; simpl.
  - unfold ret. rewrite !app_nil_r. reflexivity.
  - unfold bind. rewrite add_custom_constraint_run, IH, <- !app_assoc.
    reflexivity.
Qed.

(** [_optimize_weights] unfolded on a non-empty universe. *)
Lemma optimize_weights_run E mean_returns cov_matrix objective cs l :
  let n := List.length (s_values mean_returns) in
  let l1 := l ++ flat_map (logged_warning (s_index mean_returns)) cs in
  let built :=
    sum_to_one :: flat_map (kept_constraint (s_index mean_returns)) cs in
  (0 < n)%nat ->
  _optimize_weights E mean_returns cov_matrix objective cs l =
  match objective_func E mean_returns cov_matrix objective with
  | None => (Ok (equal_weights n), l1)
  | Some f =>
      match minimize E f (equal_weights n) "SLSQP"
              (repeat (Fin 0, Fin 1) n) built 1000 with
      | Ok r => if success r then (Ok (x r), l1)
                else (Ok (equal_weights n), l1 ++ [fallback_warning])
      | Raise e => (Ok (equal_weights n), l1 ++ [fallback_error e])
      end
  end.
Proof.
  intros n l1 built Hn. unfold _optimize_weights. fold n.
  destruct n as [|m] eqn:Hm; [lia|]. rewrite <- Hm.
  unfold bind at 1. unfold lift at 1. simpl py_truediv.
  replace (py_truediv 1 n) with (Ok (Fin (1 / inject_Z (Z.of_nat n))))
    by (rewrite Hm; reflexivity).
  unfold bind at 1. rewrite add_custom_constraints_run.
  fold l1. change ([sum_to_one] ++ _) with built.
  fold (equal_weights n).
  destruct objective; simpl objective_func; try reflexivity;
    unfold try_except, bind, lift;
    match goal with
    | |- context [minimize E ?f ?a ?b ?c ?d ?e] =>
        destruct (minimize E f a b c d e) as [r|e0]
    end; try reflexivity;
    destruct (success r); reflexivity.
Qed.

(* ------------------------------------------------------------------ *)
(** ** WeightOptimizer: [_optimize_weights] *)

Lemma optimize_weights_result E mean_returns cov_matrix objective cs l :
  (0 < List.length (s_values mean_returns))%nat ->
  _optimize_weights E mean_returns cov_matrix objective cs l =
  (Ok (chosen_weights E mean_returns cov_matrix objective cs),
   (l ++ flat_map (logged_warning (s_index mean_returns)) cs)
   ++ fallback_log E mean_returns cov_matrix objective cs).
Proof.
  intros Hn. rewrite optimize_weights_run by exact Hn.
  unfold chosen_weights, fallback_log, solver_call.
  destruct (objective_func E mean_returns cov_matrix objective) as [f|].
  - destruct (minimize E f _ _ _ _ _) as [r|e].
    + destruct (success r); rewrite ?app_nil_r; reflexivity.
    + reflexivity.
  - rewrite app_nil_r. reflexivity.
Qed.

Lemma chosen_weights_origin E mean_returns cov_matrix objective cs :
  chosen_weights E mean_returns cov_matrix objective cs
  = equal_weights (List.length (s_values mean_returns))
  \/ exists f r, objective_func E mean_returns cov_matrix objective = Some f
                 /\ solver_call E mean_returns cs f = Ok r
                 /\ success r = true
                 /\ chosen_weights E mean_returns cov_matrix objective cs = x r.
Proof.
  unfold chosen_weights.
  destruct (objective_func E mean_returns cov_matrix objective) as [f|];
    [|left; reflexivity].
  destruct (solver_call E mean_returns cs f) as [r|e] eqn:Hcall;
    [|left; reflexivity].
  destruct (success r) eqn:Hs; [|left; reflexivity].
  right. exists f, r. rewrite Hcall. auto.
Qed.

Lemma chosen_weights_valid E mean_returns cov_matrix objective cs :
  (0 < List.length (s_values mean_returns))%nat ->
  (forall f r, objective_func E mean_returns cov_matrix objective = Some f ->
               solver_call E mean_returns cs f = Ok r ->
               success r = true -> valid_weights (x r) = true) ->
  valid_weights (chosen_weights E mean_returns cov_matrix objective cs) = true.
Proof.
  intros Hn Hsound.
  destruct (chosen_weights_origin E mean_returns cov_matrix objective cs)
    as [H|[f [r [Hf [Hcall [Hs H]]]]]]; rewrite H.
  - apply equal_weights_valid, Hn.
  - apply (Hsound f r Hf Hcall Hs).
Qed.

Lemma solver_call_same_kept E mean_returns cs1 cs2 f :
  flat_map (kept_constraint (s_index mean_returns)) cs1
  = flat_map (kept_constraint (s_index mean_returns)) cs2 ->
  solver_call E mean_returns cs1 f = solver_call E mean_returns cs2 f.
Proof. intros H. unfold solver_call. rewrite H. reflexivity. Qed.

Lemma chosen_weights_same_kept E mean_returns cov_matrix objective cs1 cs2 :
  flat_map (kept_constraint (s_index mean_returns)) cs1
  = flat_map (kept_constraint (s_index mean_returns)) cs2 ->
  chosen_weights E mean_returns cov_matrix objective cs1
  = chosen_weights E mean_returns cov_matrix objective cs2
  /\ fallback_log E mean_returns cov_matrix objective cs1
     = fallback_log E mean_returns cov_matrix objective cs2.
Proof.
  intros H. unfold chosen_weights, fallback_log.
  destruct (objective_func E mean_returns cov_matrix objective) as [f|];
    [rewrite (solver_call_same_kept E mean_returns cs1 cs2 f H)|];
    split; reflexivity.
Qed.

(** C9.  With the [equal_weight] objective and a universe of [n >= 1]
    assets, [_optimize_weights] returns the vector whose [n] entries are all
    [1/n]; the solver is not consulted: the result and the log are the same
    whatever the collaborators do, and the log gains nothing but the
    warnings of the constraint loop. *)
Theorem equal_weight_objective_returns_uniform_without_solve :
  forall (E : External) (mean_returns : Series string) (cov_matrix : matrix)
         (constraints : list PortfolioConstraint.t) (l : log),
    (0 < List.length (s_values mean_returns))%nat ->
    let n := List.length (s_values mean_returns) in
    let l' := l ++ flat_map (logged_warning (s_index mean_returns)) constraints in
    _optimize_weights E mean_returns cov_matrix EQUAL_WEIGHT constraints l
      = (Ok (equal_weights n), l')
    /\ List.length (equal_weights n) = n
    /\ (forall i, (i < n)%nat ->
          nth_error (equal_weights n) i = Some (Fin (1 / inject_Z (Z.of_nat n))))
    /\ (forall E' : External,
          _optimize_weights E' mean_returns cov_matrix EQUAL_WEIGHT constraints l
          = _optimize_weights E mean_returns cov_matrix EQUAL_WEIGHT constraints l).
Proof.
  intros E mean_returns cov_matrix constraints l Hn n l'.
  split; [|split; [|split]].
  - rewrite optimize_weights_run by exact Hn. reflexivity.
  - apply repeat_length.
  - intros i Hi. apply equal_weights_nth. exact Hi.
  - intros E'. rewrite !optimize_weights_run by exact Hn. reflexivity.
Qed.

Lemma equal_weight_objective_returns_uniform_without_solve_witness :
  (0 < List.length (s_values example_returns))%nat /\
  _optimize_weights (Paper.world Paper.crashes) example_returns example_cov
    EQUAL_WEIGHT [max_weight "AAPL" (6 # 10)] []
  = (Ok [Fin (1 / 2); Fin (1 / 2)], []).
Proof.
  split.
  - simpl. lia.
  - apply (equal_weight_objective_returns_uniform_without_solve
             (Paper.world Paper.crashes) example_returns example_cov
             [max_weight "AAPL" (6 # 10)] []).
    simpl. lia.
Defined.

(** C2, as stated, fails on the mark: what [_optimize_weights] returns after
    a failed solve is the bare equal-weight vector, the very value it
    returns when the solver converges on that vector.  Only the log tells
    the two runs apart. *)
Lemma fallback_result_carries_no_mark :
  _optimize_weights (Paper.world Paper.diverges) example_returns example_cov
    MAX_SHARPE [] []
  = (Ok (equal_weights 2), [fallback_warning])
  /\ _optimize_weights (Paper.world Paper.keeps_start) example_returns
       example_cov MAX_SHARPE [] []
     = (Ok (equal_weights 2), [])
  /\ fst (_optimize_weights (Paper.world Paper.diverges) example_returns
            example_cov MAX_SHARPE [] [])
     = fst (_optimize_weights (Paper.world Paper.keeps_start) example_returns
              example_cov MAX_SHARPE [] []).
Proof. repeat split. Qed.

(** C2, amended.  When the objective calls for a solve and the call
    [_optimize_weights] makes to [minimize] either reports
    [success = False] or raises, [_optimize_weights] returns normally with
    exactly the equal-weight vector, and the failure is recorded by one more
    log record: the warning "Optimization failed, using equal weights" or
    the error "Optimization error: ...".  The value returned carries no
    mark: it is the value returned when the solver converges on the
    equal-weight vector. *)
Theorem solver_failure_falls_back_to_equal_weights :
  forall (E : External) (mean_returns : Series string) (cov_matrix : matrix)
         (objective : OptimizationObjective)
         (constraints : list PortfolioConstraint.t) (l : log)
         (f : ndarray -> result float64),
    (0 < List.length (s_values mean_returns))%nat ->
    objective_func E mean_returns cov_matrix objective = Some f ->
    (forall r, solver_call E mean_returns constraints f = Ok r ->
               success r = false) ->
    let n := List.length (s_values mean_returns) in
    let run :=
      _optimize_weights E mean_returns cov_matrix objective constraints l in
    (exists record : log_record,
        run = (Ok (equal_weights n),
               (l ++ flat_map (logged_warning (s_index mean_returns)) constraints)
               ++ [record])
        /\ ((exists r, solver_call E mean_returns constraints f = Ok r
                       /\ record = fallback_warning)
            \/ (exists e, solver_call E mean_returns constraints f = Raise e
                          /\ record = fallback_error e)))
    /\ (forall (E' : External) (f' : ndarray -> result float64)
               (r' : OptimizeResult),
          objective_func E' mean_returns cov_matrix objective = Some f' ->
          solver_call E' mean_returns constraints f' = Ok r' ->
          success r' = true ->
          x r' = equal_weights n ->
          fst (_optimize_weights E' mean_returns cov_matrix objective
                 constraints l)
          = fst run).
Proof.
  intros E mean_returns cov_matrix objective constraints l f Hn Hf Hfail n run.
  assert (Hrun : exists record : log_record,
             run = (Ok (equal_weights n),
                    (l ++ flat_map (logged_warning (s_index mean_returns))
                            constraints) ++ [record])
             /\ ((exists r, solver_call E mean_returns constraints f = Ok r
                            /\ record = fallback_warning)
                 \/ (exists e, solver_call E mean_returns constraints f = Raise e
                               /\ record = fallback_error e))).
  { unfold run. rewrite optimize_weights_run by exact Hn. rewrite Hf.
    unfold solver_call in *. fold n in Hfail |- *.
    destruct (minimize E f _ _ _ _ _) as [r|e] eqn:Hcall.
    - rewrite (Hfail r eq_refl). exists fallback_warning.
      split; [reflexivity|]. left. exists r. split; reflexivity.
    - exists (fallback_error e). split; [reflexivity|].
      right. exists e. split; reflexivity. }
  split; [exact Hrun|].
  intros E' f' r' Hf' Hcall' Hs' Hx'.
  destruct Hrun as [record [Hrun _]]. rewrite Hrun.
  rewrite optimize_weights_run by exact Hn. rewrite Hf'.
  unfold solver_call in Hcall'. rewrite Hcall', Hs'. cbn [fst].
  rewrite Hx'. reflexivity.
Qed.

Lemma solver_failure_falls_back_to_equal_weights_witness :
  (0 < List.length (s_values example_returns))%nat /\
  objective_func (Paper.world Paper.crashes) example_returns example_cov
    MAX_SHARPE
  = Some (objective_max_sharpe (Paper.world Paper.crashes) example_returns
            example_cov) /\
  (forall r,
      solver_call (Paper.world Paper.crashes) example_returns []
        (objective_max_sharpe (Paper.world Paper.crashes) example_returns
           example_cov) = Ok r ->
      success r = false) /\
  (exists record : log_record,
      _optimize_weights (Paper.world Paper.crashes) example_returns example_cov
        MAX_SHARPE [] []
      = (Ok (equal_weights 2), ([] ++ []) ++ [record])
      /\ ((exists r,
              solver_call (Paper.world Paper.crashes) example_returns []
                (objective_max_sharpe (Paper.world Paper.crashes)
                   example_returns example_cov) = Ok r
              /\ record = fallback_warning)
          \/ (exists e,
                 solver_call (Paper.world Paper.crashes) example_returns []
                   (objective_max_sharpe (Paper.world Paper.crashes)
                      example_returns example_cov) = Raise e
                 /\ record = fallback_error e)))
  /\ fst (_optimize_weights (Paper.world Paper.keeps_start) example_returns
            example_cov MAX_SHARPE [] [])
     = fst (_optimize_weights (Paper.world Paper.crashes) example_returns
              example_cov MAX_SHARPE [] []).
Proof.
  assert (H1 : (0 < List.length (s_values example_returns))%nat)
    by (simpl; lia).
  assert (H2 : objective_func (Paper.world Paper.crashes) example_returns
                 example_cov MAX_SHARPE
               = Some (objective_max_sharpe (Paper.world Paper.crashes)
                         example_returns example_cov)) by reflexivity.
  assert (H3 : forall r,
             solver_call (Paper.world Paper.crashes) example_returns []
               (objective_max_sharpe (Paper.world Paper.crashes)
                  example_returns example_cov) = Ok r ->
             success r = false)
    by (intros r H; discriminate H).
  split; [exact H1|split; [exact H2|split; [exact H3|]]].
  destruct (solver_failure_falls_back_to_equal_weights
              (Paper.world Paper.crashes) example_returns example_cov
              MAX_SHARPE [] [] _ H1 H2 H3) as [Hrun Hmark].
  split; [exact Hrun|].
  apply (Hmark (Paper.world Paper.keeps_start)
           (objective_max_sharpe (Paper.world Paper.keeps_start)
              example_returns example_cov)
           (mkOptimizeResult true (equal_weights 2)));
    reflexivity.
Defined.

(** C1, as stated, fails: a vector on which the solver reports success is
    returned as it is.  Here SLSQP answers [1.5, 0.5] with [success = True];
    the vector sums to 2 and leaves the unit interval, yet it is the result,
    and no fallback is logged. *)
Lemma converged_vector_is_returned_unchecked :
  _optimize_weights (Paper.world (Paper.answers [Fin (3 # 2); Fin (1 # 2)]))
    example_returns example_cov MAX_SHARPE [] []
  = (Ok [Fin (3 # 2); Fin (1 # 2)], [])
  /\ valid_weights [Fin (3 # 2); Fin (1 # 2)] = false
  /\ sums_to_one [Fin (3 # 2); Fin (1 # 2)] = false
  /\ in_unit_interval (Fin (3 # 2)) = false.
Proof. repeat split. Qed.

(** C1, amended.  On a non-empty universe [_optimize_weights] always returns
    a vector.  Whenever [minimize] reports success, the vector it answers
    is the result, unchanged and unchecked, whatever it holds, and no
    fallback is logged; when [minimize] fails, and for the [equal_weight]
    objective, the result is the equal-weight vector, which satisfies the
    sum and bound invariants.  So the invariants hold of the result as far
    as they hold of the vectors the solver reports as converged. *)
Theorem optimizer_returns_start_or_converged_vector :
  forall (E : External) (mean_returns : Series string) (cov_matrix : matrix)
         (objective : OptimizationObjective)
         (constraints : list PortfolioConstraint.t) (l : log),
    (0 < List.length (s_values mean_returns))%nat ->
    let n := List.length (s_values mean_returns) in
    let l1 :=
      l ++ flat_map (logged_warning (s_index mean_returns)) constraints in
    let run :=
      _optimize_weights E mean_returns cov_matrix objective constraints l in
    (forall f r,
        objective_func E mean_returns cov_matrix objective = Some f ->
        solver_call E mean_returns constraints f = Ok r ->
        success r = true ->
        run = (Ok (x r), l1))
    /\ (forall f,
          objective_func E mean_returns cov_matrix objective = Some f ->
          (forall r, solver_call E mean_returns constraints f = Ok r ->
                     success r = false) ->
          fst run = Ok (equal_weights n))
    /\ (objective = EQUAL_WEIGHT -> run = (Ok (equal_weights n), l1))
    /\ valid_weights (equal_weights n) = true
    /\ (exists (w : ndarray) (l' : log),
          run = (Ok w, l')
          /\ ((forall f r,
                  objective_func E mean_returns cov_matrix objective = Some f ->
                  solver_call E mean_returns constraints f = Ok r ->
                  success r = true -> valid_weights (x r) = true) ->
              valid_weights w = true)).
Proof.
  intros E mean_returns cov_matrix objective constraints l Hn n l1 run.
  split; [|split; [|split; [|split]]].
  - intros f r Hf Hcall Hs. unfold run.
    rewrite optimize_weights_run by exact Hn. rewrite Hf.
    unfold solver_call in Hcall. fold n in Hcall |- *.
    rewrite Hcall, Hs. reflexivity.
  - intros f Hf Hfail. unfold run.
    rewrite optimize_weights_run by exact Hn. rewrite Hf.
    unfold solver_call in Hfail. fold n in Hfail |- *.
    destruct (minimize E f _ _ _ _ _) as [r|e]; [|reflexivity].
    rewrite (Hfail r eq_refl). reflexivity.
  - intros Hobj. subst objective. unfold run.
    rewrite optimize_weights_run by exact Hn. reflexivity.
  - apply equal_weights_valid. exact Hn.
  - exists (chosen_weights E mean_returns cov_matrix objective constraints).
    eexists. split; [apply optimize_weights_result; exact Hn|].
    intros Hsound. apply chosen_weights_valid; assumption.
Qed.

Lemma optimizer_returns_start_or_converged_vector_witness :
  (0 < List.length (s_values example_returns))%nat /\
  _optimize_weights (Paper.world (Paper.answers [Fin (3 # 2); Fin (1 # 2)]))
    example_returns example_cov MIN_RISK [max_weight "AAPL" (6 # 10)] []
  = (Ok [Fin (3 # 2); Fin (1 # 2)],
     [] ++ flat_map (logged_warning (s_index example_returns))
             [max_weight "AAPL" (6 # 10)]).
Proof.
  assert (H1 : (0 < List.length (s_values example_returns))%nat)
    by (simpl; lia).
  split; [exact H1|].
  apply (proj1 (optimizer_returns_start_or_converged_vector
                  (Paper.world (Paper.answers [Fin (3 # 2); Fin (1 # 2)]))
                  example_returns example_cov MIN_RISK
                  [max_weight "AAPL" (6 # 10)] [] H1)
           (objective_min_risk
              (Paper.world (Paper.answers [Fin (3 # 2); Fin (1 # 2)]))
              example_cov)
           (mkOptimizeResult true [Fin (3 # 2); Fin (1 # 2)]));
    reflexivity.
Defined.

(** C6, as stated, fails in its last clause: with a constraint on the
    absent symbol [ZZZZ] the request does not fail and the warning is
    logged, but the vector returned is the one the solver answered,
    [1.5, 0.5], which breaks the sum and the bounds. *)
Lemma absent_symbol_constraint_with_unchecked_vector :
  _optimize_weights (Paper.world (Paper.answers [Fin (3 # 2); Fin (1 # 2)]))
    example_returns example_cov MAX_SHARPE [min_weight "ZZZZ" (1 # 10)] []
  = (Ok [Fin (3 # 2); Fin (1 # 2)], [not_found_warning "ZZZZ"])
  /\ valid_weights [Fin (3 # 2); Fin (1 # 2)] = false.
Proof. split; reflexivity. Qed.

(** C6, amended.  A [max_weight] or [min_weight] constraint whose
    (non-empty) symbol is not in the universe leaves [constraints_list] as
    it was and logs the warning "Symbol ... not found in portfolio".
    [_optimize_weights] does not raise, and returns the very vector it
    returns for the request without that constraint; that vector satisfies
    the sum and bound invariants whenever the vectors the solver reports as
    converged do. *)
Theorem absent_symbol_constraint_is_dropped :
  forall (E : External) (mean_returns : Series string) (cov_matrix : matrix)
         (objective : OptimizationObjective)
         (before after : list PortfolioConstraint.t)
         (c : PortfolioConstraint.t) (s : string) (l : log),
    (0 < List.length (s_values mean_returns))%nat ->
    is_weight_constraint c = true ->
    PortfolioConstraint.symbol c = Some s ->
    ~ In s (s_index mean_returns) ->
    (forall cl l0,
        add_custom_constraint (s_index mean_returns) cl c l0
        = (Ok cl, l0 ++ [not_found_warning s]))
    /\ exists (w : ndarray) (l1 l2 : log),
         _optimize_weights E mean_returns cov_matrix objective
           (before ++ c :: after) l = (Ok w, l1)
         /\ _optimize_weights E mean_returns cov_matrix objective
              (before ++ after) l = (Ok w, l2)
         /\ In (not_found_warning s) l1
         /\ ((forall f r,
                 objective_func E mean_returns cov_matrix objective = Some f ->
                 solver_call E mean_returns (before ++ after) f = Ok r ->
                 success r = true -> valid_weights (x r) = true) ->
             valid_weights w = true).
Proof.
  intros E mean_returns cov_matrix objective before after c s l
         Hn Hc Hs Habs.
  assert (Hsym : constraint_symbol c = s)
    by (unfold constraint_symbol; rewrite Hs; reflexivity).
  assert (Hkept : kept_constraint (s_index mean_returns) c = []).
  { unfold kept_constraint. rewrite Hsym, (get_loc_absent _ _ Habs).
    destruct (_ && _); [reflexivity|]. destruct (_ && _); reflexivity. }
  assert (Hlog : logged_warning (s_index mean_returns) c = [not_found_warning s]).
  { unfold logged_warning. unfold is_weight_constraint in Hc. rewrite Hc.
    rewrite Hsym, (get_loc_absent _ _ Habs). reflexivity. }
  assert (Hsame :
            flat_map (kept_constraint (s_index mean_returns)) (before ++ c :: after)
            = flat_map (kept_constraint (s_index mean_returns)) (before ++ after)).
  { rewrite !flat_map_app. simpl. rewrite Hkept. reflexivity. }
  split.
  - intros cl l0. rewrite add_custom_constraint_run, Hkept, Hlog, app_nil_r.
    reflexivity.
  - destruct (chosen_weights_same_kept E mean_returns cov_matrix objective
                _ _ Hsame) as [Hw Hfb].
    exists (chosen_weights E mean_returns cov_matrix objective (before ++ after)).
    eexists. eexists. split; [|split; [|split]].
    + rewrite optimize_weights_result by exact Hn. rewrite Hw. reflexivity.
    + apply optimize_weights_result. exact Hn.
    + rewrite flat_map_app. simpl. rewrite Hlog.
      apply in_or_app. left. apply in_or_app. right.
      apply in_or_app. right. left. reflexivity.
    + intros Hsound. apply chosen_weights_valid; assumption.
Qed.

Lemma absent_symbol_constraint_is_dropped_witness :
  (0 < List.length (s_values example_returns))%nat /\
  is_weight_constraint (min_weight "ZZZZ" (1 # 10)) = true /\
  PortfolioConstraint.symbol (min_weight "ZZZZ" (1 # 10)) = Some "ZZZZ" /\
  ~ In "ZZZZ" (s_index example_returns) /\
  (forall cl l0,
      add_custom_constraint (s_index example_returns) cl
        (min_weight "ZZZZ" (1 # 10)) l0
      = (Ok cl, l0 ++ [not_found_warning "ZZZZ"])) /\
  exists (w : ndarray) (l1 l2 : log),
    _optimize_weights (Paper.world Paper.keeps_start) example_returns
      example_cov MAX_SHARPE
      ([max_weight "AAPL" (6 # 10)] ++ min_weight "ZZZZ" (1 # 10) :: []) []
    = (Ok w, l1)
    /\ _optimize_weights (Paper.world Paper.keeps_start) example_returns
         example_cov MAX_SHARPE ([max_weight "AAPL" (6 # 10)] ++ []) []
       = (Ok w, l2)
    /\ In (not_found_warning "ZZZZ") l1
    /\ valid_weights w = true.
Proof.
  assert (H1 : (0 < List.length (s_values example_returns))%nat)
    by (simpl; lia).
  assert (H2 : is_weight_constraint (min_weight "ZZZZ" (1 # 10)) = true)
    by reflexivity.
  assert (H3 : PortfolioConstraint.symbol (min_weight "ZZZZ" (1 # 10))
               = Some "ZZZZ") by reflexivity.
  assert (H4 : ~ In "ZZZZ" (s_index example_returns)).
  { simpl. intros [H|[H|H]]; [discriminate H|discriminate H|exact H]. }
  split; [exact H1|split; [exact H2|split; [exact H3|split; [exact H4|]]]].
  destruct (absent_symbol_constraint_is_dropped
              (Paper.world Paper.keeps_start) example_returns example_cov
              MAX_SHARPE [max_weight "AAPL" (6 # 10)] []
              (min_weight "ZZZZ" (1 # 10)) "ZZZZ" [] H1 H2 H3 H4)
    as [Hloop [w [l1 [l2 [Hw1 [Hw2 [Hin Hvalid]]]]]]].
  split; [exact Hloop|].
  exists w, l1, l2. split; [exact Hw1|split; [exact Hw2|split; [exact Hin|]]].
  apply Hvalid. intros f r _ H _. inversion H. reflexivity.
Defined.

(* ------------------------------------------------------------------ *)
(** ** ConstraintBuilder: the loop over the request constraints *)

(** The constraint set handed to the solver: the equality [sum(w) - 1]
    first, then, in request order, what each constraint contributes. *)
Lemma constraints_list_built index cs l :
  add_custom_constraints index cs [sum_to_one] l =
  (Ok (sum_to_one :: flat_map (kept_constraint index) cs),
   l ++ flat_map (logged_warning index) cs).
Proof. apply add_custom_constraints_run. Qed.

(** A weight constraint on a symbol of the universe contributes the
    inequality the specification names. *)
Lemma present_symbol_constraint_kept index c s i :
  is_weight_constraint c = true ->
  PortfolioConstraint.symbol c = Some s ->
  get_loc index s = Ok i ->
  kept_constraint index c = [spec_inequality c i]
  /\ nth_error index i = Some s.
Proof.
  intros Hc Hs Hloc. split; [|apply (get_loc_present _ _ _ Hloc)].
  unfold kept_constraint, spec_inequality, constraint_symbol.
  unfold is_weight_constraint in Hc. rewrite Hs, Hloc.
  apply andb_prop in Hc. destruct Hc as [Hty Htruthy]. rewrite Hs in Htruthy.
  rewrite Htruthy, !andb_true_r.
  destruct (String.eqb (PortfolioConstraint.type c) "max_weight");
    [reflexivity|].
  simpl in Hty. rewrite Hty. reflexivity.
Qed.

(** Any constraint of another type, [sector_limit] included, falls through
    both branches: nothing is appended and nothing is logged. *)
Lemma other_constraint_types_ignored index cl c l :
  String.eqb (PortfolioConstraint.type c) "max_weight" = false ->
  String.eqb (PortfolioConstraint.type c) "min_weight" = false ->
  add_custom_constraint index cl c l = (Ok cl, l).
Proof.
  intros Hmax Hmin. unfold add_custom_constraint. rewrite Hmax, Hmin.
  reflexivity.
Qed.

(** C4 at the request
    [max_weight AAPL 0.6; sector_limit Technology 0.3] over the universe
    [AAPL, MSFT]: the constraint set built is the equality and the
    inequality [0.6 - w[0]] only; the sector limit adds no inequality and
    leaves no trace in the log. *)
Theorem sector_limit_adds_no_inequality :
  add_custom_constraints ["AAPL"; "MSFT"]
    [max_weight "AAPL" (6 # 10); sector_limit "Technology" (3 # 10)]
    [sum_to_one] []
  = (Ok [sum_to_one; max_weight_ineq 0 (Fin (6 # 10))], [])
  /\ List.length
       (filter (fun d => String.eqb (c_type d) "ineq")
          (flat_map (kept_constraint ["AAPL"; "MSFT"])
             [max_weight "AAPL" (6 # 10); sector_limit "Technology" (3 # 10)]))
     = 1%nat.
Proof. split; reflexivity. Qed.

(* ------------------------------------------------------------------ *)
(** ** RiskMetricsEngine: the Sharpe ratio *)

Lemma Qeq_bool_false_iff (a b : Q) : Qeq_bool a b = false <-> ~ a == b.
Proof.
  split.
  - intros H. apply Qeq_bool_neq. exact H.
  - intros H. destruct (Qeq_bool a b) eqn:Hb; [|reflexivity].
    exfalso. apply H, Qeq_bool_eq, Hb.
Qed.

(** C5, as stated, fails: there is no zero-volatility case.  For two assets
    whose returns are all 0 (mean returns and covariances 0) and weights
    one half each, lines 45 to 47 compute the return 0, the volatility 0
    and the Sharpe ratio [(0 - 0.02) / 0 = -inf], not 0. *)
Lemma sharpe_ratio_at_zero_volatility_is_infinite :
  match portfolio_metrics (Paper.world Paper.keeps_start)
          (mkSeries ["CASH"; "TBIL"] [Fin 0; Fin 0])
          [[Fin 0; Fin 0]; [Fin 0; Fin 0]] [Fin (1 # 2); Fin (1 # 2)] with
  | Ok (portfolio_return, portfolio_volatility, sharpe_ratio) =>
      feqb portfolio_return (Fin 0) = true
      /\ feqb portfolio_volatility (Fin 0) = true
      /\ sharpe_ratio = NInf
      /\ feqb sharpe_ratio (Fin 0) = false
  | Raise _ => False
  end.
Proof. vm_compute. repeat split. Qed.

(** C5, amended.  Whenever the return and the volatility of lines 45 and 46
    are computed, line 47 yields the NumPy quotient
    [(portfolio_return - 0.02) / portfolio_volatility] without any guard
    and without raising.  For a zero volatility this is an infinity or
    NaN, never 0: [+inf] for a return above the risk-free rate, [-inf]
    below it, NaN at it. *)
Theorem sharpe_ratio_is_unguarded_quotient :
  forall (E : External) (mean_returns : Series string) (cov_matrix : matrix)
         (optimal_weights : ndarray)
         (portfolio_return portfolio_volatility : float64),
    weighted_return mean_returns optimal_weights = Ok portfolio_return ->
    annual_volatility E cov_matrix optimal_weights = Ok portfolio_volatility ->
    let sharpe_ratio :=
      fdiv (fsub portfolio_return risk_free_rate) portfolio_volatility in
    portfolio_metrics E mean_returns cov_matrix optimal_weights
    = Ok (portfolio_return, portfolio_volatility, sharpe_ratio)
    /\ (feqb portfolio_volatility (Fin 0) = true ->
        is_finite sharpe_ratio = false
        /\ forall r : Q,
             portfolio_return = Fin r ->
             sharpe_ratio = inf_of_sign (r - (2 # 100) ?= 0)).
Proof.
  intros E mean_returns cov_matrix optimal_weights portfolio_return
         portfolio_volatility Hr Hv sharpe_ratio.
  split.
  - unfold portfolio_metrics. rewrite Hr, Hv. reflexivity.
  - intros Hzero. unfold sharpe_ratio.
    destruct portfolio_volatility as [p| | |]; try discriminate Hzero.
    cbn [feqb] in Hzero. split.
    + destruct (fsub portfolio_return risk_free_rate) as [a| | |] eqn:Hd;
        unfold fdiv; rewrite ?Hzero.
      * destruct (a ?= 0); reflexivity.
      * destruct (p ?= 0); reflexivity.
      * destruct (p ?= 0); reflexivity.
      * reflexivity.
    + intros r Hret. subst portfolio_return.
      unfold fsub, fopp, fadd, risk_free_rate, fdiv. rewrite Hzero.
      reflexivity.
Qed.

Lemma sharpe_ratio_is_unguarded_quotient_witness :
  exists portfolio_return portfolio_volatility : float64,
    weighted_return (mkSeries ["CASH"; "TBIL"] [Fin 0; Fin 0])
      [Fin (1 # 2); Fin (1 # 2)] = Ok portfolio_return
    /\ annual_volatility (Paper.world Paper.keeps_start)
         [[Fin 0; Fin 0]; [Fin 0; Fin 0]] [Fin (1 # 2); Fin (1 # 2)]
       = Ok portfolio_volatility
    /\ portfolio_metrics (Paper.world Paper.keeps_start)
         (mkSeries ["CASH"; "TBIL"] [Fin 0; Fin 0])
         [[Fin 0; Fin 0]; [Fin 0; Fin 0]] [Fin (1 # 2); Fin (1 # 2)]
       = Ok (portfolio_return, portfolio_volatility,
             fdiv (fsub portfolio_return risk_free_rate) portfolio_volatility)
    /\ is_finite
         (fdiv (fsub portfolio_return risk_free_rate) portfolio_volatility)
       = false.
Proof.
  destruct (weighted_return (mkSeries ["CASH"; "TBIL"] [Fin 0; Fin 0])
              [Fin (1 # 2); Fin (1 # 2)]) as [r|e] eqn:Hr;
    [|vm_compute in Hr; discriminate Hr].
  destruct (annual_volatility (Paper.world Paper.keeps_start)
              [[Fin 0; Fin 0]; [Fin 0; Fin 0]] [Fin (1 # 2); Fin (1 # 2)])
    as [v|e] eqn:Hv; [|vm_compute in Hv; discriminate Hv].
  destruct (sharpe_ratio_is_unguarded_quotient
              (Paper.world Paper.keeps_start)
              (mkSeries ["CASH"; "TBIL"] [Fin 0; Fin 0])
              [[Fin 0; Fin 0]; [Fin 0; Fin 0]] [Fin (1 # 2); Fin (1 # 2)]
              r v Hr Hv) as [Hrun Hzero].
  exists r, v. split; [reflexivity|split; [reflexivity|split; [exact Hrun|]]].
  apply Hzero. vm_compute in Hv. inversion Hv. reflexivity.
Defined.

(* ------------------------------------------------------------------ *)
(** ** SuggestionGenerator: the diversification score *)

Lemma clamp_compat (a b : Q) : a == b -> clamp a 0 1 == clamp b 0 1.
Proof.
  intros H. unfold clamp.
  destruct (Qlt_le_dec a 0), (Qlt_le_dec b 0), (Qlt_le_dec 1 a),
    (Qlt_le_dec 1 b); lra.
Qed.

Lemma clamp_monotone (a b : Q) : a <= b -> clamp a 0 1 <= clamp b 0 1.
Proof.
  intros H. unfold clamp.
  destruct (Qlt_le_dec a 0), (Qlt_le_dec b 0), (Qlt_le_dec 1 a),
    (Qlt_le_dec 1 b); lra.
Qed.

Lemma clamp_inside (a : Q) : 0 <= a <= 1 -> clamp a 0 1 == a.
Proof.
  intros H. unfold clamp.
  destruct (Qlt_le_dec a 0), (Qlt_le_dec 1 a); lra.
Qed.

(** [max(0.0, min(1.0, d))] on a finite [d] is the clamp of [d]. *)
Lemma py_clamp_finite (d : Q) :
  exists q, py_max (Fin 0) (py_min (Fin 1) (Fin d)) = Fin q
            /\ q == clamp d 0 1.
Proof.
  unfold py_max, py_min, fgt, flt, clamp.
  destruct (Qcompare_spec d 1) as [H|H|H].
  - exists 1. split; [reflexivity|].
    destruct (Qlt_le_dec d 0), (Qlt_le_dec 1 d); lra.
  - destruct (Qcompare_spec 0 d) as [H0|H0|H0].
    + exists 0. split; [reflexivity|].
      destruct (Qlt_le_dec d 0), (Qlt_le_dec 1 d); lra.
    + exists d. split; [reflexivity|].
      destruct (Qlt_le_dec d 0), (Qlt_le_dec 1 d); lra.
    + exists 0. split; [reflexivity|].
      destruct (Qlt_le_dec d 0), (Qlt_le_dec 1 d); lra.
  - exists 1. split; [reflexivity|].
    destruct (Qlt_le_dec d 0), (Qlt_le_dec 1 d); lra.
Qed.

Lemma py_clamp_range (d : float64) :
  exists q, py_max (Fin 0) (py_min (Fin 1) d) = Fin q /\ 0 <= q <= 1.
Proof.
  destruct d as [q| | |].
  - destruct (py_clamp_finite q) as [c [Hc Hq]]. exists c.
    split; [exact Hc|]. rewrite Hq. unfold clamp.
    destruct (Qlt_le_dec q 0), (Qlt_le_dec 1 q); lra.
  - exists 1. split; [reflexivity|lra].
  - exists 0. split; [reflexivity|lra].
  - exists 1. split; [reflexivity|lra].
Qed.

(* ------------------------------------------------------------------ *)
(** ** The binary64 rounding keeps the order *)

Lemma pow2_pos (k : Z) : 0 < pow2 k.
Proof. apply Qpower_0_lt. reflexivity. Qed.

Lemma pow2_succ (k : Z) : pow2 (k + 1) == 2 * pow2 k.
Proof.
  unfold pow2. rewrite Qpower_plus by discriminate. 
  change (2 ^ 1) with (2 * 1)%Q. ring.
Qed.

Lemma pow2_le (j k : Z) : (j <= k)%Z -> pow2 j <= pow2 k.
Proof. intros H. apply Qpower_le_compat_l; [exact H|discriminate]. Qed.

Lemma pow2_lt_inv (j k : Z) : pow2 j < pow2 k -> (j < k)%Z.
Proof. intros H. apply (Qpower_lt_compat_l_inv 2); [exact H|reflexivity]. Qed.

Lemma pow2_inject (k : Z) : (0 <= k)%Z -> inject_Z (2 ^ k) == pow2 k.
Proof. intros H. apply Zpower_Qpower. exact H. Qed.

Lemma pow2_sub (j k : Z) : pow2 (j - k) == pow2 j / pow2 k.
Proof. unfold pow2. apply Qpower_minus. discriminate. Qed.

(** The rounding of a non-negative fraction: within one half of it, and
    even when exactly one half away. *)
Lemma nearest_even_spec (n : Z) (d : BinNums.positive) :
  (0 <= n)%Z ->
  let m := nearest_even n d in
  (2 * Zpos d * m - Zpos d < 2 * n < 2 * Zpos d * m + Zpos d)%Z
  \/ ((2 * n = 2 * Zpos d * m + Zpos d)%Z /\ Z.even m = true)
  \/ ((2 * n = 2 * Zpos d * m - Zpos d)%Z /\ Z.even m = true).
Proof.
  intros Hn. unfold nearest_even.
  pose proof (Z.div_mod n (Zpos d) ltac:(lia)) as Hdm.
  pose proof (Z.mod_pos_bound n (Zpos d) ltac:(lia)) as Hr.
  set (q := (n / Zpos d)%Z) in *. set (r := (n mod Zpos d)%Z) in *.
  destruct (Z.compare_spec (2 * r) (Zpos d)) as [He|Hl|Hg].
  - destruct (Z.even q) eqn:Hq.
    + right. left. split; [lia|exact Hq].
    + right. right. split; [lia|].
      rewrite Z.even_add, Hq. reflexivity.
  - left. lia.
  - left. lia.
Qed.

Lemma nearest_even_monotone (n1 n2 : Z) (d1 d2 : BinNums.positive) :
  (0 <= n1)%Z -> (0 <= n2)%Z ->
  (n1 * Zpos d2 <= n2 * Zpos d1)%Z ->
  (nearest_even n1 d1 <= nearest_even n2 d2)%Z.
Proof.
  intros H1 H2 Hle.
  pose proof (nearest_even_spec n1 d1 H1) as S1.
  pose proof (nearest_even_spec n2 d2 H2) as S2.
  cbv zeta in S1, S2.
  set (m1 := nearest_even n1 d1) in *. set (m2 := nearest_even n2 d2) in *.
  destruct (Z.le_gt_cases m1 m2) as [H|H]; [exact H|exfalso].
  assert (Hm : (m2 + 1 <= m1)%Z) by lia.
  assert (Hd : (0 < Zpos d1 * Zpos d2)%Z) by lia.
  assert (Hlo : (2 * Zpos d1 * m1 - Zpos d1 <= 2 * n1)%Z)
    by (destruct S1 as [S|[[S _]|[S _]]]; lia).
  assert (Hhi : (2 * n2 <= 2 * Zpos d2 * m2 + Zpos d2)%Z)
    by (destruct S2 as [S|[[S _]|[S _]]]; lia).
  assert (Ha : ((2 * m1 - 1) * (Zpos d1 * Zpos d2) <= 2 * n1 * Zpos d2)%Z) by nia.
  assert (Hb : (2 * n2 * Zpos d1 <= (2 * m2 + 1) * (Zpos d1 * Zpos d2))%Z) by nia.
  assert (Hc : ((2 * m1 - 1) * (Zpos d1 * Zpos d2)
                <= (2 * m2 + 1) * (Zpos d1 * Zpos d2))%Z) by lia.
  assert (Heq : (m1 = m2 + 1)%Z) by nia.
  assert (He1 : (2 * n1 = 2 * Zpos d1 * m1 - Zpos d1)%Z) by nia.
  assert (He2 : (2 * n2 = 2 * Zpos d2 * m2 + Zpos d2)%Z) by nia.
  assert (Hev1 : Z.even m1 = true)
    by (destruct S1 as [S|[[S E]|[S E]]]; [lia|lia|exact E]).
  assert (Hev2 : Z.even m2 = true)
    by (destruct S2 as [S|[[S E]|[S E]]]; [lia|exact E|lia]).
  rewrite Heq, Z.even_add, Hev2 in Hev1. discriminate Hev1.
Qed.

Lemma nearest_even_integer (z : Z) : nearest_even z 1 = z.
Proof.
  unfold nearest_even. rewrite Z.div_1_r, Z.mod_1_r. reflexivity.
Qed.

Lemma Qnum_pos (a : Q) : 0 < a -> (0 < Qnum a)%Z.
Proof. destruct a as [n d]. unfold Qlt. simpl. lia. Qed.

Lemma fraction_below (N D x y : Q) :
  0 < x -> 0 < y -> y <= D -> N < 2 * x -> N / D < 2 * (x / y).
Proof.
  intros Px Py Dlo Nhi.
  apply Qlt_shift_div_r; [lra|].
  setoid_replace (2 * (x / y) * D) with (2 * x * (D / y)) by (field; lra).
  assert (H1 : 1 <= D / y) by (apply Qle_shift_div_l; lra).
  apply Qlt_le_trans with (2 * x); [exact Nhi|].
  rewrite <- (Qmult_1_r (2 * x)) at 1.
  apply Qmult_le_l; lra.
Qed.

Lemma fraction_above (N D x y : Q) :
  0 < x -> 0 < y -> 0 < D -> D < 2 * y -> x <= N -> x / y < 2 * (N / D).
Proof.
  intros Px Py PD Dhi Nlo.
  apply Qlt_shift_div_r; [lra|].
  setoid_replace (2 * (N / D) * y) with (N * (2 * y / D)) by (field; lra).
  assert (H1 : 1 < 2 * y / D) by (apply Qlt_shift_div_l; lra).
  apply Qle_lt_trans with N; [exact Nlo|].
  rewrite <- (Qmult_1_r N) at 1.
  apply Qmult_lt_l; lra.
Qed.

Lemma binade_spec (a : Q) :
  0 < a -> pow2 (binade a) <= a /\ a < pow2 (binade a + 1).
Proof.
  intros Ha. pose proof (Qnum_pos a Ha) as Hn.
  destruct a as [n d]. simpl in Hn. unfold binade. cbn [Qnum Qden].
  pose proof (Z.log2_spec n Hn) as [Hn1 Hn2].
  pose proof (Z.log2_spec (Zpos d) ltac:(lia)) as [Hd1 Hd2].
  pose proof (Z.log2_nonneg n) as Hln.
  pose proof (Z.log2_nonneg (Zpos d)) as Hld.
  set (ln := Z.log2 n) in *. set (ld := Z.log2 (Zpos d)) in *.
  assert (Xn1 : pow2 ln <= inject_Z n)
    by (rewrite <- pow2_inject by exact Hln; rewrite <- Zle_Qle; exact Hn1).
  assert (Xn2 : inject_Z n < 2 * pow2 ln).
  { rewrite <- pow2_succ, <- pow2_inject by lia. rewrite <- Zlt_Qlt.
    exact Hn2. }
  assert (Xd1 : pow2 ld <= inject_Z (Zpos d))
    by (rewrite <- pow2_inject by exact Hld; rewrite <- Zle_Qle; exact Hd1).
  assert (Xd2 : inject_Z (Zpos d) < 2 * pow2 ld).
  { rewrite <- pow2_succ, <- pow2_inject by lia. rewrite <- Zlt_Qlt.
    exact Hd2. }
  pose proof (pow2_pos ln) as Pn. pose proof (pow2_pos ld) as Pd.
  assert (PD : 0 < inject_Z (Zpos d)) by lra.
  assert (Hk : pow2 (ln - ld) == pow2 ln / pow2 ld) by apply pow2_sub.
  assert (Hup : n # d < 2 * pow2 (ln - ld)).
  { rewrite Hk, (Qmake_Qdiv n d). apply fraction_below; assumption. }
  assert (Hlo : pow2 (ln - ld) < 2 * (n # d)).
  { rewrite Hk, (Qmake_Qdiv n d). apply fraction_above; assumption. }
  destruct (Qle_bool (pow2 (ln - ld)) (n # d)) eqn:Hb.
  - apply Qle_bool_iff in Hb. split; [exact Hb|].
    rewrite pow2_succ. exact Hup.
  - assert (Hlt : n # d < pow2 (ln - ld)).
    { apply Qnot_le_lt. intros H. apply Qle_bool_iff in H.
      rewrite H in Hb. discriminate Hb. }
    replace (ln - ld - 1 + 1)%Z with (ln - ld)%Z by lia.
    split; [|exact Hlt].
    assert (H2 : pow2 (ln - ld) == 2 * pow2 (ln - ld - 1)).
    { rewrite <- pow2_succ. replace (ln - ld - 1 + 1)%Z with (ln - ld)%Z by lia.
      reflexivity. }
    rewrite H2 in Hlo. lra.
Qed.

Lemma pow2_add (j k : Z) : pow2 (j + k) == pow2 j * pow2 k.
Proof. unfold pow2. apply Qpower_plus. discriminate. Qed.

(** The significand of [a > 0] lies between [2^52] and [2^53]. *)
Lemma significand_range (a : Q) :
  0 < a ->
  let s := a / pow2 (binade a - 52) in
  inject_Z (2 ^ 52) <= s /\ s <= inject_Z (2 ^ 53).
Proof.
  intros Ha s. destruct (binade_spec a Ha) as [Hlo Hhi].
  pose proof (pow2_pos (binade a - 52)) as Pe.
  assert (H52 : pow2 (binade a) == inject_Z (2 ^ 52) * pow2 (binade a - 52)).
  { rewrite pow2_inject by lia. rewrite <- pow2_add.
    replace (52 + (binade a - 52))%Z with (binade a) by lia. reflexivity. }
  assert (H53 : pow2 (binade a + 1) == inject_Z (2 ^ 53) * pow2 (binade a - 52)).
  { rewrite pow2_inject by lia. rewrite <- pow2_add.
    replace (53 + (binade a - 52))%Z with (binade a + 1)%Z by lia. reflexivity. }
  unfold s. split.
  - apply Qle_shift_div_l; [exact Pe|]. rewrite <- H52. exact Hlo.
  - apply Qle_shift_div_r; [exact Pe|]. rewrite <- H53.
    apply Qlt_le_weak. exact Hhi.
Qed.

Lemma Qnum_nonneg (a : Q) : 0 <= a -> (0 <= Qnum a)%Z.
Proof. destruct a as [n d]. unfold Qle. simpl. lia. Qed.

Lemma nearest_binary64_bounds (a : Q) :
  0 < a ->
  pow2 (binade a) <= nearest_binary64 a
  /\ nearest_binary64 a <= pow2 (binade a + 1).
Proof.
  intros Ha. destruct (significand_range a Ha) as [Hlo Hhi].
  cbv zeta in Hlo, Hhi. unfold nearest_binary64.
  set (s := a / pow2 (binade a - 52)) in *.
  pose proof (pow2_pos (binade a - 52)) as Pe.
  assert (Hs : 0 <= s).
  { apply Qle_trans with (inject_Z (2 ^ 52)); [discriminate|exact Hlo]. }
  pose proof (Qnum_nonneg s Hs) as Hn.
  assert (Hm1 : (2 ^ 52 <= nearest_even (Qnum s) (Qden s))%Z).
  { rewrite <- (nearest_even_integer (2 ^ 52)) at 1.
    apply nearest_even_monotone; [lia|exact Hn|exact Hlo]. }
  assert (Hm2 : (nearest_even (Qnum s) (Qden s) <= 2 ^ 53)%Z).
  { rewrite <- (nearest_even_integer (2 ^ 53)) at 1.
    apply nearest_even_monotone; [exact Hn|lia|exact Hhi]. }
  assert (H52 : pow2 (binade a) == inject_Z (2 ^ 52) * pow2 (binade a - 52)).
  { rewrite pow2_inject by lia. rewrite <- pow2_add.
    replace (52 + (binade a - 52))%Z with (binade a) by lia. reflexivity. }
  assert (H53 : pow2 (binade a + 1) == inject_Z (2 ^ 53) * pow2 (binade a - 52)).
  { rewrite pow2_inject by lia. rewrite <- pow2_add.
    replace (53 + (binade a - 52))%Z with (binade a + 1)%Z by lia. reflexivity. }
  split.
  - rewrite H52. apply Qmult_le_compat_r; [|lra].
    rewrite <- Zle_Qle. exact Hm1.
  - rewrite H53. apply Qmult_le_compat_r; [|lra].
    rewrite <- Zle_Qle. exact Hm2.
Qed.

Lemma binade_monotone (a b : Q) :
  0 < a -> a <= b -> (binade a <= binade b)%Z.
Proof.
  intros Ha Hab.
  destruct (binade_spec a Ha) as [Hlo _].
  destruct (binade_spec b (Qlt_le_trans _ _ _ Ha Hab)) as [_ Hhi].
  assert (H : pow2 (binade a) < pow2 (binade b + 1)) by lra.
  apply pow2_lt_inv in H. lia.
Qed.

Lemma nearest_binary64_monotone (a b : Q) :
  0 < a -> a <= b -> nearest_binary64 a <= nearest_binary64 b.
Proof.
  intros Ha Hab. assert (Hb : 0 < b) by lra.
  pose proof (binade_monotone a b Ha Hab) as Hk.
  destruct (Z.eq_dec (binade a) (binade b)) as [Heq|Hne].
  - unfold nearest_binary64. rewrite Heq.
    pose proof (pow2_pos (binade b - 52)) as Pe.
    apply Qmult_le_compat_r; [|lra]. rewrite <- Zle_Qle.
    assert (Hs : a / pow2 (binade b - 52) <= b / pow2 (binade b - 52)).
    { unfold Qdiv. apply Qmult_le_compat_r; [exact Hab|].
      apply Qlt_le_weak, Qinv_lt_0_compat, Pe. }
    assert (H0a : 0 <= a / pow2 (binade b - 52)).
    { apply Qle_shift_div_l; [exact Pe|]. lra. }
    apply nearest_even_monotone.
    + apply Qnum_nonneg. exact H0a.
    + apply Qnum_nonneg. lra.
    + exact Hs.
  - destruct (nearest_binary64_bounds a Ha) as [_ Hhi].
    destruct (nearest_binary64_bounds b Hb) as [Hlo _].
    apply Qle_trans with (pow2 (binade a + 1)); [exact Hhi|].
    apply Qle_trans with (pow2 (binade b)); [|exact Hlo].
    apply pow2_le. lia.
Qed.

Lemma nearest_binary64_pos (a : Q) : 0 < a -> 0 < nearest_binary64 a.
Proof.
  intros Ha. destruct (nearest_binary64_bounds a Ha) as [Hlo _].
  pose proof (pow2_pos (binade a)). lra.
Qed.

Lemma binary64_monotone (p q : Q) : p <= q -> binary64 p <= binary64 q.
Proof.
  intros Hpq. unfold binary64.
  destruct p as [[|n|n] d] eqn:Ep, q as [[|m|m] e] eqn:Eq; cbn [Qnum];
    rewrite ?Qred_correct.
  - apply Qle_refl.
  - apply Qlt_le_weak, nearest_binary64_pos. reflexivity.
  - exfalso. unfold Qle in Hpq. simpl in Hpq. lia.
  - exfalso. unfold Qle in Hpq. simpl in Hpq. lia.
  - apply nearest_binary64_monotone; [reflexivity|exact Hpq].
  - exfalso. unfold Qle in Hpq. simpl in Hpq. lia.
  - assert (H : 0 < nearest_binary64 (- (Z.neg n # d)))
      by (apply nearest_binary64_pos; reflexivity).
    lra.
  - assert (H : 0 < nearest_binary64 (- (Z.neg n # d)))
      by (apply nearest_binary64_pos; reflexivity).
    assert (H' : 0 < nearest_binary64 (Z.pos m # e))
      by (apply nearest_binary64_pos; reflexivity).
    lra.
  - apply Qopp_le_compat. apply nearest_binary64_monotone; [reflexivity|].
    apply Qopp_le_compat. exact Hpq.
Qed.

Lemma binary64_is_a_rounding : rounding binary64.
Proof.
  split; [exact binary64_monotone|].
  split; [reflexivity|split; reflexivity].
Qed.

(* ------------------------------------------------------------------ *)
(** ** The diversification score with rounding *)

Lemma rounding_compat (rnd : Q -> Q) (a b : Q) :
  rounding rnd -> a == b -> rnd a == rnd b.
Proof.
  intros [Hmono _] H.
  apply Qle_antisym; apply Hmono; rewrite H; apply Qle_refl.
Qed.

(** With two assets or more the rounded [1/N] is at most 1/2, so the
    denominator [1 - 1/N] of the score is at least 1/2 after rounding. *)
Lemma rounded_denominator (rnd : Q -> Q) (N : nat) :
  rounding rnd -> (2 <= N)%nat ->
  1 # 2 <= rnd (1 - rnd (1 / inject_Z (Z.of_nat N))).
Proof.
  intros Hr HN. pose proof Hr as [Hmono [_ [Hhalf _]]].
  assert (Hfloor : rnd (1 / inject_Z (Z.of_nat N)) <= 1 # 2).
  { apply Qle_trans with (rnd (1 # 2)); [|rewrite Hhalf; apply Qle_refl].
    apply Hmono.
    assert (H2 : 2 <= inject_Z (Z.of_nat N)).
    { change 2 with (inject_Z 2). rewrite <- Zle_Qle. lia. }
    generalize dependent (inject_Z (Z.of_nat N)). intros y H2.
    apply Qle_shift_div_r; lra. }
  apply Qle_trans with (rnd (1 # 2)); [rewrite Hhalf; apply Qle_refl|].
  apply Hmono.
  generalize dependent (rnd (1 / inject_Z (Z.of_nat N))). intros y Hy. lra.
Qed.

(** The rounded score of a vector of two assets or more whose computed
    index is the finite number [h], before clamping. *)
Lemma rounded_score_finite (rnd : Q -> Q) (w : ndarray) (h : Q) :
  rounding rnd -> (2 <= List.length w)%nat ->
  Rounded.sum rnd (Rounded.square rnd w) = Fin h ->
  Rounded._calculate_diversification_score rnd w
  = Ok (py_max (Fin 0)
          (py_min (Fin 1)
             (Fin (rnd (rnd (1 - h)
                        / rnd (1 - rnd (1 / inject_Z (Z.of_nat (List.length w))))))))).
Proof.
  intros Hr Hn Hh. pose proof (rounded_denominator rnd _ Hr Hn) as Hd.
  unfold Rounded._calculate_diversification_score. rewrite Hh.
  assert (Htd : Rounded.truediv rnd 1 (List.length w)
                = Ok (Fin (rnd (1 / inject_Z (Z.of_nat (List.length w))))))
    by (destruct (List.length w); [lia|reflexivity]).
  rewrite Htd. cbn [rbind].
  unfold Rounded.div, Rounded.sub, fsub, fopp, fadd, round, fdiv.
  fold (Qminus 1 h).
  fold (Qminus 1 (rnd (1 / inject_Z (Z.of_nat (List.length w))))).
  assert (Hnz : Qeq_bool (rnd (1 - rnd (1 / inject_Z (Z.of_nat (List.length w)))))
                  0 = false).
  { apply Qeq_bool_false_iff. intros Hz. rewrite Hz in Hd. lra. }
  rewrite Hnz. reflexivity.
Qed.

(** Adding rounded squares of 0 to a sum equal to 1 leaves it equal to 1. *)
Lemma rounded_sum_zeros (rnd : Q -> Q) (z : Q) (k : nat) :
  rounding rnd -> z == 0 ->
  forall a : Q, a == 1 ->
  exists a' : Q,
    fold_left (Rounded.add rnd) (repeat (Fin z) k) (Fin a) = Fin a' /\ a' == 1.
Proof.
  intros Hr Hz. pose proof Hr as [_ [_ [_ H1]]].
  induction k as [|k IH]; intros a Ha.
  - exists a. split; [reflexivity|exact Ha].
  - cbn [repeat fold_left]. unfold Rounded.add at 2. cbn [fadd round].
    apply IH. transitivity (rnd 1); [|exact H1].
    apply (rounding_compat rnd _ _ Hr). rewrite Ha, Hz. ring.
Qed.

Lemma rounded_hhi_concentrated (rnd : Q -> Q) (N : nat) :
  rounding rnd -> (1 <= N)%nat ->
  exists h : Q,
    Rounded.sum rnd (Rounded.square rnd (map Fin (concentrated N))) = Fin h
    /\ h == 1.
Proof.
  intros Hr HN. pose proof Hr as [_ [H0 [_ H1]]].
  unfold concentrated, Rounded.sum, Rounded.square.
  cbn [map fold_left]. rewrite map_repeat, map_repeat.
  unfold Rounded.mul, Rounded.add at 2. cbn [fmul fadd round].
  apply (rounded_sum_zeros rnd _ _ Hr).
  - transitivity (rnd 0); [|exact H0].
    apply (rounding_compat rnd _ _ Hr). ring.
  - assert (H11 : rnd (1 * 1) == 1).
    { transitivity (rnd 1); [|exact H1].
      apply (rounding_compat rnd _ _ Hr). ring. }
    transitivity (rnd 1); [|exact H1].
    apply (rounding_compat rnd _ _ Hr). rewrite H11. ring.
Qed.

(** C7, as stated, fails twice.  In binary64 the equal-weight vector of
    five assets, [[1/5] * 5], scores [0.9999999999999999] (that is
    [1 - 2^-53]), not 1.0: the squares sum to [0.20000000000000004].  And
    for a single asset the vector [[1.0]] is fully concentrated, yet its
    score is 1.0: there [min_hhi = 1], the quotient is [0/0 = nan], and
    [min(1.0, nan)] is [1.0]. *)
Lemma equal_weights_and_single_asset_scores :
  Rounded._calculate_diversification_score binary64
    (Rounded.equal_weights binary64 5)
  = Ok (Fin (9007199254740991 # 9007199254740992))
  /\ Rounded.sum binary64
       (Rounded.square binary64 (Rounded.equal_weights binary64 5))
     = Fin (7205759403792795 # 36028797018963968)
  /\ ~ (9007199254740991 # 9007199254740992) == 1
  /\ Rounded._calculate_diversification_score binary64 [Fin 1] = Ok (Fin 1)
  /\ map Fin (concentrated 1) = [Fin 1].
Proof.
  split; [vm_compute; reflexivity|].
  split; [vm_compute; reflexivity|].
  split; [intros H; discriminate H|].
  split; [vm_compute; reflexivity|reflexivity].
Qed.

(** C7, amended to two assets or more and to arithmetic with rounding.
    For every rounding that keeps the order and leaves 0, 1/2 and 1
    unchanged, as [binary64] does: the score of a vector with a finite computed
    index [h] is the clamp to [0, 1] of the rounded quotient of the rounded
    [1 - h] and the rounded [1 - 1/N]; every score is a number between 0
    and 1; the fully concentrated vector scores exactly 0; of two vectors
    of [N] assets the one with the larger computed index never scores
    higher; and a vector whose computed index is the rounded [1/N] scores
    exactly 1.  The equal-weight vector is such a vector when its squares
    and their sum happen to be exact, as for [N = 4], and not in general,
    as [N = 5] shows. *)
Theorem diversification_score_two_or_more_assets :
  forall (rnd : Q -> Q) (N : nat),
    rounding rnd ->
    (2 <= N)%nat ->
    let floor := rnd (1 / inject_Z (Z.of_nat N)) in
    let hhi w := Rounded.sum rnd (Rounded.square rnd w) in
    let score w := Rounded._calculate_diversification_score rnd w in
    (forall (w : ndarray) (h : Q),
        List.length w = N ->
        hhi w = Fin h ->
        exists q,
          score w = Ok (Fin q)
          /\ q == clamp (rnd (rnd (1 - h) / rnd (1 - floor))) 0 1)
    /\ (forall w : ndarray,
          List.length w = N ->
          exists q, score w = Ok (Fin q) /\ 0 <= q <= 1)
    /\ (exists q, score (map Fin (concentrated N)) = Ok (Fin q) /\ q == 0)
    /\ (forall (w1 w2 : ndarray) (h1 h2 q1 q2 : Q),
          List.length w1 = N -> List.length w2 = N ->
          hhi w1 = Fin h1 -> hhi w2 = Fin h2 ->
          score w1 = Ok (Fin q1) -> score w2 = Ok (Fin q2) ->
          h1 <= h2 -> q2 <= q1)
    /\ (forall (w : ndarray) (h : Q),
          List.length w = N ->
          hhi w = Fin h ->
          h == floor ->
          exists q, score w = Ok (Fin q) /\ q == 1).
Proof.
  intros rnd N Hr HN floor hhi score.
  pose proof Hr as [Hmono [H0 [Hhalf H1]]].
  pose proof (rounded_denominator rnd N Hr HN) as Hden. fold floor in Hden.
  assert (Hscore : forall (w : ndarray) (h : Q),
             List.length w = N ->
             hhi w = Fin h ->
             exists q,
               score w = Ok (Fin q)
               /\ q == clamp (rnd (rnd (1 - h) / rnd (1 - floor))) 0 1).
  { intros w h Hw Hh. unfold score.
    rewrite (rounded_score_finite rnd w h Hr) by (rewrite ?Hw; assumption).
    rewrite Hw. fold floor.
    destruct (py_clamp_finite (rnd (rnd (1 - h) / rnd (1 - floor))))
      as [q [Hq Hc]].
    exists q. rewrite Hq. split; [reflexivity|exact Hc]. }
  split; [exact Hscore|]. split; [|split; [|split]].
  - intros w Hw. unfold score, Rounded._calculate_diversification_score.
    assert (Htd : Rounded.truediv rnd 1 (List.length w) = Ok (Fin floor))
      by (rewrite Hw; destruct N; [lia|reflexivity]).
    rewrite Htd. cbn [rbind].
    destruct (py_clamp_range
                (Rounded.div rnd
                   (Rounded.sub rnd (Fin 1)
                      (Rounded.sum rnd (Rounded.square rnd w)))
                   (Rounded.sub rnd (Fin 1) (Fin floor))))
      as [q [Hq Hrange]].
    exists q. rewrite Hq. split; [reflexivity|exact Hrange].
  - destruct (rounded_hhi_concentrated rnd N Hr) as [h [Hh Hh1]]; [lia|].
    assert (Hlen : List.length (map Fin (concentrated N)) = N).
    { rewrite length_map. unfold concentrated. simpl.
      rewrite repeat_length. lia. }
    destruct (Hscore (map Fin (concentrated N)) h Hlen Hh) as [q [Hq Hc]].
    exists q. split; [exact Hq|]. rewrite Hc.
    assert (Hnum : rnd (1 - h) == 0).
    { transitivity (rnd 0); [|exact H0].
      apply (rounding_compat rnd _ _ Hr). rewrite Hh1. ring. }
    assert (Hquot : rnd (rnd (1 - h) / rnd (1 - floor)) == 0).
    { transitivity (rnd 0); [|exact H0].
      apply (rounding_compat rnd _ _ Hr).
      rewrite Hnum. unfold Qdiv. ring. }
    transitivity (clamp 0 0 1).
    + apply clamp_compat. exact Hquot.
    + apply clamp_inside. lra.
  - intros w1 w2 h1 h2 q1 q2 Hw1 Hw2 Hh1 Hh2 Hs1 Hs2 Hle.
    destruct (Hscore w1 h1 Hw1 Hh1) as [p1 [Hp1 Hc1]].
    destruct (Hscore w2 h2 Hw2 Hh2) as [p2 [Hp2 Hc2]].
    rewrite Hp1 in Hs1. rewrite Hp2 in Hs2.
    inversion Hs1. inversion Hs2. subst p1 p2.
    rewrite Hc1, Hc2. apply clamp_monotone, Hmono.
    assert (Hnum : rnd (1 - h2) <= rnd (1 - h1)) by (apply Hmono; lra).
    assert (Hd : 0 < rnd (1 - floor)) by lra.
    unfold Qdiv. apply Qmult_le_compat_r; [exact Hnum|].
    apply Qlt_le_weak, Qinv_lt_0_compat, Hd.
  - intros w h Hw Hh Heq.
    destruct (Hscore w h Hw Hh) as [q [Hq Hc]].
    exists q. split; [exact Hq|]. rewrite Hc.
    assert (Hnum : rnd (1 - h) == rnd (1 - floor)).
    { apply (rounding_compat rnd _ _ Hr). rewrite Heq. reflexivity. }
    assert (Hquot : rnd (rnd (1 - h) / rnd (1 - floor)) == 1).
    { transitivity (rnd 1); [|exact H1].
      apply (rounding_compat rnd _ _ Hr). rewrite Hnum.
      field. intros Hz. rewrite Hz in Hden. lra. }
    transitivity (clamp 1 0 1).
    + apply clamp_compat. exact Hquot.
    + apply clamp_inside. lra.
Qed.

Lemma diversification_score_two_or_more_assets_witness :
  rounding binary64 /\
  (2 <= 3)%nat /\
  (exists q,
      Rounded._calculate_diversification_score binary64
        (map Fin (concentrated 3)) = Ok (Fin q)
      /\ q == 0) /\
  (exists q,
      Rounded._calculate_diversification_score binary64
        (Rounded.equal_weights binary64 3) = Ok (Fin q)
      /\ 0 <= q <= 1) /\
  (forall q1 q2 : Q,
      Rounded._calculate_diversification_score binary64
        [Fin (1 # 2); Fin (1 # 4); Fin (1 # 4)] = Ok (Fin q1) ->
      Rounded._calculate_diversification_score binary64
        [Fin (3 # 4); Fin (1 # 8); Fin (1 # 8)] = Ok (Fin q2) ->
      q2 <= q1) /\
  (2 <= 4)%nat /\
  (exists q,
      Rounded._calculate_diversification_score binary64
        (Rounded.equal_weights binary64 4) = Ok (Fin q)
      /\ q == 1).
Proof.
  pose proof binary64_is_a_rounding as Hr.
  assert (HN : (2 <= 3)%nat) by lia.
  assert (HN4 : (2 <= 4)%nat) by lia.
  split; [exact Hr|split; [exact HN|]].
  destruct (diversification_score_two_or_more_assets binary64 3 Hr HN)
    as [_ [Hrange [Hconc [Hmono _]]]].
  destruct (diversification_score_two_or_more_assets binary64 4 Hr HN4)
    as [_ [_ [_ [_ Hone]]]].
  split; [exact Hconc|]. split; [|split; [|split; [exact HN4|]]].
  - apply Hrange. reflexivity.
  - intros q1 q2 H1 H2.
    apply (Hmono [Fin (1 # 2); Fin (1 # 4); Fin (1 # 4)]
             [Fin (3 # 4); Fin (1 # 8); Fin (1 # 8)]
             (3 # 8) (19 # 32) q1 q2);
      try assumption; try (vm_compute; reflexivity).
    vm_compute. discriminate.
  - apply (Hone (Rounded.equal_weights binary64 4) (1 # 4)).
    + reflexivity.
    + vm_compute. reflexivity.
    + vm_compute. reflexivity.
Defined.

(* ------------------------------------------------------------------ *)
(** ** AllocationBuilder: risk contributions *)




Lemma getitem_Fin (l : list Q) (i : nat) :
  (i < List.length l)%nat -> getitem (map Fin l) i = Ok (Fin (nth i l 0)).
Proof.
  intros H. unfold getitem. rewrite nth_error_map.
  rewrite (nth_error_nth' l 0 H). reflexivity.
Qed.


(* ------------------------------------------------------------------ *)
(** ** The rounding error of the risk contributions *)



























(* ------------------------------------------------------------------ *)
(** ** ReturnsEstimator: fetching the price history *)

(** What [_fetch_portfolio_data] does when it raises: the exception comes
    from the download, from [symbols[0]] or from one of the [fillna] calls,
    and is logged before it is raised again. *)
Lemma fetch_raise_origin E symbols period l e l' :
  _fetch_portfolio_data E symbols period l = (Raise e, l') ->
  l' = l ++ [fetch_error e]
  /\ (yf_download E symbols period = Raise e
      \/ (exists d, pd_fillna E "forward" d = Raise e)
      \/ (exists d, pd_fillna E "backward" d = Raise e)
      \/ (symbols = [] /\ exn_class e = "IndexError")).
Proof.
  unfold _fetch_portfolio_data, try_except, bind, lift, ret, raise, logger.
  destruct (yf_download E symbols period) as [[s|d]|e0] eqn:Hdl.
  - destruct symbols as [|name rest]; simpl.
    + intros H. inversion H. subst. split; [reflexivity|].
      right. right. right. split; reflexivity.
    + destruct (pd_fillna E "forward" (to_frame s name)) as [d1|e1] eqn:Hf.
      * destruct (pd_fillna E "backward" d1) as [d2|e2] eqn:Hb.
        -- intros H. discriminate H.
        -- intros H. inversion H. subst. split; [reflexivity|].
           right. right. left. exists d1. exact Hb.
      * intros H. inversion H. subst. split; [reflexivity|].
        right. left. exists (to_frame s name). exact Hf.
  - destruct (pd_fillna E "forward" d) as [d1|e1] eqn:Hf.
    + destruct (pd_fillna E "backward" d1) as [d2|e2] eqn:Hb.
      * intros H. discriminate H.
      * intros H. inversion H. subst. split; [reflexivity|].
        right. right. left. exists d1. exact Hb.
    + intros H. inversion H. subst. split; [reflexivity|].
      right. left. exists d. exact Hf.
  - intros H. inversion H. subst. split; [reflexivity|]. left. reflexivity.
Qed.

(** [optimize] passes a failure of the download on: it logs it once more
    and raises it again, unchanged. *)
Lemma optimize_when_fetch_raises E symbols risk_tolerance investment_amount
    constraints l e l' :
  _fetch_portfolio_data E symbols "2y" l = (Raise e, l') ->
  optimize E symbols risk_tolerance investment_amount constraints l
  = (Raise e, l' ++ [(ERROR, optimization_failed e)]).
Proof.
  intros H. unfold optimize, try_except, bind at 1. rewrite H.
  reflexivity.
Qed.

(** C3, as stated, fails: no [DataUnavailableError] exists.  On the example
    market [ZZZZ] is not quoted.  The request for [AAPL] and [ZZZZ] does
    fail, but with the [ValueError] pandas raises at
    [fillna(method='forward')], which says nothing about [ZZZZ]: the request
    for [AAPL] and [MSFT], whose histories are complete, fails in the very
    same way. *)
Lemma missing_history_is_not_what_fails :
  _fetch_portfolio_data (Paper.world Paper.keeps_start) ["AAPL"; "ZZZZ"] "2y" []
  = (Raise invalid_fill_method, [fetch_error invalid_fill_method])
  /\ _fetch_portfolio_data (Paper.world Paper.keeps_start) ["AAPL"; "MSFT"]
       "2y" []
     = (Raise invalid_fill_method, [fetch_error invalid_fill_method])
  /\ fst (optimize (Paper.world Paper.keeps_start) ["AAPL"; "ZZZZ"] MODERATE
            (Fin 10000) None [])
     = Raise invalid_fill_method
  /\ exn_class invalid_fill_method = "ValueError"
  /\ Paper.history "ZZZZ" = None.
Proof. repeat split. Qed.

(** C3, amended.  [_fetch_portfolio_data] makes no availability check of its
    own and raises no error of its own making: whenever it raises, the
    exception is one raised by the yfinance download or by a pandas
    [fillna] call (or the [IndexError] of [symbols[0]] on an empty
    request), it is logged as "Failed to fetch portfolio data: ..." and
    raised again unchanged, and [optimize] in turn logs it and raises it
    again unchanged. *)
Theorem fetch_portfolio_data_has_no_availability_check :
  forall (E : External) (symbols : list string) (l l' : log) (e : exn),
    _fetch_portfolio_data E symbols "2y" l = (Raise e, l') ->
    l' = l ++ [fetch_error e]
    /\ (yf_download E symbols "2y" = Raise e
        \/ (exists d, pd_fillna E "forward" d = Raise e)
        \/ (exists d, pd_fillna E "backward" d = Raise e)
        \/ (symbols = [] /\ exn_class e = "IndexError"))
    /\ (forall risk_tolerance investment_amount constraints,
          optimize E symbols risk_tolerance investment_amount constraints l
          = (Raise e,
             l ++ [fetch_error e; (ERROR, optimization_failed e)])).
Proof.
  intros E symbols l l' e Hrun.
  destruct (fetch_raise_origin E symbols "2y" l e l' Hrun) as [Hl Horigin].
  split; [exact Hl|]. split; [exact Horigin|].
  intros risk_tolerance investment_amount constraints.
  rewrite (optimize_when_fetch_raises E symbols risk_tolerance
             investment_amount constraints l e l' Hrun).
  rewrite Hl, <- app_assoc. reflexivity.
Qed.

Lemma fetch_portfolio_data_has_no_availability_check_witness :
  _fetch_portfolio_data (Paper.world Paper.keeps_start) ["AAPL"; "ZZZZ"] "2y" []
  = (Raise invalid_fill_method, [fetch_error invalid_fill_method])
  /\ [fetch_error invalid_fill_method] = [] ++ [fetch_error invalid_fill_method]
  /\ (yf_download (Paper.world Paper.keeps_start) ["AAPL"; "ZZZZ"] "2y"
      = Raise invalid_fill_method
      \/ (exists d, pd_fillna (Paper.world Paper.keeps_start) "forward" d
                    = Raise invalid_fill_method)
      \/ (exists d, pd_fillna (Paper.world Paper.keeps_start) "backward" d
                    = Raise invalid_fill_method)
      \/ (["AAPL"; "ZZZZ"] = [] /\ exn_class invalid_fill_method = "IndexError"))
  /\ optimize (Paper.world Paper.keeps_start) ["AAPL"; "ZZZZ"] CONSERVATIVE
       (Fin 10000) None []
     = (Raise invalid_fill_method,
        [] ++ [fetch_error invalid_fill_method;
               (ERROR, optimization_failed invalid_fill_method)]).
Proof.
  assert (H : _fetch_portfolio_data (Paper.world Paper.keeps_start)
                ["AAPL"; "ZZZZ"] "2y" []
              = (Raise invalid_fill_method, [fetch_error invalid_fill_method]))
    by reflexivity.
  split; [exact H|].
  destruct (fetch_portfolio_data_has_no_availability_check
              (Paper.world Paper.keeps_start) ["AAPL"; "ZZZZ"] [] _ _ H)
    as [Hl [Horigin Hopt]].
  split; [exact Hl|split; [exact Horigin|]].
  apply Hopt.
Defined.

(* ------------------------------------------------------------------ *)
(** ** The endpoint and the request's objective *)

(** C10.  The handler hands [optimize] the symbols, the risk tolerance, the
    investment amount and the constraints of the request and nothing else:
    two requests that differ in [objective] only produce the same outcome
    (response or error, and log).  The objective solved for is a function of
    the risk tolerance alone. *)
Theorem request_objective_has_no_effect :
  forall (E : External) (r1 r2 : PortfolioOptimizationRequest.t)
         (user_id : option string) (l : log),
    PortfolioOptimizationRequest.symbols r1
    = PortfolioOptimizationRequest.symbols r2 ->
    PortfolioOptimizationRequest.risk_tolerance r1
    = PortfolioOptimizationRequest.risk_tolerance r2 ->
    PortfolioOptimizationRequest.investment_amount r1
    = PortfolioOptimizationRequest.investment_amount r2 ->
    PortfolioOptimizationRequest.constraints r1
    = PortfolioOptimizationRequest.constraints r2 ->
    PortfolioOptimizationRequest.rebalance_frequency r1
    = PortfolioOptimizationRequest.rebalance_frequency r2 ->
    optimize_portfolio E r1 user_id l = optimize_portfolio E r2 user_id l
    /\ _get_optimization_objective CONSERVATIVE = MIN_RISK
    /\ _get_optimization_objective AGGRESSIVE = MAX_RETURN
    /\ _get_optimization_objective MODERATE = MAX_SHARPE.
Proof.
  intros E r1 r2 user_id l Hs Hr Hi Hc _.
  split; [|repeat split].
  unfold optimize_portfolio. rewrite Hs, Hr, Hi, Hc. reflexivity.
Qed.

Lemma request_objective_has_no_effect_witness :
  PortfolioOptimizationRequest.symbols (example_request EQUAL_WEIGHT)
  = PortfolioOptimizationRequest.symbols (example_request MAX_SHARPE) /\
  PortfolioOptimizationRequest.risk_tolerance (example_request EQUAL_WEIGHT)
  = PortfolioOptimizationRequest.risk_tolerance (example_request MAX_SHARPE) /\
  PortfolioOptimizationRequest.investment_amount (example_request EQUAL_WEIGHT)
  = PortfolioOptimizationRequest.investment_amount (example_request MAX_SHARPE) /\
  PortfolioOptimizationRequest.constraints (example_request EQUAL_WEIGHT)
  = PortfolioOptimizationRequest.constraints (example_request MAX_SHARPE) /\
  PortfolioOptimizationRequest.rebalance_frequency (example_request EQUAL_WEIGHT)
  = PortfolioOptimizationRequest.rebalance_frequency (example_request MAX_SHARPE) /\
  optimize_portfolio
    (Paper.world (Paper.answers [Fin (7 # 10); Fin (3 # 10)]))
    (example_request EQUAL_WEIGHT) (Some "u1") []
  = optimize_portfolio
      (Paper.world (Paper.answers [Fin (7 # 10); Fin (3 # 10)]))
      (example_request MAX_SHARPE) (Some "u1") [].
Proof.
  repeat (split; [reflexivity|]).
  exact (proj1 (request_objective_has_no_effect
                  (Paper.world (Paper.answers [Fin (7 # 10); Fin (3 # 10)]))
                  (example_request EQUAL_WEIGHT) (example_request MAX_SHARPE)
                  (Some "u1") [] eq_refl eq_refl eq_refl eq_refl eq_refl)).
Defined.

(* ------------------------------------------------------------------ *)
(** ** Further properties: the index lookup and the constraint loop *)

Lemma get_loc_In (idx : list string) (k : string) :
  In k idx -> exists i, get_loc idx k = Ok i.
Proof.
  induction idx as [|s idx IH]; simpl; intros H; [contradiction|].
  destruct (String.eqb_spec s k) as [Heq|Hne]; [exists O; reflexivity|].
  destruct H as [H|H]; [contradiction|].
  destruct (IH H) as [i Hi]. rewrite Hi. exists (S i). reflexivity.
Qed.

Lemma get_loc_first (idx : list string) (k : string) (i : nat) :
  get_loc idx k = Ok i ->
  forall j, (j < i)%nat -> nth_error idx j <> Some k.
Proof.
  revert i. induction idx as [|s idx IH]; simpl; intros i; [discriminate|].
  destruct (String.eqb_spec s k) as [Heq|Hne].
  - intros H. inversion H. intros j Hj. lia.
  - destruct (get_loc idx k) as [i'|e]; simpl; [|discriminate].
    intros H. inversion H. subst i. intros [|j] Hj; simpl.
    + intros Hs. inversion Hs. contradiction.
    + apply (IH i' eq_refl). lia.
Qed.

Lemma get_loc_complete (idx : list string) (k : string) (i : nat) :
  nth_error idx i = Some k ->
  (forall j, (j < i)%nat -> nth_error idx j <> Some k) ->
  get_loc idx k = Ok i.
Proof.
  revert i. induction idx as [|s idx IH]; intros [|i]; simpl; try discriminate.
  - intros H _. inversion H. rewrite String.eqb_refl. reflexivity.
  - intros H Hfirst.
    destruct (String.eqb_spec s k) as [Heq|Hne].
    + exfalso. apply (Hfirst O); [lia|]. simpl. rewrite Heq. reflexivity.
    + rewrite (IH i H); [reflexivity|].
      intros j Hj. apply (Hfirst (S j)). lia.
Qed.

(** [index.get_loc] returns the first position that holds the label, and
    raises [KeyError] exactly when the label is absent. *)
Lemma get_loc_is_first_position :
  forall (idx : list string) (k : string),
    (forall i,
        get_loc idx k = Ok i <->
        nth_error idx i = Some k
        /\ forall j, (j < i)%nat -> nth_error idx j <> Some k)
    /\ (get_loc idx k = Raise (KeyError k) <-> ~ In k idx)
    /\ (forall e, get_loc idx k = Raise e -> e = KeyError k).
Proof.
  intros idx k. split; [|split].
  - intros i. split.
    + intros H. split; [apply (get_loc_present _ _ _ H)|apply (get_loc_first _ _ _ H)].
    + intros [H1 H2]. apply get_loc_complete; assumption.
  - split.
    + intros H Hin. destruct (get_loc_In idx k Hin) as [i Hi].
      rewrite Hi in H. discriminate H.
    + apply get_loc_absent.
  - apply get_loc_raises.
Qed.

Lemma kept_or_logged index c :
  (List.length (kept_constraint index c) + List.length (logged_warning index c)
   = if is_weight_constraint c then 1 else 0)%nat
  /\ Forall (fun d => c_type d = "ineq") (kept_constraint index c)
  /\ Forall (fun r => fst r = WARNING) (logged_warning index c).
Proof.
  unfold kept_constraint, logged_warning, is_weight_constraint.
  destruct (String.eqb (PortfolioConstraint.type c) "max_weight");
    destruct (String.eqb (PortfolioConstraint.type c) "min_weight");
    destruct (truthy (PortfolioConstraint.symbol c)); simpl;
    try destruct (get_loc index (constraint_symbol c)); simpl;
    repeat split; repeat constructor.
Qed.

Lemma kept_or_logged_all index cs :
  (List.length (flat_map (kept_constraint index) cs)
   + List.length (flat_map (logged_warning index) cs)
   = List.length (filter is_weight_constraint cs))%nat
  /\ Forall (fun d => c_type d = "ineq") (flat_map (kept_constraint index) cs)
  /\ Forall (fun r => fst r = WARNING) (flat_map (logged_warning index) cs).
Proof.
  induction cs as [|c cs [IH1 [IH2 IH3]]]; simpl.
  - repeat split; constructor.
  - destruct (kept_or_logged index c) as [H1 [H2 H3]].
    split; [|split].
    + rewrite !length_app.
      destruct (is_weight_constraint c); simpl; lia.
    + apply Forall_app. split; assumption.
    + apply Forall_app. split; assumption.
Qed.

(** X1.  The loop over the request constraints accounts for every weight
    constraint (type [max_weight] or [min_weight] with a non-empty symbol)
    exactly once: it either appends one inequality or logs one warning.
    The list it returns starts with what it was given, everything appended
    is an inequality, everything logged is a warning, and the loop never
    raises. *)
Theorem constraint_loop_keeps_or_warns :
  forall (index : list string) (cs : list PortfolioConstraint.t)
         (given : list constraint_dict) (l : log),
  exists (appended : list constraint_dict) (warnings : log),
    add_custom_constraints index cs given l
    = (Ok (given ++ appended), l ++ warnings)
    /\ (List.length appended + List.length warnings
        = List.length (filter is_weight_constraint cs))%nat
    /\ Forall (fun d => c_type d = "ineq") appended
    /\ Forall (fun r => fst r = WARNING) warnings.
Proof.
  intros index cs given l.
  exists (flat_map (kept_constraint index) cs),
         (flat_map (logged_warning index) cs).
  split; [apply add_custom_constraints_run|apply kept_or_logged_all].
Qed.

(** X2.  What the appended inequalities mean.  For a weight constraint on a
    symbol of the universe (an index of unique labels) and a finite
    candidate vector of the universe's length, the inequality evaluates without error, and its value is
    non-negative exactly when the weight at the symbol's position is at
    most the bound (for [max_weight]) or at least the bound (for
    [min_weight]). *)
Theorem weight_inequality_meaning :
  forall (index : list string) (c : PortfolioConstraint.t) (s : string)
         (bound : Q) (xs : list Q),
    is_weight_constraint c = true ->
    PortfolioConstraint.symbol c = Some s ->
    PortfolioConstraint.value c = Fin bound ->
    NoDup index ->
    In s index ->
    List.length xs = List.length index ->
    exists (i : nat) (d : constraint_dict) (v : Q),
      get_loc index s = Ok i
      /\ kept_constraint index c = [d]
      /\ c_fun d (map Fin xs) = Ok (Fin v)
      /\ (String.eqb (PortfolioConstraint.type c) "max_weight" = true ->
          (0 <= v <-> nth i xs 0 <= bound))
      /\ (String.eqb (PortfolioConstraint.type c) "max_weight" = false ->
          (0 <= v <-> bound <= nth i xs 0)).
Proof.
  intros index c s bound xs Hc Hs Hval _ Hin Hlen.
  destruct (get_loc_In index s Hin) as [i Hi].
  destruct (get_loc_present _ _ _ Hi) as [_ Hlt].
  destruct (present_symbol_constraint_kept index c s i Hc Hs Hi) as [Hkept _].
  exists i, (spec_inequality c i).
  destruct (String.eqb (PortfolioConstraint.type c) "max_weight") eqn:Hty.
  - exists (bound - nth i xs 0). split; [exact Hi|]. split; [exact Hkept|].
    split; [|split].
    + unfold spec_inequality. rewrite Hty. simpl.
      rewrite Hval, getitem_Fin by lia. reflexivity.
    + intros _. split; intros H; lra.
    + intros H. discriminate H.
  - exists (nth i xs 0 - bound). split; [exact Hi|]. split; [exact Hkept|].
    split; [|split].
    + unfold spec_inequality. rewrite Hty. simpl.
      rewrite Hval, getitem_Fin by lia. reflexivity.
    + intros H. discriminate H.
    + intros _. split; intros H; lra.
Qed.

Lemma weight_inequality_meaning_witness :
  is_weight_constraint (max_weight "MSFT" (6 # 10)) = true /\
  PortfolioConstraint.symbol (max_weight "MSFT" (6 # 10)) = Some "MSFT" /\
  PortfolioConstraint.value (max_weight "MSFT" (6 # 10)) = Fin (6 # 10) /\
  NoDup ["AAPL"; "MSFT"] /\
  In "MSFT" ["AAPL"; "MSFT"] /\
  List.length [3 # 10; 7 # 10] = List.length ["AAPL"; "MSFT"] /\
  exists (i : nat) (d : constraint_dict) (v : Q),
    get_loc ["AAPL"; "MSFT"] "MSFT" = Ok i
    /\ kept_constraint ["AAPL"; "MSFT"] (max_weight "MSFT" (6 # 10)) = [d]
    /\ c_fun d (map Fin [3 # 10; 7 # 10]) = Ok (Fin v).
Proof.
  assert (H1 : is_weight_constraint (max_weight "MSFT" (6 # 10)) = true)
    by reflexivity.
  assert (H2 : PortfolioConstraint.symbol (max_weight "MSFT" (6 # 10))
               = Some "MSFT") by reflexivity.
  assert (H3 : PortfolioConstraint.value (max_weight "MSFT" (6 # 10))
               = Fin (6 # 10)) by reflexivity.
  assert (Hu : NoDup ["AAPL"; "MSFT"]).
  { repeat constructor; simpl; intros H;
      repeat (destruct H as [H|H]; [discriminate H|]); exact H. }
  assert (H4 : In "MSFT" ["AAPL"; "MSFT"]) by (right; left; reflexivity).
  assert (H5 : List.length [3 # 10; 7 # 10] = List.length ["AAPL"; "MSFT"])
    by reflexivity.
  split; [exact H1|split; [exact H2|split; [exact H3|split; [exact Hu|
    split; [exact H4|split; [exact H5|]]]]]].
  destruct (weight_inequality_meaning ["AAPL"; "MSFT"]
              (max_weight "MSFT" (6 # 10)) "MSFT" (6 # 10) [3 # 10; 7 # 10]
              H1 H2 H3 Hu H4 H5) as [i [d [v [Ha [Hb [Hc _]]]]]].
  exists i, d, v. split; [exact Ha|split; [exact Hb|exact Hc]].
Defined.

(** The equality constraint vanishes exactly on the vectors that sum to 1. *)
Lemma sum_to_one_meaning (xs : list Q) :
  exists v, c_fun sum_to_one (map Fin xs) = Ok (Fin v)
            /\ (v == 0 <-> Qsum xs == 1).
Proof.
  exists (Qsum xs - 1). split.
  - simpl. rewrite np_sum_Fin. reflexivity.
  - split; intros H; lra.
Qed.

(* ------------------------------------------------------------------ *)
(** ** Further properties: the allocation loop *)

Lemma skipn_nth_error_cons {A} (l : list A) (i : nat) (a : A) :
  nth_error l i = Some a -> skipn i l = a :: skipn (S i) l.
Proof.
  revert i. induction l as [|b l IH]; intros [|i]; simpl; try discriminate.
  - intros H. inversion H. reflexivity.
  - apply IH.
Qed.

Lemma getitem_Ok {A} (l : list A) (i : nat) (a : A) :
  getitem l i = Ok a -> nth_error l i = Some a.
Proof.
  unfold getitem. destruct (nth_error l i); intros H; inversion H. reflexivity.
Qed.

(** Every field of every allocation, read off the loop started at asset
    [i]. *)
Lemma build_allocations_fields E mean_returns cov_matrix investment_amount
    current_prices optimal_weights :
  forall symbols i allocations,
    build_allocations E symbols i optimal_weights mean_returns cov_matrix
      investment_amount current_prices = Ok allocations ->
    map AllocationRecommendation.symbol allocations = symbols
    /\ map AllocationRecommendation.recommended_weight allocations
       = firstn (List.length symbols) (skipn i optimal_weights)
    /\ map AllocationRecommendation.recommended_amount allocations
       = map (fmul investment_amount)
           (firstn (List.length symbols) (skipn i optimal_weights))
    /\ map AllocationRecommendation.expected_return allocations
       = firstn (List.length symbols) (skipn i (s_values mean_returns))
    /\ (symbols = [] \/ (i + List.length symbols <= List.length optimal_weights)%nat)
    /\ Forall (share_rule current_prices) allocations
    /\ Forall (fun a =>
                 AllocationRecommendation.company_name a
                 = dict_get (_get_company_info E (AllocationRecommendation.symbol a))
                     "name" (AllocationRecommendation.symbol a)
                 /\ AllocationRecommendation.sector a
                    = dict_get (_get_company_info E (AllocationRecommendation.symbol a))
                        "sector" "Unknown")
         allocations.
Proof.
  induction symbols as [|symbol symbols IH]; intros i allocations Hrun.
  - simpl in Hrun. inversion Hrun. simpl.
    repeat split; try (left; reflexivity); constructor.
  - cbn [build_allocations] in Hrun.
    destruct (getitem optimal_weights i) as [weight|e] eqn:Hw;
      [|discriminate Hrun].
    cbn [rbind] in Hrun.
    destruct (if fgt _ _ then _ else _) as [shares|e] eqn:Hshares;
      [|discriminate Hrun].
    cbn [rbind] in Hrun.
    destruct (getitem (s_values mean_returns) i) as [expected|e] eqn:Hexp;
      [|discriminate Hrun].
    cbn [rbind] in Hrun.
    destruct (_calculate_risk_contribution optimal_weights cov_matrix i)
      as [contribution|e]; [|discriminate Hrun].
    cbn [rbind] in Hrun.
    destruct (build_allocations E symbols (S i) _ _ _ _ _) as [others|e]
      eqn:Hrest; [|discriminate Hrun].
    cbn [rbind] in Hrun. inversion Hrun. subst allocations.
    destruct (IH (S i) others Hrest) as [H1 [H2 [H3 [H4 [H5 [H6 H7]]]]]].
    apply getitem_Ok in Hw. apply getitem_Ok in Hexp.
    assert (Hi : (i < List.length optimal_weights)%nat)
      by (apply nth_error_Some; rewrite Hw; discriminate).
    cbn [map List.length AllocationRecommendation.symbol
         AllocationRecommendation.recommended_weight
         AllocationRecommendation.recommended_amount
         AllocationRecommendation.expected_return].
    rewrite (skipn_nth_error_cons _ _ _ Hw), (skipn_nth_error_cons _ _ _ Hexp).
    cbn [firstn map]. rewrite H1, H2, H3, H4.
    repeat split; try reflexivity.
    + right. destruct H5 as [H5|H5]; [rewrite H5; simpl; lia|simpl; lia].
    + constructor; [exact Hshares|exact H6].
    + constructor; [split; reflexivity|exact H7].
Qed.

(** X3.  When the allocation loop succeeds there is one allocation per
    requested symbol, in request order; allocation [i] carries weight
    [w[i]], amount [investment_amount * w[i]] and the mean return of asset
    [i]; so there are at least as many weights as symbols.  The company
    name and the sector are those of the ticker's info, or the symbol and
    "Unknown" when the info is unavailable or lacks the key. *)
Theorem allocations_follow_the_request :
  forall (E : External) (symbols : list string) (optimal_weights : ndarray)
         (mean_returns : Series string) (cov_matrix : matrix)
         (investment_amount : float64) (current_prices : dict float64)
         (allocations : list AllocationRecommendation.t),
    build_allocations E symbols 0 optimal_weights mean_returns cov_matrix
      investment_amount current_prices = Ok allocations ->
    map AllocationRecommendation.symbol allocations = symbols
    /\ (List.length symbols <= List.length optimal_weights)%nat
    /\ map AllocationRecommendation.recommended_weight allocations
       = firstn (List.length symbols) optimal_weights
    /\ map AllocationRecommendation.recommended_amount allocations
       = map (fmul investment_amount)
           (firstn (List.length symbols) optimal_weights)
    /\ map AllocationRecommendation.expected_return allocations
       = firstn (List.length symbols) (s_values mean_returns)
    /\ (forall a, In a allocations ->
          let s := AllocationRecommendation.symbol a in
          match ticker_info E s with
          | Ok info =>
              AllocationRecommendation.company_name a = dict_get info "longName" s
              /\ AllocationRecommendation.sector a = dict_get info "sector" "Unknown"
          | Raise _ =>
              AllocationRecommendation.company_name a = s
              /\ AllocationRecommendation.sector a = "Unknown"
          end).
Proof.
  intros E symbols optimal_weights mean_returns cov_matrix investment_amount
         current_prices allocations Hrun.
  destruct (build_allocations_fields E mean_returns cov_matrix
              investment_amount current_prices optimal_weights symbols 0
              allocations Hrun) as [H1 [H2 [H3 [H4 [H5 [_ H7]]]]]].
  cbn [skipn] in *.
  split; [exact H1|]. split; [|split; [exact H2|split; [exact H3|split; [exact H4|]]]].
  - destruct H5 as [H5|H5]; [rewrite H5; simpl; lia|lia].
  - intros a Ha. rewrite Forall_forall in H7. destruct (H7 a Ha) as [Hn Hs].
    cbv zeta. rewrite Hn, Hs. unfold _get_company_info.
    destruct (ticker_info E (AllocationRecommendation.symbol a)); simpl;
      split; reflexivity.
Qed.

Lemma allocations_follow_the_request_witness :
  build_allocations (Paper.world Paper.keeps_start) ["AAPL"; "MSFT"] 0
    [Fin (6 # 10); Fin (4 # 10)] example_returns example_cov (Fin 10000)
    example_prices = Ok example_allocations /\
  map AllocationRecommendation.symbol example_allocations = ["AAPL"; "MSFT"].
Proof.
  assert (H : build_allocations (Paper.world Paper.keeps_start)
                ["AAPL"; "MSFT"] 0 [Fin (6 # 10); Fin (4 # 10)]
                example_returns example_cov (Fin 10000) example_prices
              = Ok example_allocations) by (vm_compute; reflexivity).
  split; [exact H|].
  exact (proj1 (allocations_follow_the_request _ _ _ _ _ _ _ _ H)).
Defined.

(* ------------------------------------------------------------------ *)
(** ** Further properties: current prices *)

Lemma fetch_prices_ok E symbols :
  (forall s, In s symbols -> exists h, ticker_last_close E s "1d" = Ok h) ->
  forall acc, exists d,
    fetch_prices E symbols acc = Ok d
    /\ (forall s dflt,
          In s symbols ->
          dict_get d s dflt = price_of (ticker_last_close E s "1d"))
    /\ (forall s dflt, ~ In s symbols -> dict_get d s dflt = dict_get acc s dflt).
Proof.
  induction symbols as [|symbol rest IH]; intros Hall acc.
  - exists acc. simpl. split; [reflexivity|]. split; [contradiction|reflexivity].
  - destruct (Hall symbol (or_introl eq_refl)) as [h Hh].
    assert (Hrest : forall s, In s rest ->
                      exists h, ticker_last_close E s "1d" = Ok h)
      by (intros s Hs; apply Hall; right; exact Hs).
    destruct (IH Hrest
                (dict_set acc symbol
                   (match h with Some close => close | None => Fin 0 end)))
      as [d [Hd [Hin Hout]]].
    exists d. cbn [fetch_prices]. rewrite Hh. cbn [rbind].
    split; [exact Hd|]. split.
    + intros s dflt Hs.
      destruct (in_dec string_dec s rest) as [Hr|Hr]; [apply Hin; exact Hr|].
      destruct Hs as [Hs|Hs]; [|contradiction]. subst s.
      rewrite (Hout symbol dflt Hr). unfold dict_set. simpl.
      rewrite String.eqb_refl, Hh. destruct h; reflexivity.
    + intros s dflt Hs.
      assert (Hne : symbol <> s) by (intros Heq; apply Hs; left; exact Heq).
      assert (Hr : ~ In s rest) by (intros Hr; apply Hs; right; exact Hr).
      rewrite (Hout s dflt Hr). unfold dict_set. simpl.
      destruct (String.eqb_spec symbol s); [contradiction|reflexivity].
Qed.

Lemma fetch_prices_fails E symbols :
  (exists s e, In s symbols /\ ticker_last_close E s "1d" = Raise e) ->
  forall acc, exists e, fetch_prices E symbols acc = Raise e.
Proof.
  induction symbols as [|symbol rest IH]; intros [s [e [Hs He]]] acc.
  - contradiction.
  - cbn [fetch_prices].
    destruct (ticker_last_close E symbol "1d") as [h|e0] eqn:Hh.
    + cbn [rbind]. apply IH. destruct Hs as [Hs|Hs].
      * subst s. rewrite Hh in He. discriminate He.
      * exists s, e. split; assumption.
    + exists e0. reflexivity.
Qed.

Lemma zero_prices (symbols : list string) (s : string) :
  dict_get (map (fun symbol => (symbol, Fin 0)) symbols) s (Fin 0) = Fin 0.
Proof.
  induction symbols as [|symbol rest IH]; simpl; [reflexivity|].
  destruct (String.eqb symbol s); [reflexivity|exact IH].
Qed.

(** X6.  [_get_current_prices] never raises.  When every ticker lookup
    succeeds it logs nothing and every requested symbol is priced at its
    last close, or at 0.0 when its history is empty.  When a single lookup
    fails it logs one error and prices every symbol at 0.0, also those
    whose lookup had succeeded. *)
Theorem current_prices_all_or_nothing :
  forall (E : External) (symbols : list string) (l : log),
  exists (prices : dict float64) (l' : log),
    _get_current_prices E symbols l = (Ok prices, l')
    /\ ((forall s, In s symbols ->
            exists h, ticker_last_close E s "1d" = Ok h) ->
        l' = l
        /\ forall s, In s symbols ->
             dict_get prices s (Fin 0)
             = price_of (ticker_last_close E s "1d"))
    /\ ((exists s e, In s symbols /\ ticker_last_close E s "1d" = Raise e) ->
        (exists e, l' = l ++ [prices_error e])
        /\ forall s, dict_get prices s (Fin 0) = Fin 0).
Proof.
  intros E symbols l.
  unfold _get_current_prices, try_except, lift, bind, logger, ret.
  destruct (fetch_prices E symbols []) as [d|e] eqn:Hf.
  - exists d, l. split; [reflexivity|]. split.
    + intros Hall. split; [reflexivity|].
      destruct (fetch_prices_ok E symbols Hall []) as [d' [Hd' [Hin _]]].
      rewrite Hf in Hd'. inversion Hd'. subst d'.
      intros s Hs. apply Hin. exact Hs.
    + intros Hbad. destruct (fetch_prices_fails E symbols Hbad []) as [e He].
      rewrite Hf in He. discriminate He.
  - eexists. eexists. split; [reflexivity|]. split.
    + intros Hall.
      destruct (fetch_prices_ok E symbols Hall []) as [d' [Hd' _]].
      rewrite Hf in Hd'. discriminate Hd'.
    + intros _. split; [exists e; reflexivity|]. apply zero_prices.
Qed.

(** X4.  No share is recommended without a positive price.  In every
    allocation the loop builds, the share count is 0 when the current price
    of the symbol is missing, zero, negative or NaN.  So when a single
    ticker lookup fails, [_get_current_prices] prices every symbol at 0.0
    and every allocation built with these prices recommends 0 shares. *)
Theorem no_shares_without_a_positive_price :
  forall (E : External) (symbols : list string) (optimal_weights : ndarray)
         (mean_returns : Series string) (cov_matrix : matrix)
         (investment_amount : float64) (current_prices : dict float64)
         (allocations : list AllocationRecommendation.t),
    build_allocations E symbols 0 optimal_weights mean_returns cov_matrix
      investment_amount current_prices = Ok allocations ->
    (forall a,
        In a allocations ->
        fgt (dict_get current_prices (AllocationRecommendation.symbol a) (Fin 0))
          (Fin 0) = false ->
        AllocationRecommendation.recommended_shares a = 0%Z)
    /\ ((exists s e, In s symbols /\ ticker_last_close E s "1d" = Raise e) ->
        forall l l',
          _get_current_prices E symbols l = (Ok current_prices, l') ->
          forall a,
            In a allocations ->
            AllocationRecommendation.recommended_shares a = 0%Z).
Proof.
  intros E symbols optimal_weights mean_returns cov_matrix investment_amount
         current_prices allocations Hrun.
  destruct (build_allocations_fields E mean_returns cov_matrix
              investment_amount current_prices optimal_weights symbols 0
              allocations Hrun) as [_ [_ [_ [_ [_ [H6 _]]]]]].
  rewrite Forall_forall in H6.
  assert (Hzero : forall a,
             In a allocations ->
             fgt (dict_get current_prices (AllocationRecommendation.symbol a)
                    (Fin 0)) (Fin 0) = false ->
             AllocationRecommendation.recommended_shares a = 0%Z).
  { intros a Ha Hp. specialize (H6 a Ha). unfold share_rule in H6.
    cbv zeta in H6. rewrite Hp in H6. inversion H6. reflexivity. }
  split; [exact Hzero|].
  intros Hfail l l' Hprices a Ha. apply (Hzero a Ha).
  unfold _get_current_prices, try_except, lift, bind, logger, ret in Hprices.
  destruct (fetch_prices_fails E symbols Hfail []) as [e He].
  rewrite He in Hprices. inversion Hprices. subst current_prices.
  rewrite zero_prices. reflexivity.
Qed.

Lemma no_shares_without_a_positive_price_witness :
  exists allocations : list AllocationRecommendation.t,
    build_allocations (quotes_down (Paper.world Paper.keeps_start))
      ["AAPL"; "MSFT"] 0 [Fin (6 # 10); Fin (4 # 10)] example_returns
      example_cov (Fin 10000) [("AAPL", Fin 0); ("MSFT", Fin 0)]
    = Ok allocations
    /\ (exists s e,
           In s ["AAPL"; "MSFT"]
           /\ ticker_last_close (quotes_down (Paper.world Paper.keeps_start))
                s "1d" = Raise e)
    /\ map AllocationRecommendation.symbol allocations = ["AAPL"; "MSFT"]
    /\ forall a,
         In a allocations ->
         AllocationRecommendation.recommended_shares a = 0%Z.
Proof.
  destruct (build_allocations (quotes_down (Paper.world Paper.keeps_start))
              ["AAPL"; "MSFT"] 0 [Fin (6 # 10); Fin (4 # 10)] example_returns
              example_cov (Fin 10000) [("AAPL", Fin 0); ("MSFT", Fin 0)])
    as [allocations|e] eqn:Hrun; [|vm_compute in Hrun; discriminate Hrun].
  assert (Hfail : exists s e,
             In s ["AAPL"; "MSFT"]
             /\ ticker_last_close (quotes_down (Paper.world Paper.keeps_start))
                  s "1d" = Raise e).
  { exists "AAPL". eexists. split; [left; reflexivity|reflexivity]. }
  exists allocations. split; [reflexivity|split; [exact Hfail|split]].
  - vm_compute in Hrun. inversion Hrun. reflexivity.
  - apply (proj2 (no_shares_without_a_positive_price _ _ _ _ _ _ _ _ Hrun)
             Hfail [] [prices_error Paper.offline_error]).
    reflexivity.
Defined.

(* ------------------------------------------------------------------ *)
(** ** Further properties: risk metrics *)

Lemma fabs_not_negative (v : float64) : flt (fabs v) (Fin 0) = false.
Proof.
  destruct v as [q| | |]; simpl; try reflexivity.
  pose proof (Qabs_nonneg q) as H.
  destruct (Qcompare_spec (Qabs q) 0) as [H0|H0|H0]; try reflexivity. lra.
Qed.

(** X7.  [_calculate_var] and [_calculate_max_drawdown] never raise and
    never return a negative number.  When the weighted return series cannot
    be formed they return their defaults, 0.05 and 0.1; so does
    [_calculate_var] when the percentile computation fails. *)
Theorem var_and_drawdown_defaults :
  forall (E : External) (returns : DataFrame) (weights : ndarray)
         (confidence_level : float64),
    flt (_calculate_var E returns weights confidence_level) (Fin 0) = false
    /\ flt (_calculate_max_drawdown E returns weights) (Fin 0) = false
    /\ (forall e,
          pd_weighted_sum E returns weights = Raise e ->
          _calculate_var E returns weights confidence_level = Fin (5 # 100)
          /\ _calculate_max_drawdown E returns weights = Fin (1 # 10))
    /\ (forall series e,
          pd_weighted_sum E returns weights = Ok series ->
          np_percentile E (s_values series) (fmul confidence_level (Fin 100))
          = Raise e ->
          _calculate_var E returns weights confidence_level = Fin (5 # 100)).
Proof.
  intros E returns weights confidence_level.
  unfold _calculate_var, _calculate_max_drawdown.
  split; [|split; [|split]].
  - destruct (pd_weighted_sum E returns weights) as [series|e];
      cbn [rbind]; [|reflexivity].
    destruct (np_percentile E _ _) as [v|e]; cbn [rbind];
      [apply fabs_not_negative|reflexivity].
  - destruct (pd_weighted_sum E returns weights) as [series|e];
      cbn [rbind]; [|reflexivity].
    destruct (pd_cumprod E _) as [cumulative|e]; cbn [rbind]; [|reflexivity].
    destruct (pd_expanding_max E _) as [running|e]; cbn [rbind]; [|reflexivity].
    destruct (elementwise fsub _ _) as [diff|e]; cbn [rbind]; [|reflexivity].
    destruct (elementwise fdiv _ _) as [drawdown|e]; cbn [rbind]; [|reflexivity].
    destruct (pd_min E _) as [m|e]; cbn [rbind];
      [apply fabs_not_negative|reflexivity].
  - intros e He. rewrite He. split; reflexivity.
  - intros series e Hs Hp. rewrite Hs. cbn [rbind]. rewrite Hp. reflexivity.
Qed.

(** X8.  [_calculate_portfolio_beta] never raises.  It returns 1.0 when the
    benchmark download fails and when fewer than 50 dates are common to the
    portfolio and the benchmark.  With 50 common dates or more it returns
    the covariance of the aligned portfolio and market returns divided by
    the variance of the market returns when that variance compares strictly
    positive, and 1.0 otherwise.  A value other than 1.0 arises in no other
    way. *)
Theorem beta_defaults_to_one :
  forall (E : External) (returns : DataFrame) (weights : ndarray),
    (forall e, yf_download_one E "SPY" "2y" = Raise e ->
               _calculate_portfolio_beta E returns weights = Fin 1)
    /\ (forall spy spy_returns common_dates,
          yf_download_one E "SPY" "2y" = Ok spy ->
          pd_series_returns E spy = Ok spy_returns ->
          pd_intersection E (index returns) (s_index spy_returns)
          = Ok common_dates ->
          (List.length common_dates < 50)%nat ->
          _calculate_portfolio_beta E returns weights = Fin 1)
    /\ (forall spy spy_returns common_dates aligned portfolio_returns
               market_returns covariance market_variance,
          yf_download_one E "SPY" "2y" = Ok spy ->
          pd_series_returns E spy = Ok spy_returns ->
          pd_intersection E (index returns) (s_index spy_returns)
          = Ok common_dates ->
          (50 <= List.length common_dates)%nat ->
          pd_loc E returns common_dates = Ok aligned ->
          pd_weighted_sum E aligned weights = Ok portfolio_returns ->
          pd_series_loc E spy_returns common_dates = Ok market_returns ->
          np_cov01 E (s_values portfolio_returns) (s_values market_returns)
          = Ok covariance ->
          np_var E (s_values market_returns) = Ok market_variance ->
          _calculate_portfolio_beta E returns weights
          = if fgt market_variance (Fin 0)
            then fdiv covariance market_variance
            else Fin 1)
    /\ (_calculate_portfolio_beta E returns weights <> Fin 1 ->
        exists spy spy_returns common_dates aligned portfolio_returns
               market_returns covariance market_variance,
          yf_download_one E "SPY" "2y" = Ok spy
          /\ pd_series_returns E spy = Ok spy_returns
          /\ pd_intersection E (index returns) (s_index spy_returns)
             = Ok common_dates
          /\ (50 <= List.length common_dates)%nat
          /\ pd_loc E returns common_dates = Ok aligned
          /\ pd_weighted_sum E aligned weights = Ok portfolio_returns
          /\ pd_series_loc E spy_returns common_dates = Ok market_returns
          /\ np_cov01 E (s_values portfolio_returns) (s_values market_returns)
             = Ok covariance
          /\ np_var E (s_values market_returns) = Ok market_variance
          /\ fgt market_variance (Fin 0) = true
          /\ _calculate_portfolio_beta E returns weights
             = fdiv covariance market_variance).
Proof.
  intros E returns weights. unfold _calculate_portfolio_beta.
  split; [|split; [|split]].
  - intros e He. rewrite He. reflexivity.
  - intros spy spy_returns common_dates H1 H2 H3 Hlen.
    rewrite H1. cbn [rbind]. rewrite H2. cbn [rbind]. rewrite H3. cbn [rbind].
    apply Nat.ltb_lt in Hlen. rewrite Hlen. reflexivity.
  - intros spy spy_returns common_dates aligned portfolio_returns
           market_returns covariance market_variance
           H1 H2 H3 Hlen H4 H5 H6 H7 H8.
    rewrite H1. cbn [rbind]. rewrite H2. cbn [rbind]. rewrite H3. cbn [rbind].
    apply Nat.ltb_ge in Hlen. rewrite Hlen.
    rewrite H4. cbn [rbind]. rewrite H5. cbn [rbind]. rewrite H6. cbn [rbind].
    rewrite H7. cbn [rbind]. rewrite H8. reflexivity.
  - destruct (yf_download_one E "SPY" "2y") as [spy|e] eqn:H1; cbn [rbind];
      [|intros H; contradiction H; reflexivity].
    destruct (pd_series_returns E spy) as [sr|e] eqn:H2; cbn [rbind];
      [|intros H; contradiction H; reflexivity].
    destruct (pd_intersection E _ _) as [common|e] eqn:H3; cbn [rbind];
      [|intros H; contradiction H; reflexivity].
    destruct (Nat.ltb _ 50) eqn:Hlen;
      [intros H; contradiction H; reflexivity|].
    destruct (pd_loc E _ _) as [sub|e] eqn:H4; cbn [rbind];
      [|intros H; contradiction H; reflexivity].
    destruct (pd_weighted_sum E _ _) as [pr|e] eqn:H5; cbn [rbind];
      [|intros H; contradiction H; reflexivity].
    destruct (pd_series_loc E _ _) as [mr|e] eqn:H6; cbn [rbind];
      [|intros H; contradiction H; reflexivity].
    destruct (np_cov01 E _ _) as [c|e] eqn:H7; cbn [rbind];
      [|intros H; contradiction H; reflexivity].
    destruct (np_var E _) as [v|e] eqn:H8; cbn [rbind];
      [|intros H; contradiction H; reflexivity].
    destruct (fgt v (Fin 0)) eqn:Hv;
      [|intros H; contradiction H; reflexivity].
    intros _. exists spy, sr, common, sub, pr, mr, c, v.
    apply Nat.ltb_ge in Hlen.
    repeat (split; [first [reflexivity | exact Hlen | eassumption]|]).
    reflexivity.
Qed.

(* ------------------------------------------------------------------ *)
(** ** Further properties: suggestions and the diversification score *)

Lemma suggestions_run (weights : ndarray) (risk_tolerance : RiskTolerance) :
  _generate_rebalancing_suggestions weights risk_tolerance =
  m <~ np_max weights ;;
  mn <~ np_min (filter positive weights) ;;
  Ok ((if fgt m (Fin (4 # 10)) then [concentration_advice] else [])
      ++ (if flt mn (Fin (2 # 100)) then [micro_position_advice] else [])
      ++ [cadence risk_tolerance]).
Proof.
  unfold _generate_rebalancing_suggestions.
  destruct (np_max weights) as [m|e]; cbn [rbind]; [|reflexivity].
  fold positive.
  destruct (np_min (filter positive weights)) as [mn|e]; cbn [rbind];
    [|reflexivity].
  destruct (fgt m (Fin (4 # 10))), (flt mn (Fin (2 # 100))),
    risk_tolerance; reflexivity.
Qed.

Lemma last_app_singleton {A} (l : list A) (a d : A) : last (l ++ [a]) d = a.
Proof.
  induction l as [|b l IH]; [reflexivity|].
  simpl. destruct (l ++ [a]) eqn:H; [destruct l; discriminate H|exact IH].
Qed.

(** X9.  [_generate_rebalancing_suggestions] raises [ValueError] exactly
    when no weight is strictly positive (an empty, all-zero or all-NaN
    vector).  Otherwise it returns between one and three suggestions, the
    last of which is the cadence suggestion of the risk tolerance, the
    others being the concentration and the micro-position advice. *)
Theorem suggestions_need_a_positive_weight :
  forall (weights : ndarray) (risk_tolerance : RiskTolerance),
    (filter positive weights = [] ->
     _generate_rebalancing_suggestions weights risk_tolerance
     = Raise zero_size_error)
    /\ (filter positive weights <> [] ->
        exists suggestions,
          _generate_rebalancing_suggestions weights risk_tolerance
          = Ok suggestions
          /\ (1 <= List.length suggestions <= 3)%nat
          /\ last suggestions "" = cadence risk_tolerance
          /\ forall s, In s suggestions ->
               s = concentration_advice \/ s = micro_position_advice
               \/ s = cadence risk_tolerance).
Proof.
  intros weights risk_tolerance. rewrite suggestions_run. split.
  - intros Hnone. rewrite Hnone.
    destruct weights as [|w ws]; [reflexivity|]. reflexivity.
  - intros Hsome.
    destruct weights as [|w ws]; [contradiction Hsome; reflexivity|].
    cbn [np_max rbind].
    destruct (filter positive (w :: ws)) as [|p ps]; [contradiction Hsome; reflexivity|].
    cbn [np_min rbind]. eexists. split; [reflexivity|].
    split; [|split].
    + destruct (fgt _ (Fin (4 # 10))), (flt _ (Fin (2 # 100))); simpl; lia.
    + rewrite app_assoc. apply last_app_singleton.
    + intros s Hs.
      destruct (fgt _ (Fin (4 # 10))), (flt _ (Fin (2 # 100)));
        simpl in Hs; intuition.
Qed.

Lemma suggestions_need_a_positive_weight_witness :
  filter positive [Fin 0; Fin 0] = [] /\
  _generate_rebalancing_suggestions [Fin 0; Fin 0] MODERATE
  = Raise zero_size_error.
Proof.
  assert (H : filter positive [Fin 0; Fin 0] = []) by reflexivity.
  split; [exact H|].
  exact (proj1 (suggestions_need_a_positive_weight [Fin 0; Fin 0] MODERATE) H).
Defined.

Lemma in_unit_not_positive (w : float64) :
  in_unit_interval w = true -> positive w = false ->
  exists q, w = Fin q /\ q == 0.
Proof.
  destruct w as [q| | |]; simpl; try discriminate.
  intros Hu Hp. apply andb_prop in Hu. destruct Hu as [H0 _].
  apply Qle_bool_iff in H0. exists q. split; [reflexivity|].
  unfold positive, fgt in Hp. simpl in Hp.
  destruct (Qcompare_spec 0 q) as [H|H|H]; try discriminate; lra.
Qed.

Lemma no_positive_weight_sum (weights : ndarray) :
  forallb in_unit_interval weights = true ->
  filter positive weights = [] ->
  exists s, np_sum weights = Fin s /\ s == 0.
Proof.
  induction weights as [|w ws IH]; simpl; intros Hu Hf.
  - exists 0. split; reflexivity.
  - apply andb_prop in Hu. destruct Hu as [Hw Hws].
    destruct (positive w) eqn:Hp; [discriminate Hf|].
    destruct (in_unit_not_positive w Hw Hp) as [q [Hq Hq0]].
    destruct (IH Hws Hf) as [s [Hs Hs0]].
    exists (q + s). unfold np_sum in *. simpl. rewrite Hs, Hq.
    split; [reflexivity|]. lra.
Qed.

Lemma valid_weights_have_positive (weights : ndarray) :
  valid_weights weights = true -> filter positive weights <> [].
Proof.
  unfold valid_weights, sums_to_one. intros H Hf.
  apply andb_prop in H. destruct H as [Hsum Hu].
  destruct (no_positive_weight_sum weights Hu Hf) as [s [Hs Hs0]].
  rewrite Hs in Hsum. apply Qle_bool_iff in Hsum.
  apply Qabs_Qle_condition in Hsum. lra.
Qed.

Lemma in_unit_finite (w : float64) :
  in_unit_interval w = true -> exists q, w = Fin q /\ 0 <= q <= 1.
Proof.
  destruct w as [q| | |]; simpl; try discriminate.
  intros H. apply andb_prop in H. destruct H as [H0 H1].
  apply Qle_bool_iff in H0. apply Qle_bool_iff in H1.
  exists q. split; [reflexivity|split; assumption].
Qed.

Lemma small_portfolio_max (weights : ndarray) :
  valid_weights weights = true ->
  (List.length weights <= 2)%nat ->
  exists m, np_max weights = Ok m /\ fgt m (Fin (4 # 10)) = true.
Proof.
  unfold valid_weights, sums_to_one. intros H Hlen.
  apply andb_prop in H. destruct H as [Hsum Hu].
  destruct weights as [|a [|b [|c ws]]]; simpl in Hlen; try lia.
  - vm_compute in Hsum. discriminate Hsum.
  - cbn [forallb] in Hu. rewrite andb_true_r in Hu.
    destruct (in_unit_finite a Hu) as [qa [Ha Hra]]. subst a.
    unfold np_sum in Hsum. cbn [fold_right fadd] in Hsum.
    apply Qle_bool_iff, Qabs_Qle_condition in Hsum.
    exists (Fin qa). split; [reflexivity|].
    unfold fgt. cbn [flt].
    destruct (Qcompare_spec (4 # 10) qa) as [H|H|H]; try reflexivity; lra.
  - cbn [forallb] in Hu. rewrite andb_true_r in Hu.
    apply andb_prop in Hu. destruct Hu as [Hua Hub].
    destruct (in_unit_finite a Hua) as [qa [Ha Hra]]. subst a.
    destruct (in_unit_finite b Hub) as [qb [Hb Hrb]]. subst b.
    unfold np_sum in Hsum. cbn [fold_right fadd] in Hsum.
    apply Qle_bool_iff, Qabs_Qle_condition in Hsum.
    cbn [np_max fold_left np_maximum flt].
    destruct (Qcompare_spec qa qb) as [H|H|H].
    + exists (Fin qa). split; [reflexivity|]. unfold fgt. cbn [flt].
      destruct (Qcompare_spec (4 # 10) qa) as [H'|H'|H']; try reflexivity; lra.
    + exists (Fin qb). split; [reflexivity|]. unfold fgt. cbn [flt].
      destruct (Qcompare_spec (4 # 10) qb) as [H'|H'|H']; try reflexivity; lra.
    + exists (Fin qa). split; [reflexivity|]. unfold fgt. cbn [flt].
      destruct (Qcompare_spec (4 # 10) qa) as [H'|H'|H']; try reflexivity; lra.
Qed.

(** X10.  On a weight vector that satisfies the sum and bound invariants
    the suggestions never fail, and a portfolio of one or two assets always
    receives the concentration advice: its largest weight is at least
    about one half, above the 0.4 threshold. *)
Theorem small_portfolios_are_flagged_concentrated :
  forall (weights : ndarray) (risk_tolerance : RiskTolerance),
    valid_weights weights = true ->
    exists suggestions,
      _generate_rebalancing_suggestions weights risk_tolerance = Ok suggestions
      /\ ((List.length weights <= 2)%nat ->
          hd "" suggestions = concentration_advice).
Proof.
  intros weights risk_tolerance Hvalid.
  pose proof (valid_weights_have_positive weights Hvalid) as Hpos.
  rewrite suggestions_run.
  destruct weights as [|w ws] eqn:Hw;
    [contradiction Hpos; reflexivity|]. rewrite <- Hw in *.
  assert (Hmax : exists m, np_max weights = Ok m)
    by (rewrite Hw; eexists; reflexivity).
  destruct Hmax as [m Hm]. rewrite Hm. cbn [rbind].
  destruct (filter positive weights) as [|p ps] eqn:Hf;
    [contradiction Hpos; reflexivity|].
  cbn [np_min rbind]. eexists. split; [reflexivity|].
  intros Hlen.
  destruct (small_portfolio_max weights Hvalid Hlen) as [m' [Hm' Hgt]].
  rewrite Hm in Hm'. inversion Hm'. subst m'. rewrite Hgt. reflexivity.
Qed.

Lemma small_portfolios_are_flagged_concentrated_witness :
  valid_weights [Fin (55 # 100); Fin (45 # 100)] = true /\
  exists suggestions,
    _generate_rebalancing_suggestions [Fin (55 # 100); Fin (45 # 100)]
      CONSERVATIVE = Ok suggestions
    /\ hd "" suggestions = concentration_advice.
Proof.
  assert (H : valid_weights [Fin (55 # 100); Fin (45 # 100)] = true)
    by reflexivity.
  split; [exact H|].
  destruct (small_portfolios_are_flagged_concentrated
              [Fin (55 # 100); Fin (45 # 100)] CONSERVATIVE H)
    as [suggestions [Hs Hc]].
  exists suggestions. split; [exact Hs|]. apply Hc. simpl. lia.
Defined.

(** X11.  [_calculate_diversification_score] raises [ZeroDivisionError] on
    an empty vector.  On every other vector, whatever it holds (negative,
    infinite or NaN entries included), it returns a finite score between 0
    and 1. *)
Theorem diversification_score_is_in_unit_interval :
  forall weights : ndarray,
    (weights = [] ->
     _calculate_diversification_score weights = Raise ZeroDivisionError)
    /\ (weights <> [] ->
        exists q, _calculate_diversification_score weights = Ok (Fin q)
                  /\ 0 <= q <= 1).
Proof.
  intros weights. split.
  - intros H. subst weights. reflexivity.
  - intros H. unfold _calculate_diversification_score.
    destruct weights as [|w ws]; [contradiction H; reflexivity|].
    cbn [List.length py_truediv rbind].
    destruct (py_clamp_range
                (fdiv (fsub (Fin 1) (np_sum (square (w :: ws))))
                   (fsub (Fin 1)
                      (Fin (1 / inject_Z (Z.of_nat (S (List.length ws))))))))
      as [q [Hq Hr]].
    exists q. rewrite Hq. split; [reflexivity|exact Hr].
Qed.

Lemma diversification_score_is_in_unit_interval_witness :
  [NaN; PInf; Fin (-3)] <> [] /\
  exists q, _calculate_diversification_score [NaN; PInf; Fin (-3)] = Ok (Fin q)
            /\ 0 <= q <= 1.
Proof.
  assert (H : [NaN; PInf; Fin (-3)] <> []) by discriminate.
  split; [exact H|].
  exact (proj2 (diversification_score_is_in_unit_interval
                  [NaN; PInf; Fin (-3)]) H).
Defined.

(* ------------------------------------------------------------------ *)
(** ** Further properties: risk contribution at zero variance *)



(* ------------------------------------------------------------------ *)
(** ** Further properties: [optimize] and the endpoint as a whole *)

Lemma optimize_raise_logged E symbols risk_tolerance investment_amount
    constraints l e l' :
  optimize E symbols risk_tolerance investment_amount constraints l
  = (Raise e, l') ->
  exists l0, l' = l0 ++ [(ERROR, optimization_failed e)].
Proof.
  unfold optimize, try_except.
  match goal with
  | |- match ?body with _ => _ end = _ -> _ =>
      destruct body as [[response|e0] l0]
  end.
  - intros H. discriminate H.
  - unfold bind, logger, raise. intros H. inversion H. subst.
    exists l0. reflexivity.
Qed.

(** X13.  The endpoint never lets an exception other than [HTTPException]
    with status 500 escape.  When [optimize] raises [e], the error
    "Portfolio optimization failed: <e>" is logged twice, once by
    [optimize] and once by the endpoint, and is the detail of the HTTP
    error; when [optimize] answers, the endpoint passes the response on. *)
Theorem optimization_failures_become_http_500 :
  forall (E : External) (request : PortfolioOptimizationRequest.t)
         (user_id : option string) (l : log),
    let run :=
      optimize E
        (PortfolioOptimizationRequest.symbols request)
        (PortfolioOptimizationRequest.risk_tolerance request)
        (PortfolioOptimizationRequest.investment_amount request)
        (Some (PortfolioOptimizationRequest.constraints request))
        (l ++ [request_info user_id]) in
    (forall response l',
        optimize_portfolio E request user_id l = (Ok response, l') <->
        run = (Ok response, l'))
    /\ (forall e l',
          optimize_portfolio E request user_id l = (Raise e, l') ->
          exists e0 l0,
            run = (Raise e0, l0 ++ [(ERROR, optimization_failed e0)])
            /\ e = HTTPException 500 (optimization_failed e0)
            /\ l' = (l0 ++ [(ERROR, optimization_failed e0)])
                    ++ [(ERROR, optimization_failed e0)]).
Proof.
  intros E request user_id l run. subst run.
  unfold optimize_portfolio, try_except, bind, logger, ret, raise, request_info.
  match goal with
  | |- context [optimize ?a ?b ?c ?d ?e ?f] =>
      destruct (optimize a b c d e f) as [[response|e0] l0] eqn:Hrun
  end.
  - split.
    + intros resp l'. split; intros H.
      * inversion H. subst. exact Hrun.
      * rewrite <- H. symmetry. exact Hrun.
    + intros e l' H. discriminate H.
  - split.
    + intros resp l'. split; intros H.
      * discriminate H.
      * pose proof (eq_trans (eq_sym Hrun) H) as Habs. discriminate Habs.
    + intros e l' H. inversion H. subst.
      destruct (optimize_raise_logged _ _ _ _ _ _ _ _ Hrun) as [l1 Hl1].
      subst l0. exists e0, l1. split; [exact Hrun|]. split; reflexivity.
Qed.

(** X5.  Line 116 asks pandas for the fill method [forward], which pandas
    does not have.  As pandas raises at that call whatever the frame,
    [_fetch_portfolio_data] returns a frame for no request: it raises the
    error of the download, of [symbols[0]] or of [fillna], after logging
    "Failed to fetch portfolio data: ...". *)
Theorem no_request_gets_its_price_history :
  forall E : External,
    rejects_forward_fill E ->
    forall (symbols : list string) (period : string) (l : log),
    exists e : exn,
      _fetch_portfolio_data E symbols period l
      = (Raise e, l ++ [fetch_error e])
      /\ (forall s d,
            yf_download E symbols period = Ok d ->
            symbols = s :: tl symbols ->
            exists df, pd_fillna E "forward" df = Raise e).
Proof.
  intros E Hreject symbols period l.
  unfold _fetch_portfolio_data, try_except, bind, lift, ret, raise, logger.
  destruct (yf_download E symbols period) as [[s|d]|e0] eqn:Hdl.
  - destruct symbols as [|name rest]; simpl.
    + exists IndexError. split; [reflexivity|]. intros s0 d0 _ H.
      discriminate H.
    + destruct (Hreject (to_frame s name)) as [e He]. rewrite He.
      exists e. split; [reflexivity|]. intros _ _ _ _.
      exists (to_frame s name). exact He.
  - destruct (Hreject d) as [e He]. rewrite He.
    exists e. split; [reflexivity|]. intros _ _ _ _. exists d. exact He.
  - exists e0. split; [reflexivity|]. intros s d H. discriminate H.
Qed.

Lemma no_request_gets_its_price_history_witness :
  rejects_forward_fill (Paper.world Paper.keeps_start)
  /\ exists e : exn,
       _fetch_portfolio_data (Paper.world Paper.keeps_start) ["AAPL"; "MSFT"]
         "2y" []
       = (Raise e, [] ++ [fetch_error e])
       /\ exists df,
            pd_fillna (Paper.world Paper.keeps_start) "forward" df = Raise e.
Proof.
  assert (H : rejects_forward_fill (Paper.world Paper.keeps_start))
    by (intros df; exists invalid_fill_method; reflexivity).
  split; [exact H|].
  destruct (no_request_gets_its_price_history _ H ["AAPL"; "MSFT"] "2y" [])
    as [e [Hrun Hfill]].
  exists e. split; [exact Hrun|].
  destruct (yf_download (Paper.world Paper.keeps_start) ["AAPL"; "MSFT"] "2y")
    as [d|e0] eqn:Hdl; [|vm_compute in Hdl; discriminate Hdl].
  apply (Hfill "AAPL" d eq_refl eq_refl).
Defined.

(** X14.  End to end, for the same reason: [optimize] returns a response
    for no request, and the endpoint answers every request with HTTP 500
    "Portfolio optimization failed: ...", after the failure has been logged
    once by [_fetch_portfolio_data], once by [optimize] and once by the
    endpoint. *)
Theorem every_request_is_answered_with_http_500 :
  forall E : External,
    rejects_forward_fill E ->
    forall (request : PortfolioOptimizationRequest.t)
           (user_id : option string) (l : log),
    exists e : exn,
      optimize E
        (PortfolioOptimizationRequest.symbols request)
        (PortfolioOptimizationRequest.risk_tolerance request)
        (PortfolioOptimizationRequest.investment_amount request)
        (Some (PortfolioOptimizationRequest.constraints request)) l
      = (Raise e, l ++ [fetch_error e; (ERROR, optimization_failed e)])
      /\ optimize_portfolio E request user_id l
         = (Raise (HTTPException 500 (optimization_failed e)),
            l ++ [request_info user_id; fetch_error e;
                  (ERROR, optimization_failed e);
                  (ERROR, optimization_failed e)]).
Proof.
  intros E Hreject request user_id l.
  assert (Hfetch : forall l0, exists e,
             _fetch_portfolio_data E
               (PortfolioOptimizationRequest.symbols request) "2y" l0
             = (Raise e, l0 ++ [fetch_error e])
             /\ forall l1,
                  _fetch_portfolio_data E
                    (PortfolioOptimizationRequest.symbols request) "2y" l1
                  = (Raise e, l1 ++ [fetch_error e])).
  { intros l0.
    unfold _fetch_portfolio_data, try_except, bind, lift, ret, raise, logger.
    destruct (yf_download E (PortfolioOptimizationRequest.symbols request) "2y")
      as [[s|d]|e0].
    - destruct (PortfolioOptimizationRequest.symbols request)
        as [|name rest]; simpl.
      + exists IndexError. split; [reflexivity|]. intros l1. reflexivity.
      + destruct (Hreject (to_frame s name)) as [e He]. rewrite He.
        exists e. split; [reflexivity|]. intros l1. reflexivity.
    - destruct (Hreject d) as [e He]. rewrite He.
      exists e. split; [reflexivity|]. intros l1. reflexivity.
    - exists e0. split; [reflexivity|]. intros l1. reflexivity. }
  destruct (Hfetch l) as [e [_ He]]. exists e. split.
  - rewrite (optimize_when_fetch_raises E _ _ _ _ l e _ (He l)).
    rewrite <- app_assoc. reflexivity.
  - unfold optimize_portfolio, try_except, bind at 1, logger at 1.
    fold (request_info user_id).
    unfold bind at 1.
    rewrite (optimize_when_fetch_raises E _ _ _ _ _ e _
               (He (l ++ [request_info user_id]))).
    unfold bind, logger, raise. fold (optimization_failed e).
    rewrite <- !app_assoc. reflexivity.
Qed.

Lemma every_request_is_answered_with_http_500_witness :
  rejects_forward_fill (Paper.world Paper.keeps_start)
  /\ exists e : exn,
       optimize (Paper.world Paper.keeps_start)
         (PortfolioOptimizationRequest.symbols (example_request MAX_SHARPE))
         (PortfolioOptimizationRequest.risk_tolerance
            (example_request MAX_SHARPE))
         (PortfolioOptimizationRequest.investment_amount
            (example_request MAX_SHARPE))
         (Some (PortfolioOptimizationRequest.constraints
                  (example_request MAX_SHARPE))) []
       = (Raise e, [] ++ [fetch_error e; (ERROR, optimization_failed e)])
       /\ optimize_portfolio (Paper.world Paper.keeps_start)
            (example_request MAX_SHARPE) (Some "u1") []
          = (Raise (HTTPException 500 (optimization_failed e)),
             [] ++ [request_info (Some "u1"); fetch_error e;
                    (ERROR, optimization_failed e);
                    (ERROR, optimization_failed e)]).
Proof.
  assert (H : rejects_forward_fill (Paper.world Paper.keeps_start))
    by (intros df; exists invalid_fill_method; reflexivity).
  split; [exact H|].
  exact (every_request_is_answered_with_http_500 _ H
           (example_request MAX_SHARPE) (Some "u1") []).
Defined.

(* ------------------------------------------------------------------ *)
(** ** Further properties: authentication *)

Lemma verify_jwt_token_raises {payload} (J : JWT payload) token l e :
  jwt_decode J token secret_key ["HS256"] true = Raise e ->
  exists msg record,
    verify_jwt_token J token l
    = (Raise (Exception "Exception" msg), l ++ [(ERROR, record)])
    /\ is_verification_message msg
    /\ (issubclass J (exn_class e) "ExpiredSignatureError" = true ->
        msg = "Token has expired" /\ record = "Token has expired").
Proof.
  intros He. unfold verify_jwt_token, try_except, bind, lift, ret.
  rewrite He.
  destruct (issubclass J (exn_class e) "ExpiredSignatureError") eqn:Hexp.
  - eexists. eexists. split; [reflexivity|]. split.
    + left. reflexivity.
    + intros _. split; reflexivity.
  - destruct (issubclass J (exn_class e) "InvalidTokenError").
    + eexists. eexists. split; [reflexivity|]. split.
      * right. left. reflexivity.
      * intros H. discriminate H.
    + eexists. eexists. split; [reflexivity|]. split.
      * right. right. reflexivity.
      * intros H. discriminate H.
Qed.

(** X18.  [verify_jwt_token] returns the decoded payload unchanged and logs
    nothing when [jwt.decode] accepts the token (checked with the fixed
    secret, HS256 only, expiry verified).  When [jwt.decode] raises, it
    logs one error and raises a plain [Exception] whose message is one of
    "Token has expired", "Invalid token" and "Token verification failed":
    the library's own message reaches the log, not the caller.  An expired
    signature always gives "Token has expired". *)
Theorem verify_jwt_token_outcomes :
  forall (payload : Type) (J : JWT payload) (token : string) (l : log),
    (forall p,
        jwt_decode J token secret_key ["HS256"] true = Ok p ->
        verify_jwt_token J token l = (Ok p, l))
    /\ (forall e,
          jwt_decode J token secret_key ["HS256"] true = Raise e ->
          exists msg record,
            verify_jwt_token J token l
            = (Raise (Exception "Exception" msg), l ++ [(ERROR, record)])
            /\ is_verification_message msg
            /\ (issubclass J (exn_class e) "ExpiredSignatureError" = true ->
                msg = "Token has expired" /\ record = "Token has expired")).
Proof.
  intros payload J token l. split.
  - intros p Hp. unfold verify_jwt_token, try_except, bind, lift, ret.
    rewrite Hp. reflexivity.
  - intros e He. apply verify_jwt_token_raises. exact He.
Qed.

Lemma verify_jwt_token_outcomes_witness :
  verify_jwt_token example_jwt "good" [] = (Ok [("user_id", "u1")], [])
  /\ exists msg record,
       verify_jwt_token example_jwt "old" []
       = (Raise (Exception "Exception" msg), [] ++ [(ERROR, record)])
       /\ is_verification_message msg
       /\ (issubclass example_jwt "ExpiredSignatureError"
             "ExpiredSignatureError" = true ->
           msg = "Token has expired" /\ record = "Token has expired").
Proof.
  split.
  - apply (proj1 (verify_jwt_token_outcomes _ example_jwt "good" [])).
    reflexivity.
  - apply (proj2 (verify_jwt_token_outcomes _ example_jwt "old" [])
             (Exception "ExpiredSignatureError" "Signature has expired")).
    reflexivity.
Defined.

(** X19.  [get_current_user] lets no exception escape but
    [HTTPException] 401 with the fixed detail "Invalid authentication
    credentials".  It succeeds exactly when [jwt.decode] accepts the bearer
    token, returning the payload and logging nothing; a rejected token
    leaves two error records, the second being "Authentication failed: "
    followed by one of the three verification messages. *)
Theorem get_current_user_raises_only_401 :
  forall (payload : Type) (J : JWT payload)
         (creds : HTTPAuthorizationCredentials) (l : log),
    (forall p l',
        get_current_user J creds l = (Ok p, l') <->
        jwt_decode J (credentials creds) secret_key ["HS256"] true = Ok p
        /\ l' = l)
    /\ (forall e l',
          get_current_user J creds l = (Raise e, l') ->
          e = unauthorized
          /\ exists record msg,
               l' = l ++ [(ERROR, record);
                          (ERROR, "Authentication failed: " +++ msg)]
               /\ is_verification_message msg).
Proof.
  intros payload J creds l.
  destruct (jwt_decode J (credentials creds) secret_key ["HS256"] true)
    as [p0|e0] eqn:Hdec.
  - assert (Hrun : get_current_user J creds l = (Ok p0, l)).
    { unfold get_current_user, try_except, bind, ret.
      unfold verify_jwt_token, try_except, bind, lift, ret. rewrite Hdec.
      reflexivity. }
    rewrite Hrun. split.
    + intros p l'. split.
      * intros H. inversion H. split; reflexivity.
      * intros [H1 H2]. inversion H1. subst. reflexivity.
    + intros e l' H. discriminate H.
  - destruct (verify_jwt_token_raises J (credentials creds) l e0 Hdec)
      as [msg [record [Hv [Hmsg _]]]].
    assert (Hrun : get_current_user J creds l
                   = (Raise unauthorized,
                      l ++ [(ERROR, record);
                            (ERROR, "Authentication failed: " +++ msg)])).
    { unfold get_current_user, try_except, bind, ret, logger, raise.
      rewrite Hv. cbn [str]. rewrite <- app_assoc. reflexivity. }
    rewrite Hrun. split.
    + intros p l'. split.
      * intros H. discriminate H.
      * intros [H _]. discriminate H.
    + intros e l' H. inversion H. subst. split; [reflexivity|].
      exists record, msg. split; [reflexivity|exact Hmsg].
Qed.

Lemma get_current_user_raises_only_401_witness :
  get_current_user example_jwt (mkCredentials "Bearer" "good") []
  = (Ok [("user_id", "u1")], [])
  /\ unauthorized = unauthorized
  /\ exists record msg,
       [(ERROR, "Invalid token: Not enough segments");
        (ERROR, "Authentication failed: Invalid token")]
       = [] ++ [(ERROR, record); (ERROR, "Authentication failed: " +++ msg)]
       /\ is_verification_message msg.
Proof.
  split.
  - apply (proj1 (get_current_user_raises_only_401 _ example_jwt
                    (mkCredentials "Bearer" "good") [])).
    split; reflexivity.
  - apply (proj2 (get_current_user_raises_only_401 _ example_jwt
                    (mkCredentials "Bearer" "garbage") [])).
    reflexivity.
Defined.

(* ------------------------------------------------------------------ *)
(** ** Further properties: setup_logger *)

Lemma dict_find_set_same {V} (d : dict V) (k : string) (v : V) :
  dict_find (dict_set d k v) k = Some v.
Proof. unfold dict_set. simpl. rewrite String.eqb_refl. reflexivity. Qed.

Lemma dict_find_set_other {V} (d : dict V) (k k' : string) (v : V) :
  k <> k' -> dict_find (dict_set d k v) k' = dict_find d k'.
Proof.
  intros H. unfold dict_set. simpl.
  destruct (String.eqb_spec k k'); [contradiction|reflexivity].
Qed.

Lemma setup_logger_ok level_attr name level registry lv :
  level_attr (upper level) = Ok lv ->
  exists registry',
    setup_logger level_attr name level registry = (Ok name, registry')
    /\ level_of registry' name = Some lv
    /\ handlers_of registry' name
       = match handlers_of registry name with
         | [] => [console_handler]
         | h :: hs => h :: hs
         end
    /\ forall other, other <> name ->
         dict_find registry' other = dict_find registry other.
Proof.
  intros Hlv. unfold setup_logger, getLogger, handlers_of, level_of.
  destruct (dict_find registry name) as [lg|] eqn:Hfind; rewrite Hlv;
    cbn [handlers logger_level];
    [destruct (handlers lg) as [|h hs] eqn:Hh|];
    (eexists; split; [reflexivity|]);
    rewrite ?dict_find_set_same; cbn [option_map handlers logger_level app];
    (split; [reflexivity|split; [reflexivity|]]);
    intros other Hother; rewrite ?dict_find_set_other by congruence;
    reflexivity.
Qed.

(** X20.  With a level name the [logging] module knows, [setup_logger]
    returns the logger of that name with the requested level.  A logger
    that had no handler gets exactly the one console handler (stdout, level
    INFO, the fixed format); a logger that already had handlers keeps them
    as they were.  No other logger of the registry is touched. *)
Theorem setup_logger_sets_level_and_one_handler :
  forall (level_attr : string -> result Z) (name level : string)
         (registry : dict Logger) (lv : Z),
    level_attr (upper level) = Ok lv ->
    exists registry',
      setup_logger level_attr name level registry = (Ok name, registry')
      /\ level_of registry' name = Some lv
      /\ handlers_of registry' name
         = match handlers_of registry name with
           | [] => [console_handler]
           | h :: hs => h :: hs
           end
      /\ forall other, other <> name ->
           dict_find registry' other = dict_find registry other.
Proof.
  intros level_attr name level registry lv Hlv.
  apply setup_logger_ok. exact Hlv.
Qed.

Lemma setup_logger_sets_level_and_one_handler_witness :
  level_names (upper "info") = Ok 20%Z /\
  exists registry',
    setup_logger level_names "app" "info" [] = (Ok "app", registry')
    /\ level_of registry' "app" = Some 20%Z
    /\ handlers_of registry' "app"
       = match handlers_of [] "app" with
         | [] => [console_handler]
         | h :: hs => h :: hs
         end
    /\ forall other, other <> "app" ->
         dict_find registry' other = dict_find [] other.
Proof.
  assert (H : level_names (upper "info") = Ok 20%Z) by reflexivity.
  split; [exact H|].
  exact (setup_logger_sets_level_and_one_handler level_names "app" "info" []
           20%Z H).
Defined.

(** X21.  Calling [setup_logger] again for the same name adds no second
    handler: the handlers are those left by the first call, and the level
    is the one of the later call.  Starting from a logger without handlers
    the logger ends with the single console handler however often it is
    set up. *)
Theorem setup_logger_twice_adds_no_handler :
  forall (level_attr : string -> result Z) (name level1 level2 : string)
         (registry : dict Logger) (lv1 lv2 : Z),
    level_attr (upper level1) = Ok lv1 ->
    level_attr (upper level2) = Ok lv2 ->
    let registry1 := snd (setup_logger level_attr name level1 registry) in
    let registry2 := snd (setup_logger level_attr name level2 registry1) in
    fst (setup_logger level_attr name level2 registry1) = Ok name
    /\ handlers_of registry2 name = handlers_of registry1 name
    /\ level_of registry2 name = Some lv2
    /\ (handlers_of registry name = [] ->
        handlers_of registry2 name = [console_handler]).
Proof.
  intros level_attr name level1 level2 registry lv1 lv2 H1 H2 registry1
    registry2.
  destruct (setup_logger_ok level_attr name level1 registry lv1 H1)
    as [r1 [Hrun1 [_ [Hh1 _]]]].
  assert (Hr1 : registry1 = r1) by (unfold registry1; rewrite Hrun1; reflexivity).
  destruct (setup_logger_ok level_attr name level2 registry1 lv2 H2)
    as [r2 [Hrun2 [Hl2 [Hh2 _]]]].
  assert (Hr2 : registry2 = r2) by (unfold registry2; rewrite Hrun2; reflexivity).
  rewrite Hrun2, Hr2. cbn [fst].
  assert (Hsame : handlers_of r2 name = handlers_of registry1 name).
  { rewrite Hh2, Hr1, Hh1.
    destruct (handlers_of registry name); reflexivity. }
  repeat split.
  - exact Hsame.
  - exact Hl2.
  - intros Hnone. rewrite Hsame, Hr1, Hh1, Hnone. reflexivity.
Qed.

Lemma setup_logger_twice_adds_no_handler_witness :
  level_names (upper "info") = Ok 20%Z /\
  level_names (upper "debug") = Ok 10%Z /\
  let registry1 := snd (setup_logger level_names "app" "info" []) in
  let registry2 := snd (setup_logger level_names "app" "debug" registry1) in
  fst (setup_logger level_names "app" "debug" registry1) = Ok "app"
  /\ handlers_of registry2 "app" = handlers_of registry1 "app"
  /\ level_of registry2 "app" = Some 10%Z
  /\ (handlers_of [] "app" = [] ->
      handlers_of registry2 "app" = [console_handler]).
Proof.
  assert (H1 : level_names (upper "info") = Ok 20%Z) by reflexivity.
  assert (H2 : level_names (upper "debug") = Ok 10%Z) by reflexivity.
  split; [exact H1|split; [exact H2|]].
  exact (setup_logger_twice_adds_no_handler level_names "app" "info" "debug"
           [] 20%Z 10%Z H1 H2).
Defined.

(** X22.  A level name the [logging] module rejects makes [setup_logger]
    raise that error after the logger was looked up and before anything is
    set: the logger exists afterwards (created without handler if it was
    new), an existing logger keeps its level and handlers, and no other
    logger is touched. *)
Theorem setup_logger_bad_level_changes_nothing :
  forall (level_attr : string -> result Z) (name level : string)
         (registry : dict Logger) (e : exn),
    level_attr (upper level) = Raise e ->
    exists registry',
      setup_logger level_attr name level registry = (Raise e, registry')
      /\ dict_find registry' name
         = Some match dict_find registry name with
                | Some lg => lg
                | None => new_logger
                end
      /\ handlers_of registry' name = handlers_of registry name
      /\ forall other, other <> name ->
           dict_find registry' other = dict_find registry other.
Proof.
  intros level_attr name level registry e He.
  unfold setup_logger, getLogger, handlers_of.
  destruct (dict_find registry name) as [lg|] eqn:Hfind; rewrite He.
  - exists registry. rewrite Hfind. repeat split.
  - eexists. split; [reflexivity|].
    rewrite dict_find_set_same. repeat split.
    intros other Hother. apply dict_find_set_other. congruence.
Qed.

Lemma setup_logger_bad_level_changes_nothing_witness :
  let e := Exception "AttributeError"
             "module 'logging' has no attribute 'VERBOSE'" in
  level_names (upper "verbose") = Raise e /\
  exists registry',
    setup_logger level_names "app" "verbose" [] = (Raise e, registry')
    /\ dict_find registry' "app"
       = Some match dict_find [] "app" with
              | Some lg => lg
              | None => new_logger
              end
    /\ handlers_of registry' "app" = handlers_of [] "app"
    /\ forall other, other <> "app" ->
         dict_find registry' other = dict_find [] other.
Proof.
  intros e.
  assert (H : level_names (upper "verbose") = Raise e) by reflexivity.
  split; [exact H|].
  exact (setup_logger_bad_level_changes_nothing level_names "app" "verbose"
           [] e H).
Defined.

Lemma upper_ascii_idempotent (c : Ascii.ascii) :
  upper_ascii (upper_ascii c) = upper_ascii c.
Proof.
  destruct c as [[] [] [] [] [] [] [] []]; vm_compute; reflexivity.
Qed.

Lemma upper_idempotent (s : string) : upper (upper s) = upper s.
Proof.
  induction s as [|c s IH]; simpl.
  - reflexivity.
  - rewrite upper_ascii_idempotent, IH. reflexivity.
Qed.

(** X23.  The level name is case-insensitive: [setup_logger] behaves for
    [level] exactly as for its upper-case form, whatever the registry. *)
Theorem setup_logger_level_is_case_insensitive :
  forall (level_attr : string -> result Z) (name level : string)
         (registry : dict Logger),
    setup_logger level_attr name level registry
    = setup_logger level_attr name (upper level) registry.
Proof.
  intros level_attr name level registry. unfold setup_logger.
  rewrite upper_idempotent. reflexivity.
Qed.
